(** * ScrapePlayers: depth-chart extraction and cross-unit consolidation

    A shallow embedding of the Python sources of the repository
    (process_defenses.py, scrapeMLB.py, scrapeNBA.py, scrapeNHL.py,
    start_combining.py, master_combine.py) together with the properties
    of the specification that concern them.

    Conventions of the embedding.
    - A Python [str] is a [string]; a character is a code point below 256.
      Python compares strings by code point, which is [String.compare].
    - A Python [dict] whose iteration order is never observed is a [gmap];
      one whose insertion order is observed is an association list.
    - A function that can raise returns in the [result] monad below.
    - The markup handed to BeautifulSoup is taken after parsing, as a tree
      of [node]s; the CSV files are taken as lists of rows of fields.  The
      HTML parser and the CSV reader and writer are library code. *)

From stdpp Require Import gmap strings list sorting pretty.
From Stdlib Require Import ZArith Ascii String.

Local Open Scope Z_scope.

(** ** Python's sorting

    [sorted(l, key=f)] and [l.sort(key=f)] are stable and compare keys with
    [<] only.  The insertion below places an element in front of the first
    element whose key is not smaller, so equal keys keep their order. *)

Module Py.

Section Sorting.
Context {A K : Type}.
Variable key : A → K.
Variable cmp : K → K → comparison.

Definition lt (a b : K) : bool :=
  match cmp a b with Lt => true | _ => false end.

Fixpoint insert_sorted (x : A) (l : list A) : list A :=
  match l with
  | [] => [x]
  | y :: l' =>
      if lt (key y) (key x) then y :: insert_sorted x l' else x :: y :: l'
  end.

Definition sorted (l : list A) : list A := foldr insert_sorted [] l.
End Sorting.

(** [if s:] on a string. *)
Definition truthy (s : string) : bool := negb (String.eqb s "").

(** [if o:] on a value that is a string or [None]. *)
Definition truthy_opt (o : option string) : bool :=
  match o with Some s => truthy s | None => false end.

(** [c.isspace()] for a code point below 256. *)
Definition isspace (c : ascii) : bool :=
  let n := N_of_ascii c in
  ((9 <=? n) && (n <=? 13) || (28 <=? n) && (n <=? 32)
   || (n =? 133) || (n =? 160))%N.

Fixpoint lstrip (s : string) : string :=
  match s with
  | String c s' => if isspace c then lstrip s' else s
  | EmptyString => EmptyString
  end.

Fixpoint rstrip (s : string) : string :=
  match s with
  | String c s' =>
      let r := rstrip s' in
      if String.eqb r "" && isspace c then EmptyString else String c r
  | EmptyString => EmptyString
  end.

(** [s.strip()]. *)
Definition strip (s : string) : string := rstrip (lstrip s).

(** The word being read and the words after it. *)
Fixpoint split_words (s : string) : string * list string :=
  match s with
  | String c s' =>
      let '(w, ws) := split_words s' in
      if isspace c then (EmptyString, if truthy w then w :: ws else ws)
      else (String c w, ws)
  | EmptyString => (EmptyString, [])
  end.

(** [s.split()]: the maximal runs of characters that are not white space. *)
Definition split (s : string) : list string :=
  let '(w, ws) := split_words s in
  if truthy w then w :: ws else ws.

(** [sub in s] on strings. *)
Fixpoint contains (sub s : string) : bool :=
  String.prefix sub s
  || match s with
     | String _ s' => contains sub s'
     | EmptyString => false
     end.

(** [c.isdigit()] for a code point below 256: the ASCII digits and the
    superscripts two, three and one. *)
Definition isdigit_char (c : ascii) : bool :=
  let n := N_of_ascii c in
  ((48 <=? n) && (n <=? 57) || (n =? 178) || (n =? 179) || (n =? 185))%N.

(** [s.isdigit()]: every character is a digit and there is at least one. *)
Definition isdigit (s : string) : bool :=
  truthy s && forallb isdigit_char (list_ascii_of_string s).

(** [len(s)]. *)
Definition len (s : string) : Z := Z.of_nat (String.length s).

(** [s.endswith(suffix)]. *)
Definition endswith (s suffix : string) : bool :=
  (String.length suffix <=? String.length s)%nat
  && String.eqb
       (String.substring (String.length s - String.length suffix)
          (String.length suffix) s)
       suffix.

(** [s.replace(old, '')] for a non-empty [old]: [skip] characters of a
    match are still to be dropped. *)
Fixpoint remove_from (old : string) (skip : nat) (s : string) : string :=
  match s with
  | String c s' =>
      match skip with
      | S k => remove_from old k s'
      | O =>
          if String.prefix old s
          then remove_from old (String.length old - 1) s'
          else String c (remove_from old O s')
      end
  | EmptyString => EmptyString
  end.

Definition remove_all (old s : string) : string := remove_from old O s.

(** [str(n)] for a natural number. *)
Definition str (n : nat) : string := pretty n.

(** [re.search(r'\(([^)]+)\)$', s)], returning group 1.  A match starts at
    an opening parenthesis, runs over at least one character other than a
    closing parenthesis, and ends with a closing parenthesis at the end of
    the string ([$] also holds in front of a final line feed); [search]
    takes the leftmost start that admits a match.  [group_from s] reads the
    group when [s] is what follows the opening parenthesis. *)
Fixpoint group_from (s : string) : option string :=
  match s with
  | String c s' =>
      if Ascii.eqb c ")"
      then if String.eqb s' "" || String.eqb s' (String "010" "")
           then Some EmptyString else None
      else String c <$> group_from s'
  | EmptyString => None
  end.

Definition group_at (s : string) : option string :=
  match s with
  | String c s' =>
      if Ascii.eqb c "("
      then match group_from s' with
           | Some g => if truthy g then Some g else None
           | None => None
           end
      else None
  | EmptyString => None
  end.

Fixpoint search_trailing_paren (s : string) : option string :=
  match group_at s with
  | Some g => Some g
  | None =>
      match s with
      | String _ s' => search_trailing_paren s'
      | EmptyString => None
      end
  end.

End Py.

(** ** Exceptions *)

Inductive exn := AttributeError | KeyError | IndexError.

Inductive result (A : Type) :=
| Return (a : A)
| Raise (e : exn).
Arguments Return {A} a.
Arguments Raise {A} e.

#[global] Instance result_ret : MRet result := λ A a, Return a.
#[global] Instance result_bind : MBind result := λ A B f m,
  match m with
  | Return a => f a
  | Raise e => Raise e
  end.

(** [l[i]] on a list. *)
Definition getitem {A} (l : list A) (i : nat) : result A :=
  match l !! i with
  | Some a => Return a
  | None => Raise IndexError
  end.

(** ** The part of BeautifulSoup that the parsers use *)

Module Soup.

#[warnings="-register-all"]
Inductive node :=
| NavigableString (s : string)
| Comment (s : string)
| Tag (name : string) (attrs : list (string * string)) (contents : list node).

(** The attributes of a tag are a dictionary: [attrs] lists its items, and
    an attribute is looked up by its first item. *)

(** [tag.descendants]: the nodes below a tag in document order. *)
Fixpoint descendants (n : node) : list node :=
  match n with
  | Tag _ _ contents => flat_map (λ c, c :: descendants c) contents
  | _ => []
  end.

(** The strings below a node in document order; comments are left out. *)
Fixpoint strings (n : node) : list string :=
  match n with
  | NavigableString s => [s]
  | Comment _ => []
  | Tag _ _ contents => flat_map strings contents
  end.

(** [tag.text]. *)
Definition text (n : node) : string := String.concat "" (strings n).

(** [tag.get_text(separator=sep, strip=True)]. *)
Definition get_text_strip (sep : string) (n : node) : string :=
  String.concat sep (filter (λ s, Py.truthy s = true) (Py.strip <$> strings n)).

Fixpoint assoc (k : string) (attrs : list (string * string)) : option string :=
  match attrs with
  | (k', v) :: attrs' => if String.eqb k k' then Some v else assoc k attrs'
  | [] => None
  end.

(** [tag.get(k)]. *)
Definition get (n : node) (k : string) : option string :=
  match n with
  | Tag _ attrs _ => assoc k attrs
  | _ => None
  end.

(** [tag[k]]. *)
Definition getattr (n : node) (k : string) : result string :=
  match get n k with
  | Some v => Return v
  | None => Raise KeyError
  end.

(** The values of the [class] attribute, which the parser splits at white
    space; [None] when the tag has no such attribute. *)
Definition classes (n : node) : option (list string) :=
  Py.split <$> get n "class".

(** A filter [class_=f] with [f] a function: some class satisfies it, or
    the classes joined by a space do.  A tag without [class] passes [None]
    to [f], which the functions of the sources answer with a false value. *)
Definition class_satisfies (f : string → bool) (n : node) : bool :=
  match classes n with
  | Some cs => existsb f cs || f (String.concat " " cs)
  | None => false
  end.

(** A filter [class_=c] with [c] a class name without a space. *)
Definition has_class (c : string) (n : node) : bool :=
  class_satisfies (String.eqb c) n.

(** A filter [{k: v}] on an attribute with a single value. *)
Definition has_attr (k v : string) (n : node) : bool :=
  match get n k with
  | Some v' => String.eqb v' v
  | None => false
  end.

Definition any (n : node) : bool := true.

Definition is_tag (name : string) (n : node) : bool :=
  match n with
  | Tag name' _ _ => String.eqb name' name
  | _ => false
  end.

(** [tag.find_all(name, ...)] and [tag.find(name, ...)]. *)
Definition find_all (name : string) (p : node → bool) (n : node) : list node :=
  filter (λ d, is_tag name d && p d = true) (descendants n).

Definition find (name : string) (p : node → bool) (n : node) : option node :=
  head (find_all name p n).

End Soup.

(** ** start_combining.py *)

Module StartCombining.

(** The keys of [unit_priority_map]; [files_info] only ever receives these
    keys (the loop at lines 51-55 assigns [suffix_key], a key of the map),
    so the default [999] of [unit_priority_map.get] is never taken. *)
Inductive Suffix := Offense | Defense | SpecialTeams.

Definition suffix_key (x : Suffix) : string :=
  match x with
  | Offense => "_offense.csv"
  | Defense => "_defense.csv"
  | SpecialTeams => "_special_teams.csv"
  end.

Definition unit_priority_map (x : Suffix) : Z :=
  match x with
  | Offense => 1
  | Defense => 2
  | SpecialTeams => 3
  end.

Definition special_teams_position_order (position_name : string) : option Z :=
  if String.eqb position_name "PK" then Some 1
  else if String.eqb position_name "P" then Some 2
  else if String.eqb position_name "H" then Some 3
  else if String.eqb position_name "LS" then Some 4
  else if String.eqb position_name "PR" then Some 5
  else if String.eqb position_name "KR" then Some 6
  else None.

(** One row of a per-unit CSV as [csv.DictReader] hands it over.  The files
    read are those written by [convert_to_csv], which gives every row all
    seven columns; [TeamName] is not read by the consolidator. *)
Record Row := mkRow {
  row_PlayerUID : string;
  row_PlayerName : string;
  row_PlayerURL : string;
  row_InjuryStatus : string;
  row_Position : string;
  row_Depth : string
}.

(** An entry of [all_positions]: [(unit_priority, position_name, depth)];
    the depth is the text of the CSV field. *)
Definition pos_tuple : Type := Z * string * string.

Record PlayerData := mkPlayerData {
  TeamName : string;
  PlayerName : string;
  PlayerURL : string;
  PlayerUID : string;
  InjuryStatus : string;
  all_positions : list pos_tuple
}.

(** The factory of the [defaultdict] at lines 70-77. *)
Definition default_player (team_name : string) : PlayerData :=
  mkPlayerData team_name "" "" "" "" [].

Definition set_info (d : PlayerData) (name url uid status : string) : PlayerData :=
  mkPlayerData (TeamName d) name url uid status (all_positions d).

Definition set_status (d : PlayerData) (status : string) : PlayerData :=
  mkPlayerData (TeamName d) (PlayerName d) (PlayerURL d) (PlayerUID d) status
    (all_positions d).

Definition append_position (d : PlayerData) (t : pos_tuple) : PlayerData :=
  mkPlayerData (TeamName d) (PlayerName d) (PlayerURL d) (PlayerUID d)
    (InjuryStatus d) (all_positions d ++ [t]).

(** Lines 100-101: the rows that are skipped. *)
Definition skipped (row : Row) : bool :=
  negb (Py.truthy (row_PlayerUID row))
  || String.eqb (row_PlayerName row) "-"
  || String.eqb (row_Position row) "Empty Slot".

(** Lines 106-113. *)
Definition update_info (d : PlayerData) (row : Row) : PlayerData :=
  if negb (Py.truthy (PlayerName d)) || String.eqb (PlayerName d) "Empty Slot"
  then set_info d (row_PlayerName row) (row_PlayerURL row) (row_PlayerUID row)
         (if negb (String.eqb (row_InjuryStatus row) "Empty Slot")
          then row_InjuryStatus row else "")
  else if String.eqb (InjuryStatus d) "Empty Slot"
          && negb (String.eqb (row_InjuryStatus row) "Empty Slot")
  then set_status d (row_InjuryStatus row)
  else d.

(** Lines 116-119. *)
Definition add_position (current_unit_priority : Z) (d : PlayerData) (row : Row)
  : PlayerData :=
  if Py.truthy (row_Position row) && Py.truthy (row_Depth row)
  then
    let t := (current_unit_priority, row_Position row, row_Depth row) in
    if bool_decide (t ∈ all_positions d) then d else append_position d t
  else d.

(** The body of [for row in reader], lines 93-119.  Reading
    [consolidated_players[player_uid]] creates the entry when it is absent. *)
Definition process_row (team_name : string) (current_unit_priority : Z)
    (consolidated_players : gmap string PlayerData) (row : Row)
  : gmap string PlayerData :=
  if skipped row then consolidated_players
  else
    let player_uid := row_PlayerUID row in
    let d := default (default_player team_name) (consolidated_players !! player_uid) in
    <[player_uid := add_position current_unit_priority (update_info d row) row]>
      consolidated_players.

Definition process_file (team_name : string)
    (consolidated_players : gmap string PlayerData) (file : Suffix * list Row)
  : gmap string PlayerData :=
  foldl (process_row team_name (unit_priority_map file.1)) consolidated_players file.2.

(** Lines 80-119: [files_info] is the dictionary of one team, given by its
    items in insertion order.  A file stands for the rows that the reader
    yields from it: its path is never empty (line 84), and a file that
    cannot be read yields no row (lines 121-124). *)
Definition sorted_file_types (files_info : list (Suffix * list Row))
  : list (Suffix * list Row) :=
  Py.sorted (λ f, unit_priority_map f.1) Z.compare files_info.

Definition consolidate (team_name : string) (files_info : list (Suffix * list Row))
  : gmap string PlayerData :=
  foldl (process_file team_name) ∅ (sorted_file_types files_info).

(** The second component of a sort key is a number for special teams and a
    position name otherwise. *)
Inductive key_snd := OrderValue (v : Z) | PositionName (s : string).

Definition sort_key : Type := Z * key_snd * string.

(** Lines 133-145. *)
Definition get_position_sort_key (pos : pos_tuple) : sort_key :=
  let '(unit_prio, position_name, depth) := pos in
  if unit_prio =? unit_priority_map SpecialTeams
  then (unit_prio, OrderValue (default 999 (special_teams_position_order position_name)), depth)
  else (unit_prio, PositionName position_name, depth).

(** Python's comparison of tuples: the first components that differ decide.
    A number is never compared with a string, since the kind of the second
    component is fixed by the first; the two mixed cases below are there to
    make the function total. *)
Definition key_snd_compare (a b : key_snd) : comparison :=
  match a, b with
  | OrderValue x, OrderValue y => x ?= y
  | PositionName s, PositionName t => String.compare s t
  | OrderValue _, PositionName _ => Lt
  | PositionName _, OrderValue _ => Gt
  end.

Definition sort_key_compare (a b : sort_key) : comparison :=
  let '(p1, s1, d1) := a in
  let '(p2, s2, d2) := b in
  match p1 ?= p2 with
  | Eq => match key_snd_compare s1 s2 with
          | Eq => String.compare d1 d2
          | c => c
          end
  | c => c
  end.

(** Line 152. *)
Definition sort_positions (l : list pos_tuple) : list pos_tuple :=
  Py.sorted get_position_sort_key sort_key_compare l.

Definition header : list string :=
  ["TeamName"; "PrimaryPosition"; "PrimaryDepth"; "PlayerName"; "PlayerURL";
   "PlayerUID"; "InjuryStatus"; "Position2"; "Depth2"; "Position3"; "Depth3"].

(** [p[1] if p[1] else ''] where [p] is an entry or [(None, None, None)]. *)
Definition position_of (p : option pos_tuple) : string :=
  match p with Some (_, position_name, _) => position_name | None => "" end.

Definition depth_of (p : option pos_tuple) : string :=
  match p with Some (_, _, depth) => depth | None => "" end.

(** Lines 149-176. *)
Definition output_row (player_data : PlayerData) : list string :=
  let positions := sort_positions (all_positions player_data) in
  let primary_pos := positions !! 0%nat in
  let secondary_pos := positions !! 1%nat in
  let tertiary_pos := positions !! 2%nat in
  [TeamName player_data; position_of primary_pos; depth_of primary_pos;
   PlayerName player_data; PlayerURL player_data; PlayerUID player_data;
   InjuryStatus player_data;
   position_of secondary_pos; depth_of secondary_pos;
   position_of tertiary_pos; depth_of tertiary_pos].

(** Line 148: [sorted(consolidated_players.keys())]. *)
Definition sorted_uids (consolidated_players : gmap string PlayerData) : list string :=
  Py.sorted id String.compare (map_to_list consolidated_players).*1.

Definition output_rows (consolidated_players : gmap string PlayerData)
  : list (list string) :=
  header ::
  omap (λ player_uid, output_row <$> consolidated_players !! player_uid)
    (sorted_uids consolidated_players).

(** The rows written to [<team_slug>_combined_depth_chart.csv]. *)
Definition combine_team (team_name : string) (files_info : list (Suffix * list Row))
  : list (list string) :=
  output_rows (consolidate team_name files_info).

End StartCombining.

(** ** process_defenses.py *)

Module ProcessDefenses.
Import Soup.

Record Player := mkPlayer {
  name : string;
  url : string;
  uid : option string;
  status : option string
}.

Record DepthRow := mkDepthRow {
  position : string;
  players : list (option Player)
}.

Record StructuredData := mkStructuredData {
  formation : string;
  positions_and_players : list DepthRow
}.

(** Lines 22-23. *)
Definition formation_title (soup : node) : string :=
  match find "div" (has_class "Table__Title") soup with
  | Some title_div => Py.strip (text title_div)
  | None => "Unknown Formation"
  end.

(** Lines 31-34, for one row of the fixed-left table. *)
Definition position_of_row (row : node) : result (option string) :=
  match find "span" (has_attr "data-testid" "statCell") row with
  | Some position_span =>
      first ← getitem (Py.split (text position_span)) 0;
      mret (Some (Py.strip first))
  | None => mret None
  end.

(** Lines 27-34: [None.find_all] raises [AttributeError]. *)
Definition extract_positions (soup : node) : result (list string) :=
  match find "table" (has_class "Table--fixed-left") soup with
  | Some left_table =>
      match find "tbody" any left_table with
      | Some tbody =>
          labels ← mapM position_of_row (find_all "tr" (has_class "Table__TR") tbody);
          mret (omap id labels)
      | None => Raise AttributeError
      end
  | None => mret []
  end.

(** Lines 49-69, for one cell of the scrollable table. *)
Definition parse_cell (cell : node) : result (option Player) :=
  match find "a" (has_class "AnchorLink") cell with
  | Some player_link =>
      let player_name := Py.strip (text player_link) in
      player_url ← getattr player_link "href";
      let player_uid := get player_link "data-player-uid" in
      let injury_status :=
        match find "span" (has_class "nfl-injuries-status") cell with
        | Some injury_status_span =>
            if Py.truthy (Py.strip (text injury_status_span))
            then Some (Py.strip (text injury_status_span)) else None
        | None => None
        end in
      mret (Some (mkPlayer player_name player_url player_uid injury_status))
  | None =>
      match find "span" (has_attr "data-testid" "statCell") cell with
      | Some span => if String.eqb (Py.strip (text span)) "-" then mret None else mret None
      | None => mret None
      end
  end.

(** Lines 46-70, for one row of the scrollable table. *)
Definition parse_row (row : node) : result (list (option Player)) :=
  mapM parse_cell (find_all "td" (has_class "Table__TD") row).

(** Lines 82-90. *)
Definition assemble (positions : list string)
    (player_data_rows : list (list (option Player))) : result (list DepthRow) :=
  let num_rows := min (List.length positions) (List.length player_data_rows) in
  mapM (λ i,
          position_name ← getitem positions i;
          depth_players ← getitem player_data_rows i;
          mret (mkDepthRow position_name depth_players))
       (seq 0 num_rows).

(** Lines 41-73, once the positions are known to be non-empty; the outer
    [None] is the [return None] of line 73. *)
Definition extract_player_rows (soup : node)
  : result (option (list (list (option Player)))) :=
  match find "div" (has_class "Table__Scroller") soup with
  | Some right_table_scroller =>
      match find "table" any right_table_scroller with
      | Some right_table =>
          match find "tbody" any right_table with
          | Some tbody =>
              rows ← mapM parse_row (find_all "tr" (has_class "Table__TR") tbody);
              mret (Some rows)
          | None => Raise AttributeError
          end
      | None => mret (Some [])
      end
  | None => mret None
  end.

(** [parse_depth_chart_html], given the parsed markup; [Return None] is
    Python's [return None]. *)
Definition parse_depth_chart_html (soup : node) : result (option StructuredData) :=
  let title := formation_title soup in
  positions ← extract_positions soup;
  match positions with
  | [] => mret None
  | _ =>
      rows ← extract_player_rows soup;
      match rows with
      | Some player_data_rows =>
          entries ← assemble positions player_data_rows;
          mret (Some (mkStructuredData title entries))
      | None => mret None
      end
  end.

(** [enumerate(l, 1)]. *)
Definition enumerate1 {A} (l : list A) : list (nat * A) :=
  zip (seq 1 (List.length l)) l.

Definition csv_header : list string :=
  ["TeamName"; "Position"; "Depth"; "PlayerName"; "PlayerURL"; "PlayerUID";
   "InjuryStatus"].

(** Lines 138-159, for one slot. *)
Definition csv_row (team_name position_name : string) (slot : nat * option Player)
  : list string :=
  match slot.2 with
  | Some player =>
      [team_name; position_name; Py.str slot.1; name player; url player;
       (if Py.truthy_opt (uid player) then default "" (uid player) else "");
       (if Py.truthy_opt (status player) then default "" (status player) else "")]
  | None =>
      [team_name; position_name; Py.str slot.1; ""; ""; ""; "Empty Slot"]
  end.

(** [convert_to_csv], up to the writing of the rows into a string. *)
Definition convert_to_csv (parsed_data : option StructuredData) (team_name : string)
  : option (list (list string)) :=
  match parsed_data with
  | Some data =>
      Some (csv_header ::
            flat_map (λ pos_entry,
                        csv_row team_name (position pos_entry)
                          <$> enumerate1 (players pos_entry))
                     (positions_and_players data))
  | None => None
  end.

End ProcessDefenses.

(** ** scrapeMLB.py *)

Module ScrapeMLB.
Import Soup.

Record PlayerRecord := mkPlayerRecord {
  team_name : string;
  team_abbrev : string;
  section_title : string;
  position_name : string;
  player_name : string;
  depth_label : string;
  player_url : option string;
  status : option string
}.

(** Lines 122-127: the status of a cell is the text of its status element. *)
Definition detect_status (player_cell : node) : option string :=
  match find "span"
          (class_satisfies (λ x, Py.truthy x && Py.contains "nfl-injuries-status" x))
          player_cell with
  | Some status_span =>
      if Py.truthy (Py.strip (text status_span))
      then Some (Py.strip (text status_span)) else None
  | None => None
  end.

(** Lines 72-86. *)
Definition generic_depth_levels : list string :=
  (λ i, "Depth " +:+ Py.str (i + 1)) <$> seq 0 5.

Definition header_label (th : node) : option string :=
  match find "span" (has_attr "data-testid" "headerTable") th with
  | Some header_span =>
      if Py.truthy (Py.strip (text header_span))
      then Some (Py.strip (text header_span)) else None
  | None => None
  end.

Definition extract_depth_levels (player_data_table : node) : list string :=
  let depth_levels :=
    match find "thead" any player_data_table with
    | Some header_row => omap header_label (find_all "th" any header_row)
    | None => []
    end in
  match depth_levels with
  | [] => generic_depth_levels
  | _ => depth_levels
  end.

Section Parser.

(** The substitution of line 112, [re.sub(pattern, '', position_name)] with
    a pattern for an empty status element written out as text: a function
    of the library [re]. *)
Variable re_sub_status_span : string → string.

Variables (the_team_name the_team_abbrev the_section_title : string).
Variable depth_levels : list string.

(** Lines 108-113. *)
Definition position_name_of (position_row : node) : string :=
  let position_name :=
    match find "span" (has_attr "data-testid" "statCell") position_row with
    | Some position_name_tag => Py.strip (text position_name_tag)
    | None => "Unknown Position"
    end in
  let position_name := re_sub_status_span position_name in
  Py.strip (Py.remove_all "<!-- -->" position_name).

(** Lines 118-148, for the cell at index [j] of a row. *)
Definition parse_cell (the_position_name : string) (cell : nat * node)
  : option PlayerRecord :=
  let '(j, player_cell) := cell in
  let player_name_tag := find "a" (has_class "AnchorLink") player_cell in
  let player_name := (λ t, Py.strip (text t)) <$> player_name_tag in
  let player_url :=
    match player_name_tag with
    | Some t => get t "href"
    | None => None
    end in
  let player_status := detect_status player_cell in
  let cell_text_content := get_text_strip " " player_cell in
  let player_name :=
    if String.eqb cell_text_content "-" || negb (Py.truthy_opt player_name)
    then None else player_name in
  match player_name with
  | Some the_player_name =>
      if Py.truthy the_player_name
      then
        let depth_label :=
          match depth_levels !! j with
          | Some label => label
          | None => "Depth " +:+ Py.str (j + 1)
          end in
        Some (mkPlayerRecord the_team_name the_team_abbrev the_section_title
                the_position_name the_player_name depth_label player_url
                player_status)
      else None
  | None => None
  end.

(** Lines 103-148, for the rows at one index. *)
Definition parse_row_pair (position_row player_row : node) : list PlayerRecord :=
  let the_position_name := position_name_of position_row in
  let player_cells := find_all "td" any player_row in
  omap (parse_cell the_position_name) (zip (seq 0 (List.length player_cells)) player_cells).

(** Lines 102-148: [for i in range(min(len(position_rows), len(player_rows)))]. *)
Definition parse_rows (position_rows player_rows : list node) : list PlayerRecord :=
  flat_map (λ i,
              match position_rows !! i, player_rows !! i with
              | Some position_row, Some player_row =>
                  parse_row_pair position_row player_row
              | _, _ => []
              end)
           (seq 0 (min (List.length position_rows) (List.length player_rows))).

End Parser.

(** [parse_mlb_depth_chart_data]; the container is [None] when the markup
    is [None] or empty. *)
Definition parse_mlb_depth_chart_data (re_sub_status_span : string → string)
    (raw_html_container : option node) (team_name team_abbrev : string)
  : list PlayerRecord :=
  match raw_html_container with
  | None => []
  | Some soup =>
      let section_title :=
        match find "div" (has_class "Table__Title") soup with
        | Some table_title_tag => Py.strip (text table_title_tag)
        | None => "MLB Depth Chart"
        end in
      match find_all "table" any soup with
      | position_table :: player_data_table :: _ =>
          let depth_levels := extract_depth_levels player_data_table in
          match find "tbody" any position_table, find "tbody" any player_data_table with
          | Some position_tbody, Some player_tbody =>
              parse_rows re_sub_status_span team_name team_abbrev section_title
                depth_levels
                (find_all "tr" any position_tbody) (find_all "tr" any player_tbody)
          | _, _ => []
          end
      | _ => []
      end
  end.

(** Lines 226-232. *)
Definition depth_rank_map (label : string) : option Z :=
  if String.eqb label "Starter" || String.eqb label "1st" then Some 1
  else if String.eqb label "2nd" then Some 2
  else if String.eqb label "3rd" then Some 3
  else if String.eqb label "4th" then Some 4
  else if String.eqb label "5th" then Some 5
  else if String.eqb label "6th" then Some 6
  else if String.eqb label "Depth 1" then Some 1
  else if String.eqb label "Depth 2" then Some 2
  else if String.eqb label "Depth 3" then Some 3
  else if String.eqb label "Depth 4" then Some 4
  else if String.eqb label "Depth 5" then Some 5
  else if String.eqb label "Depth 6" then Some 6
  else if String.eqb label "P" then Some 1
  else if String.eqb label "RP" then Some 2
  else if String.eqb label "CL" then Some 3
  else None.

Definition DEFAULT_DEPTH_RANK : Z := 999.

(** The key of [final_players_data]: [(player_name, team_name)]. *)
Definition player_key (player_data : PlayerRecord) : string * string :=
  (player_name player_data, team_name player_data).

(** [final_players_data] is a dictionary whose values are read in insertion
    order at line 283: a list of items with distinct keys.  [d[k] = v]
    replaces the value of an existing key in place and appends a new key. *)
Definition dict : Type := list ((string * string) * (Z * PlayerRecord)).

Fixpoint dict_get (d : dict) (k : string * string) : option (Z * PlayerRecord) :=
  match d with
  | (k', v) :: d' => if bool_decide (k' = k) then Some v else dict_get d' k
  | [] => None
  end.

Fixpoint dict_set (d : dict) (k : string * string) (v : Z * PlayerRecord) : dict :=
  match d with
  | (k', v') :: d' =>
      if bool_decide (k' = k) then (k', v) :: d' else (k', v') :: dict_set d' k v
  | [] => [(k, v)]
  end.

(** Lines 263-280. *)
Definition dedup_step (final_players_data : dict) (player_data : PlayerRecord) : dict :=
  let the_key := player_key player_data in
  let current_depth_rank :=
    default DEFAULT_DEPTH_RANK (depth_rank_map (depth_label player_data)) in
  match dict_get final_players_data the_key with
  | None => dict_set final_players_data the_key (current_depth_rank, player_data)
  | Some (stored_depth_rank, stored_player_data) =>
      if current_depth_rank <? stored_depth_rank
      then dict_set final_players_data the_key (current_depth_rank, player_data)
      else final_players_data
  end.

(** Lines 261-283. *)
Definition deduplicate (all_raw_players_data : list PlayerRecord) : list PlayerRecord :=
  (λ item, item.2.2) <$> foldl dedup_step [] all_raw_players_data.

End ScrapeMLB.

(** ** The status of a player on a roster page

    [scrapeNBA.py] (lines 128-140) and [scrapeNHL.py] (lines 112-123) look
    for a status element first and fall back on the text of the cell. *)

Module ScrapeNBA.
Import Soup.

Definition detect_status (name_cell_content : node) : option string :=
  let status_span :=
    find "span"
      (class_satisfies
         (λ x, Py.truthy x && (Py.contains "injuries-status" x || Py.contains "n8" x)))
      name_cell_content in
  if match status_span with
     | Some span => Py.truthy (Py.strip (text span))
     | None => false
     end
  then (λ span, Py.strip (text span)) <$> status_span
  else
    let cell_text_content := get_text_strip " " name_cell_content in
    match Py.search_trailing_paren cell_text_content with
    | Some group1 =>
        let potential_status := Py.strip group1 in
        if negb (Py.isdigit potential_status) && (Py.len potential_status <=? 10)
        then Some potential_status else None
    | None => None
    end.

Record PlayerRecord := mkPlayerRecord {
  team_name : string;
  team_abbrev : string;
  section_title : string;
  position_name : string;
  player_name : string;
  depth_label : string;
  player_url : option string;
  status : option string;
  age : option string;
  height : option string;
  weight : option string;
  birth_place : option string;
  birthdate : option string;
  experience : option string;
  college : option string;
  salary : option string
}.

(** Lines 56-62. *)
Definition position_group_mapping (title : string) : option string :=
  if String.eqb title "Guards" then Some "G"
  else if String.eqb title "Forwards" then Some "F"
  else if String.eqb title "Centers" then Some "C"
  else if String.eqb title "Team Roster" then Some "Roster"
  else if String.eqb title "Players" then Some "PLYR"
  else None.

(** Line 82; [find_all('thead')[0]] raises [IndexError] without a [thead]. *)
Definition extract_headers (inner_table : node) : result (list string) :=
  thead ← getitem (find_all "thead" any inner_table) 0;
  mret (omap (λ th, (λ span, Py.strip (text span)) <$> find "span" any th)
             (find_all "th" any thead)).

(** Lines 85-92: the index of the last header equal to [h], or [-1]. *)
Definition header_index (headers : list string) (h : string) : Z :=
  foldl (λ acc item, if String.eqb item.2 h then Z.of_nat item.1 else acc) (-1)
        (zip (seq 0 (List.length headers)) headers).

(** [cols[idx].div.text.strip()] under the guard
    [idx != -1 and len(cols) > idx and cols[idx].div]. *)
Definition column_text (cols : list node) (idx : Z) : option string :=
  if negb (idx =? -1) && (idx <? Z.of_nat (List.length cols))
  then
    match cols !! Z.to_nat idx with
    | Some col => (λ div, Py.strip (text div)) <$> find "div" any col
    | None => None
    end
  else None.

(** Lines 119-140: name, address and status of the player of a row. *)
Definition name_url_status (cols : list node) (name_cell_idx : Z)
  : result (option string * option string * option string) :=
  if negb (name_cell_idx =? -1) && (name_cell_idx <? Z.of_nat (List.length cols))
  then
    match
      match cols !! Z.to_nat name_cell_idx with
      | Some col => find "div" any col
      | None => None
      end
    with
    | Some name_cell_content =>
        match find "a" (has_class "AnchorLink") name_cell_content with
        | Some player_name_tag =>
            the_url ← getattr player_name_tag "href";
            mret (Some (Py.strip (text player_name_tag)), Some the_url,
                  detect_status name_cell_content)
        | None => mret (None, None, None)
        end
    | None => mret (None, None, None)
    end
  else mret (None, None, None).

(** Lines 101-193, for one row. *)
Definition parse_row (the_team_name the_team_abbrev the_section_title
    general_position_group : string) (headers : list string) (row : node)
  : result (option PlayerRecord) :=
  let cols := find_all "td" any row in
  '(the_name, the_url, the_status) ← name_url_status cols (header_index headers "Name");
  let specific_position_from_col := column_text cols (header_index headers "POS") in
  let player_age := column_text cols (header_index headers "Age") in
  let player_height := column_text cols (header_index headers "HT") in
  let player_weight := column_text cols (header_index headers "WT") in
  let player_college := column_text cols (header_index headers "College") in
  let player_salary := column_text cols (header_index headers "Salary") in
  mret (if Py.truthy_opt the_name
        then Some (mkPlayerRecord the_team_name the_team_abbrev the_section_title
                     (if Py.truthy_opt specific_position_from_col
                      then default "" specific_position_from_col
                      else general_position_group)
                     (default "" the_name) "Roster" the_url the_status
                     player_age player_height player_weight None None None
                     player_college player_salary)
        else None).

(** Lines 65-193, for one table of the page. *)
Definition parse_table (the_team_name the_team_abbrev : string) (soup : node)
  : result (list PlayerRecord) :=
  let the_section_title :=
    match find "div" (has_class "Table__Title") soup with
    | Some section_title_tag => Py.strip (text section_title_tag)
    | None => "Roster"
    end in
  let general_position_group :=
    default "Unknown" (position_group_mapping the_section_title) in
  match find "table" any soup with
  | None => mret []
  | Some inner_table =>
      headers ← extract_headers inner_table;
      match find "tbody" any inner_table with
      | None => mret []
      | Some table_body =>
          players ← mapM (parse_row the_team_name the_team_abbrev the_section_title
                            general_position_group headers)
                         (find_all "tr" any table_body);
          mret (omap id players)
      end
  end.

(** [parse_nba_roster_data], given the parsed tables. *)
Definition parse_nba_roster_data (raw_html_tables : list node)
    (the_team_name the_team_abbrev : string) : result (list PlayerRecord) :=
  tables ← mapM (parse_table the_team_name the_team_abbrev) raw_html_tables;
  mret (List.concat tables).

End ScrapeNBA.

Module ScrapeNHL.
Import Soup.

Definition detect_status (player_info_cell : node) : option string :=
  let status_span :=
    find "span"
      (class_satisfies
         (λ x, Py.truthy x && (Py.contains "injuries-status" x || Py.contains "n8" x)))
      player_info_cell in
  if match status_span with
     | Some span => Py.truthy (Py.strip (text span))
     | None => false
     end
  then (λ span, Py.strip (text span)) <$> status_span
  else
    let cell_text_content := get_text_strip " " player_info_cell in
    match Py.search_trailing_paren cell_text_content with
    | Some group1 =>
        let potential_status := Py.strip group1 in
        if (Py.len potential_status <=? 10) && negb (Py.isdigit potential_status)
        then Some potential_status else None
    | None => None
    end.

Record PlayerRecord := mkPlayerRecord {
  team_name : string;
  team_abbrev : string;
  section_title : string;
  position_name : string;
  player_name : string;
  depth_label : string;
  player_url : option string;
  status : option string;
  age : option string;
  height : option string;
  weight : option string;
  shot : option string;
  birth_place : option string;
  birthdate : option string
}.

(** Lines 56-64. *)
Definition position_mapping (title : string) : option string :=
  if String.eqb title "Centers" then Some "C"
  else if String.eqb title "Left Wings" then Some "LW"
  else if String.eqb title "Right Wings" then Some "RW"
  else if String.eqb title "Defense" then Some "D"
  else if String.eqb title "Goalies" then Some "G"
  else if String.eqb title "Forwards" then Some "F"
  else if String.eqb title "Players" then Some "PLYR"
  else None.

(** [cols[i].div.text.strip()] under the guard [len(cols) > i and cols[i].div]. *)
Definition column_text (cols : list node) (i : nat) : option string :=
  match cols !! i with
  | Some col => (λ div, Py.strip (text div)) <$> find "div" any col
  | None => None
  end.

(** Lines 89-162, for one row. *)
Definition parse_row (the_team_name the_team_abbrev the_section_title
    the_position_name : string) (row : node) : result (option PlayerRecord) :=
  let cols := find_all "td" any row in
  match cols !! 1%nat with
  | Some player_info_cell =>
      '(the_name, the_url, the_status) ←
        match find "a" (has_class "AnchorLink") player_info_cell with
        | Some player_name_tag =>
            the_url ← getattr player_name_tag "href";
            mret (Some (Py.strip (text player_name_tag)), Some the_url,
                  detect_status player_info_cell)
        | None => mret (None, None, None)
        end;
      mret (if Py.truthy_opt the_name
            then Some (mkPlayerRecord the_team_name the_team_abbrev the_section_title
                         the_position_name (default "" the_name) "Roster"
                         the_url the_status
                         (column_text cols 2) (column_text cols 3)
                         (column_text cols 4) (column_text cols 5)
                         (column_text cols 6) (column_text cols 7))
            else None)
  | None => mret None
  end.

(** Lines 66-162, for one table of the page. *)
Definition parse_table (the_team_name the_team_abbrev : string) (soup : node)
  : result (list PlayerRecord) :=
  let the_section_title :=
    match find "div" (has_class "Table__Title") soup with
    | Some section_title_tag => Py.strip (text section_title_tag)
    | None => "Unknown Section"
    end in
  let the_position_name := default "Unknown" (position_mapping the_section_title) in
  match find "table" any soup with
  | None => mret []
  | Some inner_table =>
      match find "tbody" any inner_table with
      | None => mret []
      | Some table_body =>
          players ← mapM (parse_row the_team_name the_team_abbrev the_section_title
                            the_position_name)
                         (find_all "tr" any table_body);
          mret (omap id players)
      end
  end.

(** [parse_nhl_roster_data], given the parsed tables. *)
Definition parse_nhl_roster_data (raw_html_tables : list node)
    (the_team_name the_team_abbrev : string) : result (list PlayerRecord) :=
  tables ← mapM (parse_table the_team_name the_team_abbrev) raw_html_tables;
  mret (List.concat tables).

End ScrapeNHL.

(** ** master_combine.py *)

Module MasterCombine.

(** Lines 34-49: the rows written while the files are read in order.  The
    [next(reader)] of line 41 raises [StopIteration] on a file without a
    row; the handler of line 56 ends the function, and the rows written so
    far stay in the output. *)
Fixpoint write_files (header_written : bool) (files : list (string * list (list string)))
  : list (list string) :=
  match files with
  | [] => []
  | (filename, []) :: _ => []
  | (filename, file_header :: rows) :: files' =>
      (if header_written then [] else [file_header]) ++ rows ++ write_files true files'
  end.

(** Line 18. *)
Definition is_input (output_filename : string) (f : string * list (list string)) : bool :=
  Py.endswith f.1 ".csv" && negb (String.eqb f.1 output_filename).

(** [create_master_depth_chart_csv]: the directory is given by its entries
    in the order of [os.listdir], each file by the rows read from it; the
    result is [None] when no file is written. *)
Definition create_master_depth_chart_csv (output_filename : string)
    (directory : list (string * list (list string))) : option (list (list string)) :=
  let all_files := filter (λ f, is_input output_filename f = true) directory in
  match all_files with
  | [] => None
  | _ => Some (write_files false (Py.sorted fst String.compare all_files))
  end.

End MasterCombine.

(** ** More of Python's strings and dictionaries *)

Module PyMore.

(** [s[n:]]. *)
Fixpoint drop (n : nat) (s : string) : string :=
  match n, s with
  | S k, String _ s' => drop k s'
  | _, _ => s
  end.

(** The text in front of the first occurrence of [sep] in [s] and the text
    behind it, for a non-empty [sep]. *)
Fixpoint find_sep (sep s : string) : option (string * string) :=
  if String.prefix sep s then Some (EmptyString, drop (String.length sep) s)
  else
    match s with
    | String c s' => (λ parts, (String c parts.1, parts.2)) <$> find_sep sep s'
    | EmptyString => None
    end.

(** [s.split(sep)] for a non-empty [sep]: the occurrences are taken from
    the left and do not overlap.  There are at most [len(s)] of them. *)
Fixpoint split_fuel (fuel : nat) (sep s : string) : list string :=
  match fuel with
  | S fuel' =>
      match find_sep sep s with
      | Some (part, rest) => part :: split_fuel fuel' sep rest
      | None => [s]
      end
  | O => [s]
  end.

Definition split (sep s : string) : list string :=
  split_fuel (String.length s) sep s.

(** [s.replace(old, new)] for a non-empty [old]: [skip] characters of a
    match are still to be dropped. *)
Fixpoint replace_from (old new : string) (skip : nat) (s : string) : string :=
  match s with
  | String c s' =>
      match skip with
      | S k => replace_from old new k s'
      | O =>
          if String.prefix old s
          then new +:+ replace_from old new (String.length old - 1) s'
          else String c (replace_from old new O s')
      end
  | EmptyString => EmptyString
  end.

Definition replace (old new s : string) : string := replace_from old new O s.

(** A dictionary by its items in insertion order: the keys are distinct,
    [d[k] = v] replaces the value of a key in place and appends a new key. *)
Section Dict.
Context {K V : Type} `{!EqDecision K}.

Fixpoint dict_get (d : list (K * V)) (k : K) : option V :=
  match d with
  | (k', v) :: d' => if bool_decide (k' = k) then Some v else dict_get d' k
  | [] => None
  end.

Fixpoint dict_set (d : list (K * V)) (k : K) (v : V) : list (K * V) :=
  match d with
  | (k', v') :: d' =>
      if bool_decide (k' = k) then (k', v) :: d' else (k', v') :: dict_set d' k v
  | [] => [(k, v)]
  end.

(** [dict(items)]: a later item of a key replaces an earlier one. *)
Definition dict_of (items : list (K * V)) : list (K * V) :=
  foldl (λ d item, dict_set d item.1 item.2) [] items.

End Dict.

End PyMore.

(** ** scraper.py: the names of the saved tables *)

Module Scraper.

(** Line 152, without the directory: table [i] of [enumerate] is saved as
    [<slug>_depth_chart_table_<i+1>.html]. *)
Definition output_file (slug : string) (i : nat) : string :=
  slug +:+ "_depth_chart_table_" +:+ Py.str (i + 1) +:+ ".html".

End Scraper.

(** ** rename_files.py *)

Module RenameFiles.

(** Lines 17-21, in the order of the dictionary. *)
Definition rename_patterns : list (string * string) :=
  [("_depth_chart_table_1.html", "_depth_chart_offense.html");
   ("_depth_chart_table_2.html", "_depth_chart_defense.html");
   ("_depth_chart_table_3.html", "_depth_chart_special_teams.html")].

(** Lines 32-47, for a regular file: the new name under the first pattern
    whose suffix ends the name, [None] when the file is skipped. *)
Fixpoint new_filename_from (patterns : list (string * string)) (filename : string)
  : option string :=
  match patterns with
  | (old_suffix, new_suffix) :: patterns' =>
      if Py.endswith filename old_suffix
      then Some (PyMore.replace old_suffix new_suffix filename)
      else new_filename_from patterns' filename
  | [] => None
  end.

Definition new_filename (filename : string) : option string :=
  new_filename_from rename_patterns filename.

End RenameFiles.

(** ** process_defenses.py: the files of the main loop *)

Module ProcessDefensesMain.

(** Line 184. *)
Definition is_defense_file (filename : string) : bool :=
  Py.endswith filename "_depth_chart_defense.html".

(** Line 189. *)
Definition team_slug (filename : string) : string :=
  PyMore.replace "_depth_chart_defense.html" "" filename.

(** Line 234. *)
Definition output_csv_filename (filename : string) : string :=
  PyMore.replace ".html" ".csv" filename.

(** Line 219. *)
Definition output_xml_filename (filename : string) : string :=
  PyMore.replace ".html" ".xml" filename.

End ProcessDefensesMain.

(** ** start_combining.py: the files of a team and their rows *)

Module StartCombiningFiles.
Import StartCombining.

(** Lines 51-55: the first key of [unit_priority_map] that starts the
    suffix of the file. *)
Definition find_type (file_type_suffix : string) : option Suffix :=
  if String.prefix (suffix_key Offense) file_type_suffix then Some Offense
  else if String.prefix (suffix_key Defense) file_type_suffix then Some Defense
  else if String.prefix (suffix_key SpecialTeams) file_type_suffix then Some SpecialTeams
  else None.

(** Lines 43-57, for one name of the directory: the team and the key under
    which the file is kept, [None] when the file is left out. *)
Definition classify (filename : string) : option (string * Suffix) :=
  if Py.endswith filename ".csv"
  then
    match PyMore.split "_depth_chart_" filename with
    | [team_slug; rest] =>
        (λ suffix, (team_slug, suffix)) <$> find_type ("_" +:+ rest)
    | _ => None
    end
  else None.

(** [csv.DictReader]: the first row names the fields, a row without any
    field is passed over, and a row is the dictionary of the names zipped
    with its fields. *)
Definition DictReader (rows : list (list string)) : list (list (string * string)) :=
  match rows with
  | fieldnames :: rows' =>
      (λ row, PyMore.dict_of (zip fieldnames row))
        <$> filter (λ row, row ≠ []) rows'
  | [] => []
  end.

(** The six fields that lines 93-98 read with [row.get].  [get] answers
    [None] for a field that the row lacks; [Row] has no place for that, so
    the row is read only when it has all six. *)
Definition read_row (row : list (string * string)) : option Row :=
  player_uid ← PyMore.dict_get row "PlayerUID";
  player_name ← PyMore.dict_get row "PlayerName";
  player_url ← PyMore.dict_get row "PlayerURL";
  injury_status ← PyMore.dict_get row "InjuryStatus";
  position ← PyMore.dict_get row "Position";
  depth ← PyMore.dict_get row "Depth";
  Some (mkRow player_uid player_name player_url injury_status position depth).

Definition read_rows (rows : list (list string)) : option (list Row) :=
  mapM read_row (DictReader rows).

End StartCombiningFiles.

(** ** The deduplication of the rosters *)

Module ScrapeNBAMain.
Import ScrapeNBA.

Definition player_key (player_data : PlayerRecord) : string * string :=
  (player_name player_data, team_name player_data).

(** Lines 300-305. *)
Definition dedup_step (final_players_data : list ((string * string) * PlayerRecord))
    (player_data : PlayerRecord) : list ((string * string) * PlayerRecord) :=
  match PyMore.dict_get final_players_data (player_key player_data) with
  | None => PyMore.dict_set final_players_data (player_key player_data) player_data
  | Some _ => final_players_data
  end.

(** Lines 298-307. *)
Definition deduplicate (all_raw_players_data : list PlayerRecord) : list PlayerRecord :=
  (foldl dedup_step [] all_raw_players_data).*2.

End ScrapeNBAMain.

Module ScrapeNHLMain.
Import ScrapeNHL.

(** Lines 269-272. *)
Definition depth_rank_map (label : string) : option Z :=
  if String.eqb label "Roster" then Some 1 else None.

Definition DEFAULT_DEPTH_RANK : Z := 999.

Definition player_key (player_data : PlayerRecord) : string * string :=
  (player_name player_data, team_name player_data).

(** Lines 276-288. *)
Definition dedup_step
    (final_players_data : list ((string * string) * (Z * PlayerRecord)))
    (player_data : PlayerRecord) : list ((string * string) * (Z * PlayerRecord)) :=
  let current_depth_rank :=
    default DEFAULT_DEPTH_RANK (depth_rank_map (depth_label player_data)) in
  match PyMore.dict_get final_players_data (player_key player_data) with
  | None =>
      PyMore.dict_set final_players_data (player_key player_data)
        (current_depth_rank, player_data)
  | Some (stored_depth_rank, stored_player_data) =>
      if current_depth_rank <? stored_depth_rank
      then PyMore.dict_set final_players_data (player_key player_data)
             (current_depth_rank, player_data)
      else final_players_data
  end.

(** Lines 274-290. *)
Definition deduplicate (all_raw_players_data : list PlayerRecord) : list PlayerRecord :=
  (λ item, item.2.2) <$> foldl dedup_step [] all_raw_players_data.

End ScrapeNHLMain.

(** ** The header of the player files

    [write_players_to_csv] of scrapeMLB.py (lines 161-174), scrapeNBA.py
    (lines 206-217) and scrapeNHL.py (lines 176-187). *)

Module WritePlayers.

(** [all_headers] is a set; it is given by its elements in the order in
    which the set happens to yield them. *)
Definition headers (preferred_headers_order all_headers : list string) : list string :=
  filter (λ h, h ∈ all_headers) preferred_headers_order
  ++ Py.sorted id String.compare (filter (λ h, h ∉ preferred_headers_order) all_headers).

Definition mlb_preferred_headers_order : list string :=
  ["team_name"; "team_abbrev"; "player_name"; "position_name";
   "depth_label"; "status"; "player_url"; "section_title"].

Definition nba_preferred_headers_order : list string :=
  ["team_name"; "team_abbrev"; "player_name"; "position_name";
   "age"; "height"; "weight"; "experience"; "college"; "salary";
   "birth_place"; "birthdate"; "status"; "player_url"; "section_title"].

Definition nhl_preferred_headers_order : list string :=
  ["team_name"; "team_abbrev"; "player_name"; "position_name";
   "age"; "height"; "weight"; "shot"; "birth_place"; "birthdate";
   "depth_label"; "status"; "player_url"; "section_title"].

(** The keys of the dictionaries that the parsers build, in the order of
    the dictionary literal. *)
Definition mlb_keys : list string :=
  ["team_name"; "team_abbrev"; "section_title"; "position_name"; "player_name";
   "depth_label"; "player_url"; "status"].

Definition nba_keys : list string :=
  ["team_name"; "team_abbrev"; "section_title"; "position_name"; "player_name";
   "depth_label"; "player_url"; "status"; "age"; "height"; "weight";
   "birth_place"; "birthdate"; "experience"; "college"; "salary"].

Definition nhl_keys : list string :=
  ["team_name"; "team_abbrev"; "section_title"; "position_name"; "player_name";
   "depth_label"; "player_url"; "status"; "age"; "height"; "weight"; "shot";
   "birth_place"; "birthdate"].

End WritePlayers.

(** ** From the rows of a unit to the consolidator

    The row that [csv.DictReader] hands to the consolidator for a slot of
    the parsed depth chart, once [convert_to_csv] has written it. *)

Module UnitRows.
Import ProcessDefenses StartCombining.

Definition slot_row (position_name : string) (slot : nat * option Player) : Row :=
  match slot.2 with
  | Some player =>
      mkRow (if Py.truthy_opt (uid player) then default "" (uid player) else "")
        (name player) (url player)
        (if Py.truthy_opt (status player) then default "" (status player) else "")
        position_name (Py.str slot.1)
  | None => mkRow "" "" "" "Empty Slot" position_name (Py.str slot.1)
  end.

Definition unit_rows (data : StructuredData) : list Row :=
  flat_map (λ pos_entry, slot_row (position pos_entry) <$> enumerate1 (players pos_entry))
           (positions_and_players data).

End UnitRows.

(** ** Notions of the specification *)

(** A comparison function that is a total order: what the facts about
    sorting below need of the keys. *)
Class TotalCompare {K : Type} (cmp : K → K → comparison) := {
  cmp_refl : ∀ a, cmp a a = Eq;
  cmp_eq : ∀ a b, cmp a b = Eq → a = b;
  cmp_antisym : ∀ a b, cmp a b = CompOpp (cmp b a);
  cmp_lt_trans : ∀ a b c, cmp a b = Lt → cmp b c = Lt → cmp a c = Lt
}.

(** The lexicographic combination of two total orders, as in the
    comparison of Python's tuples. *)
Definition lex_compare {A B} (cmpA : A → A → comparison) (cmpB : B → B → comparison)
    (x y : A * B) : comparison :=
  match cmpA x.1 y.1 with
  | Eq => cmpB x.2 y.2
  | c => c
  end.

(** The two stages of the status detection, in the words of the
    specification: an explicit status element first; failing that, a
    parenthesized trailing token of the flattened text of the cell that is
    not purely numeric and has at most ten characters. *)
Module StatusSpec.
Import Soup.





End StatusSpec.

(** The order of the positions of a player, in the words of the
    specification: first by the rank of the unit; within special teams by
    the fixed table of positions, a position that the table leaves out
    after every listed one; within offense and defense by the position
    label; last by depth, ascending.  The comparison of the depths is a
    parameter: the depth is a number in the specification and a text in
    the files of the units. *)
Module PrioritySpec.
Import StartCombining.

Definition secondary_compare (unit_rank : Z) (a b : string) : comparison :=
  if unit_rank =? unit_priority_map SpecialTeams
  then default 999 (special_teams_position_order a)
       ?= default 999 (special_teams_position_order b)
  else String.compare a b.

Definition composite_compare (depth_compare : string → string → comparison)
    (p q : pos_tuple) : comparison :=
  match p.1.1 ?= q.1.1 with
  | Eq =>
      match secondary_compare p.1.1 p.1.2 q.1.2 with
      | Eq => depth_compare p.2 q.2
      | c => c
      end
  | c => c
  end.

(** A depth written in decimal digits, and the number it stands for. *)
Definition is_decimal_digit (c : ascii) : bool :=
  (48 <=? Z.of_N (N_of_ascii c)) && (Z.of_N (N_of_ascii c) <=? 57).

Definition is_decimal (depth : string) : bool :=
  forallb is_decimal_digit (list_ascii_of_string depth).

Fixpoint number_from (acc : Z) (depth : string) : Z :=
  match depth with
  | String c depth' => number_from (10 * acc + (Z.of_N (N_of_ascii c) - 48)) depth'
  | EmptyString => acc
  end.

Definition depth_number (depth : string) : Z := number_from 0 depth.

Definition numeric_compare (a b : string) : comparison :=
  depth_number a ?= depth_number b.

End PrioritySpec.

(** * Properties *)

(** ** Comparisons *)

Lemma cmp_gt_lt `{TotalCompare K cmp} a b : cmp a b = Gt → cmp b a = Lt.
Proof. intros Hab. rewrite cmp_antisym, Hab. reflexivity. Qed.

Lemma cmp_lt_gt `{TotalCompare K cmp} a b : cmp a b = Lt → cmp b a = Gt.
Proof. intros Hab. rewrite cmp_antisym, Hab. reflexivity. Qed.

#[global] Instance Z_total_compare : TotalCompare Z.compare.
Proof.
  split.
  - apply Z.compare_refl.
  - apply Z.compare_eq.
  - intros a b. apply Z.compare_antisym.
  - intros a b c. rewrite !Z.compare_lt_iff. lia.
Qed.

#[global] Instance ascii_total_compare : TotalCompare Ascii.compare.
Proof.
  split.
  - intros a. apply N.compare_refl.
  - apply Ascii.compare_eq_iff.
  - intros a b. apply Ascii.compare_antisym.
  - intros a b c. unfold Ascii.compare. rewrite !N.compare_lt_iff. lia.
Qed.

Lemma string_compare_refl s : String.compare s s = Eq.
Proof.
  induction s as [|c s IH]; simpl; [reflexivity|].
  rewrite (cmp_refl (cmp:=Ascii.compare)). exact IH.
Qed.

Lemma string_compare_lt_trans s1 s2 s3 :
  String.compare s1 s2 = Lt → String.compare s2 s3 = Lt → String.compare s1 s3 = Lt.
Proof.
  revert s2 s3. induction s1 as [|c1 s1 IH]; intros [|c2 s2] [|c3 s3]; simpl;
    try done.
  destruct (Ascii.compare c1 c2) eqn:H12; try done;
    destruct (Ascii.compare c2 c3) eqn:H23; try done; intros Ha Hb.
  - apply cmp_eq in H12, H23. subst.
    rewrite (cmp_refl (cmp:=Ascii.compare)). eauto.
  - apply cmp_eq in H12. subst. by rewrite H23.
  - apply cmp_eq in H23. subst. by rewrite H12.
  - by rewrite (cmp_lt_trans _ _ _ H12 H23).
Qed.

#[global] Instance string_total_compare : TotalCompare String.compare.
Proof.
  split.
  - apply string_compare_refl.
  - apply String.compare_eq_iff.
  - intros a b. apply String.compare_antisym.
  - apply string_compare_lt_trans.
Qed.

#[global] Instance lex_total_compare {A B} (cmpA : A → A → comparison)
    (cmpB : B → B → comparison) `{!TotalCompare cmpA, !TotalCompare cmpB} :
  TotalCompare (lex_compare cmpA cmpB).
Proof.
  split; unfold lex_compare.
  - intros [a b]; simpl. by rewrite !cmp_refl.
  - intros [a b] [a' b']; simpl.
    destruct (cmpA a a') eqn:Ha; try done.
    intros Hb. apply cmp_eq in Ha, Hb. by subst.
  - intros [a b] [a' b']; simpl.
    rewrite (cmp_antisym (cmp:=cmpA) a a').
    destruct (cmpA a' a); simpl; try done. apply cmp_antisym.
  - intros [a1 b1] [a2 b2] [a3 b3]; simpl.
    destruct (cmpA a1 a2) eqn:H12; try done;
      destruct (cmpA a2 a3) eqn:H23; try done; intros Hx Hy.
    + apply cmp_eq in H12, H23. subst. rewrite cmp_refl. eauto using cmp_lt_trans.
    + apply cmp_eq in H12. subst. by rewrite H23.
    + apply cmp_eq in H23. subst. by rewrite H12.
    + by rewrite (cmp_lt_trans _ _ _ H12 H23).
Qed.

(** ** Sorting *)

Section SortingFacts.
Context {A K : Type} (key : A → K) (cmp : K → K → comparison).
Context `{!TotalCompare cmp}.

Local Abbreviation insert_sorted := (Py.insert_sorted key cmp).
Local Abbreviation sorted := (Py.sorted key cmp).
Local Abbreviation not_after := (λ a b : A, Py.lt cmp (key b) (key a) = false).

Lemma lt_irrefl (k : K) : Py.lt cmp k k = false.
Proof. unfold Py.lt. by rewrite cmp_refl. Qed.

Lemma lt_asym (a b : K) : Py.lt cmp a b = true → Py.lt cmp b a = false.
Proof.
  unfold Py.lt. destruct (cmp a b) eqn:Hab; try done.
  by rewrite (cmp_lt_gt _ _ Hab).
Qed.

Lemma lt_false_trans (a b c : K) :
  Py.lt cmp b a = false → Py.lt cmp c b = false → Py.lt cmp c a = false.
Proof.
  unfold Py.lt. intros Hba Hcb.
  destruct (cmp c a) eqn:Hca; try done.
  destruct (cmp b a) eqn:Hab; try done.
  - apply cmp_eq in Hab. subst. by rewrite Hca in Hcb.
  - apply cmp_gt_lt in Hab. by rewrite (cmp_lt_trans _ _ _ Hca Hab) in Hcb.
Qed.

Lemma lt_total (a b : K) :
  Py.lt cmp a b = false → Py.lt cmp b a = false → a = b.
Proof.
  unfold Py.lt. intros Hab Hba.
  destruct (cmp a b) eqn:Hc; try done.
  - by apply cmp_eq.
  - by rewrite (cmp_gt_lt _ _ Hc) in Hba.
Qed.

Lemma insert_sorted_perm x l : insert_sorted x l ≡ₚ x :: l.
Proof.
  induction l as [|y l IH]; simpl; [done|].
  destruct (Py.lt cmp (key y) (key x)); [|done].
  rewrite IH. apply perm_swap.
Qed.

Lemma sorted_perm l : sorted l ≡ₚ l.
Proof.
  induction l as [|x l IH]; simpl; [done|].
  rewrite insert_sorted_perm. by rewrite IH.
Qed.

Lemma insert_sorted_sorted x l :
  StronglySorted not_after l → StronglySorted not_after (insert_sorted x l).
Proof.
  induction 1 as [|y l Hl IH Hy]; simpl.
  - repeat constructor.
  - destruct (Py.lt cmp (key y) (key x)) eqn:Hyx.
    + constructor; [done|].
      rewrite insert_sorted_perm. constructor; [|done].
      by apply lt_asym.
    + constructor; [by constructor|].
      constructor; [done|].
      eapply Forall_impl; [exact Hy|].
      intros z Hz. simpl in *. by eapply lt_false_trans.
Qed.

Lemma sorted_sorted l : StronglySorted not_after (sorted l).
Proof.
  induction l as [|x l IH]; simpl; [constructor|].
  by apply insert_sorted_sorted.
Qed.

(** The sort is stable: the elements with a given key keep their order.
    With [sorted_perm] and [sorted_sorted] this fixes the result, so every
    stable sort by [<] returns the same list. *)
Lemma insert_sorted_stable `{!EqDecision K} k x l :
  filter (λ y, key y = k) (insert_sorted x l) = filter (λ y, key y = k) (x :: l).
Proof.
  induction l as [|y l IH]; [reflexivity|]. cbn [Py.insert_sorted].
  destruct (Py.lt cmp (key y) (key x)) eqn:Hyx; [|reflexivity].
  rewrite (filter_cons _ y), IH, !filter_cons.
  destruct (decide (key x = k)) as [Hx|Hx]; [|reflexivity].
  destruct (decide (key y = k)) as [Hy|Hy]; [|reflexivity].
  rewrite Hx, Hy, lt_irrefl in Hyx. discriminate.
Qed.

Lemma sorted_stable `{!EqDecision K} k l :
  filter (λ y, key y = k) (sorted l) = filter (λ y, key y = k) l.
Proof.
  induction l as [|x l IH]; [reflexivity|]. cbn [Py.sorted foldr].
  rewrite insert_sorted_stable, !filter_cons.
  unfold Py.sorted in IH. by rewrite IH.
Qed.

(** The head of a sorted list is an element of the list whose key no
    other key is smaller than. *)
Lemma sorted_head_min l p r :
  sorted l = p :: r →
  p ∈ l ∧ ∀ q, q ∈ l → Py.lt cmp (key q) (key p) = false.
Proof.
  intros Hs. pose proof (sorted_sorted l) as Hss. pose proof (sorted_perm l) as Hp.
  rewrite Hs in Hss, Hp. split.
  - rewrite <- Hp. left.
  - intros q Hq. rewrite <- Hp in Hq.
    apply StronglySorted_inv in Hss as [_ Hall].
    apply elem_of_cons in Hq as [->|Hq]; [apply lt_irrefl|].
    rewrite Forall_forall in Hall. by apply Hall.
Qed.

Lemma insert_sorted_comm x y l :
  Py.lt cmp (key x) (key y) = true →
  insert_sorted x (insert_sorted y l) = insert_sorted y (insert_sorted x l).
Proof.
  intros Hxy. pose proof (lt_asym _ _ Hxy) as Hyx.
  induction l as [|z l IH]; simpl.
  - by rewrite Hxy, Hyx.
  - destruct (Py.lt cmp (key z) (key y)) eqn:Hzy;
      destruct (Py.lt cmp (key z) (key x)) eqn:Hzx; simpl;
      rewrite ?Hzy, ?Hzx, ?Hxy, ?Hyx; simpl; rewrite ?Hzy, ?Hzx; try done.
    + by rewrite IH.
    + exfalso. unfold Py.lt in *.
      destruct (cmp (key z) (key x)) eqn:H1; try done.
      destruct (cmp (key x) (key y)) eqn:H2; try done.
      by rewrite (cmp_lt_trans _ _ _ H1 H2) in Hzy.
Qed.

(** Where distinct elements have distinct keys, the sorted list does not
    depend on the order of the input. *)
Lemma sorted_permutation_eq l l' :
  (∀ x y, x ∈ l → y ∈ l → key x = key y → x = y) →
  l ≡ₚ l' → sorted l = sorted l'.
Proof.
  intros Hinj Hp. induction Hp as [|x l l' Hp IH|x y l|l1 l2 l3 H12 IH12 H23 IH23].
  - done.
  - simpl. rewrite IH; [done|].
    intros a b Ha Hb. apply Hinj; by right.
  - simpl.
    destruct (Py.lt cmp (key x) (key y)) eqn:Hxy;
      [symmetry; by apply insert_sorted_comm|].
    destruct (Py.lt cmp (key y) (key x)) eqn:Hyx;
      [by apply insert_sorted_comm|].
    assert (y = x) as ->; [|done].
    apply Hinj; [left|right; left|]. by apply lt_total.
  - rewrite IH12 by done. apply IH23.
    intros a b Ha Hb. apply Hinj; by rewrite H12.
Qed.

(** With distinct keys the sorted list is strictly increasing. *)
Lemma strongly_sorted_strict s :
  StronglySorted not_after s → NoDup (key <$> s) →
  StronglySorted (λ a b, cmp (key a) (key b) = Lt) s.
Proof.
  induction 1 as [|x s Hs IH Hx]; intros Hnd; [constructor|].
  rewrite fmap_cons in Hnd. apply NoDup_cons in Hnd as [Hnotin Hnd].
  constructor; [by apply IH|].
  rewrite Forall_forall in Hx |- *. intros y Hy.
  specialize (Hx y Hy). simpl in Hx. unfold Py.lt in Hx.
  destruct (cmp (key x) (key y)) eqn:Hc; [|done|].
  - apply cmp_eq in Hc. exfalso. apply Hnotin. rewrite Hc.
    by apply list_elem_of_fmap_2.
  - by rewrite (cmp_gt_lt _ _ Hc) in Hx.
Qed.

Lemma sorted_strict l :
  NoDup (key <$> l) →
  StronglySorted (λ a b, cmp (key a) (key b) = Lt) (sorted l).
Proof.
  intros Hnd. apply strongly_sorted_strict; [apply sorted_sorted|].
  by rewrite sorted_perm.
Qed.

(** The head of the sorted list is the first of the elements of least
    key: every element in front of it has a greater key, and no element
    behind it has a smaller one. *)
Lemma sorted_head_first_min l p r :
  sorted l = p :: r →
  ∃ s1 s2, l = s1 ++ p :: s2
           ∧ (∀ q, q ∈ s1 → Py.lt cmp (key p) (key q) = true)
           ∧ (∀ q, q ∈ s2 → Py.lt cmp (key q) (key p) = false).
Proof.
  revert p r. induction l as [|x l IH]; intros p r Hs; [done|].
  cbn [Py.sorted foldr] in Hs. fold (sorted l) in Hs.
  destruct (sorted l) as [|y r'] eqn:Hl.
  - pose proof (sorted_perm l) as Hp. rewrite Hl in Hp.
    apply Permutation_nil_l in Hp as <-.
    injection Hs as <- <-. exists [], []. split_and!; [done|..];
      by intros q ?%elem_of_nil.
  - cbn [Py.insert_sorted] in Hs.
    destruct (Py.lt cmp (key y) (key x)) eqn:Hyx.
    + injection Hs as <- <-.
      destruct (IH y r' eq_refl) as (s1 & s2 & -> & H1 & H2).
      exists (x :: s1), s2. split_and!; [done| |done].
      intros q [->|Hq]%elem_of_cons; [done|by apply H1].
    + injection Hs as <- <-. exists [], l. split_and!; [done|..].
      * by intros q ?%elem_of_nil.
      * intros q Hq. destruct (sorted_head_min _ _ _ Hl) as [_ Hmin].
        by apply (lt_false_trans _ (key y)); [|apply Hmin].
Qed.

End SortingFacts.

(** ** The consolidator *)

Section Consolidator.
Import StartCombining.

#[global] Instance key_snd_total_compare : TotalCompare key_snd_compare.
Proof.
  split.
  - intros [v|s]; simpl; apply cmp_refl.
  - intros [v|s] [v'|s']; simpl; try done; intros ->%cmp_eq; done.
  - intros [v|s] [v'|s']; simpl; try done; apply cmp_antisym.
  - intros [v1|s1] [v2|s2] [v3|s3]; simpl; try done; apply cmp_lt_trans.
Qed.

Lemma sort_key_compare_lex a b :
  sort_key_compare a b
  = lex_compare (lex_compare Z.compare key_snd_compare) String.compare a b.
Proof.
  destruct a as [[p1 s1] d1], b as [[p2 s2] d2]. unfold lex_compare; simpl.
  destruct (p1 ?= p2); [|done..]. by destruct (key_snd_compare s1 s2).
Qed.

#[global] Instance sort_key_total_compare : TotalCompare sort_key_compare.
Proof.
  split.
  - intros a. rewrite sort_key_compare_lex. apply cmp_refl.
  - intros a b. rewrite sort_key_compare_lex. apply cmp_eq.
  - intros a b. rewrite !sort_key_compare_lex. apply cmp_antisym.
  - intros a b c. rewrite !sort_key_compare_lex. apply cmp_lt_trans.
Qed.

(** The kind of the second component of a key is fixed by the unit, so the
    sort never compares a number with a position name. *)
Lemma sort_key_same_kind p q :
  p.1.1 = q.1.1 →
  match (get_position_sort_key p).1.2, (get_position_sort_key q).1.2 with
  | OrderValue _, OrderValue _ | PositionName _, PositionName _ => True
  | _, _ => False
  end.
Proof.
  destruct p as [[u n] d], q as [[u' n'] d']; simpl. intros ->.
  by destruct (u' =? 3).
Qed.

Lemma truthy_true s : Py.truthy s = true ↔ s ≠ "".
Proof.
  unfold Py.truthy. rewrite negb_true_iff. apply String.eqb_neq.
Qed.

Lemma skipped_false row :
  row_PlayerUID row ≠ "" → row_PlayerName row ≠ "-" →
  row_Position row ≠ "Empty Slot" → skipped row = false.
Proof.
  intros Hu Hn Hp. unfold skipped.
  apply truthy_true in Hu. apply String.eqb_neq in Hn, Hp.
  by rewrite Hu, Hn, Hp.
Qed.

Lemma skipped_no_uid row : row_PlayerUID row = "" → skipped row = true.
Proof. intros Hu. unfold skipped. by rewrite Hu. Qed.

Lemma all_positions_update_info d row :
  all_positions (update_info d row) = all_positions d.
Proof. unfold update_info. by repeat case_match. Qed.

Lemma TeamName_update_info d row : TeamName (update_info d row) = TeamName d.
Proof. unfold update_info. by repeat case_match. Qed.

Lemma PlayerUID_update_info d row :
  PlayerName d = "" ∨ PlayerUID d = row_PlayerUID row →
  PlayerUID (update_info d row) = row_PlayerUID row.
Proof.
  unfold update_info. intros [Hn|Hu].
  - by rewrite Hn.
  - by repeat case_match.
Qed.

(** The stored status is never the marker of an empty slot, so the branch
    of line 112 is never taken. *)
Lemma InjuryStatus_update_info d row :
  InjuryStatus d ≠ "Empty Slot" → InjuryStatus (update_info d row) ≠ "Empty Slot".
Proof.
  intros Hd. unfold update_info.
  apply String.eqb_neq in Hd as Hd'. rewrite Hd'. simpl.
  destruct (_ || _); [|done]. simpl.
  destruct (String.eqb (row_InjuryStatus row) "Empty Slot") eqn:He; simpl; [done|].
  by apply String.eqb_neq.
Qed.

(** Once a player has a name, no later sighting changes name, address,
    identifier or status. *)
Lemma update_info_named d row :
  PlayerName d ≠ "" → PlayerName d ≠ "Empty Slot" → InjuryStatus d ≠ "Empty Slot" →
  update_info d row = d.
Proof.
  intros Hn He Hs. unfold update_info.
  apply truthy_true in Hn. apply String.eqb_neq in He, Hs.
  by rewrite Hn, He, Hs.
Qed.

Lemma add_position_fields prio d row :
  TeamName (add_position prio d row) = TeamName d
  ∧ PlayerName (add_position prio d row) = PlayerName d
  ∧ PlayerURL (add_position prio d row) = PlayerURL d
  ∧ PlayerUID (add_position prio d row) = PlayerUID d
  ∧ InjuryStatus (add_position prio d row) = InjuryStatus d.
Proof. unfold add_position. by repeat case_match. Qed.

Lemma add_position_present prio d row :
  (prio, row_Position row, row_Depth row) ∈ all_positions d →
  add_position prio d row = d.
Proof.
  intros Hin. unfold add_position.
  destruct (_ && _); [|done]. simpl. by rewrite bool_decide_eq_true_2.
Qed.

Lemma add_position_absent prio d row :
  row_Position row ≠ "" → row_Depth row ≠ "" →
  (prio, row_Position row, row_Depth row) ∉ all_positions d →
  all_positions (add_position prio d row)
  = all_positions d ++ [(prio, row_Position row, row_Depth row)].
Proof.
  intros Hp Hd Hin. unfold add_position.
  apply truthy_true in Hp, Hd. rewrite Hp, Hd. simpl.
  by rewrite bool_decide_eq_false_2.
Qed.

Lemma add_position_NoDup prio d row :
  NoDup (all_positions d) → NoDup (all_positions (add_position prio d row)).
Proof.
  intros Hnd. unfold add_position.
  destruct (_ && _); [|done]. simpl.
  case_bool_decide as Hin; [done|]. simpl.
  apply NoDup_app. split_and!; [done| |apply NoDup_singleton].
  intros x Hx ->%list_elem_of_singleton. done.
Qed.

(** What holds of every entry of [consolidated_players]. *)
Local Abbreviation player_ok team_name :=
  (λ (k : string) (d : PlayerData),
     PlayerUID d = k ∧ TeamName d = team_name
     ∧ InjuryStatus d ≠ "Empty Slot" ∧ NoDup (all_positions d)).

Lemma process_row_ok team_name prio cp row :
  map_Forall (player_ok team_name) cp →
  map_Forall (player_ok team_name) (process_row team_name prio cp row).
Proof.
  intros Hcp. unfold process_row. destruct (skipped row); [done|].
  apply map_Forall_insert_2; [|done].
  destruct (add_position_fields prio
              (update_info (default (default_player team_name) (cp !! row_PlayerUID row)) row)
              row) as (Ht & _ & _ & Hu & Hs).
  rewrite Ht, Hu, Hs, TeamName_update_info.
  assert ((PlayerName (default (default_player team_name) (cp !! row_PlayerUID row)) = ""
           ∨ PlayerUID (default (default_player team_name) (cp !! row_PlayerUID row))
             = row_PlayerUID row)
          ∧ player_ok team_name
              (PlayerUID (default (default_player team_name) (cp !! row_PlayerUID row)))
              (default (default_player team_name) (cp !! row_PlayerUID row)))
    as (Hn & _ & Hd2 & Hd3 & Hd4).
  { destruct (cp !! row_PlayerUID row) as [d|] eqn:Hd; simpl.
    - destruct (Hcp _ _ Hd) as (Hd1 & Hd2 & Hd3 & Hd4). split_and!; auto.
    - split_and!; auto. apply NoDup_nil_2. }
  split_and!.
  - by apply PlayerUID_update_info.
  - done.
  - by apply InjuryStatus_update_info.
  - apply add_position_NoDup. by rewrite all_positions_update_info.
Qed.

Lemma process_file_ok team_name cp file :
  map_Forall (player_ok team_name) cp →
  map_Forall (player_ok team_name) (process_file team_name cp file).
Proof.
  unfold process_file. generalize (unit_priority_map file.1) as prio.
  intros prio. revert cp. induction (file.2) as [|row rows IH]; intros cp Hcp; simpl.
  - done.
  - apply IH. by apply process_row_ok.
Qed.

Lemma consolidate_ok team_name files_info :
  map_Forall (player_ok team_name) (consolidate team_name files_info).
Proof.
  unfold consolidate.
  assert (map_Forall (player_ok team_name) (∅ : gmap string PlayerData)) as H0
    by apply map_Forall_empty.
  revert H0. generalize (∅ : gmap string PlayerData) as cp.
  induction (sorted_file_types files_info) as [|f fs IH]; intros cp Hcp; simpl.
  - done.
  - apply IH. by apply process_file_ok.
Qed.

Lemma unit_priority_map_inj x y : unit_priority_map x = unit_priority_map y → x = y.
Proof. by destruct x, y. Qed.

Lemma NoDup_fmap_eq {X Y} (f : X → Y) (l : list X) x y :
  NoDup (f <$> l) → x ∈ l → y ∈ l → f x = f y → x = y.
Proof.
  induction l as [|z l IH]; simpl; intros Hnd Hx Hy Hf; [by apply elem_of_nil in Hx|].
  apply NoDup_cons in Hnd as [Hz Hnd].
  apply elem_of_cons in Hx as [->|Hx], Hy as [->|Hy]; try done.
  - exfalso. apply Hz. rewrite Hf. by apply list_elem_of_fmap_2.
  - exfalso. apply Hz. rewrite <- Hf. by apply list_elem_of_fmap_2.
  - by apply IH.
Qed.

(** The files of a team are read in the order of their unit whatever the
    order of the dictionary. *)
Lemma consolidate_permutation team_name files files' :
  NoDup files.*1 → files ≡ₚ files' →
  consolidate team_name files = consolidate team_name files'.
Proof.
  intros Hnd Hp. unfold consolidate, sorted_file_types.
  rewrite (sorted_permutation_eq _ _ files files'); [done| |done].
  intros x y Hx Hy Hxy. apply (NoDup_fmap_eq fst files); try done.
  by apply unit_priority_map_inj.
Qed.

Lemma sorted_uids_strict (cp : gmap string PlayerData) :
  StronglySorted (λ a b, String.compare a b = Lt) (sorted_uids cp).
Proof.
  unfold sorted_uids.
  apply (sorted_strict id String.compare).
  rewrite list_fmap_id. apply NoDup_fst_map_to_list.
Qed.

Lemma elem_of_sorted_uids (cp : gmap string PlayerData) k :
  k ∈ sorted_uids cp ↔ is_Some (cp !! k).
Proof.
  unfold sorted_uids. rewrite sorted_perm.
  rewrite list_elem_of_fmap. split.
  - intros [[k' d] [-> Hin%elem_of_map_to_list]]. eauto.
  - intros [d Hd]. exists (k, d). split; [done|]. by apply elem_of_map_to_list.
Qed.

(** The identifier column of the rows after the header lists the keys in
    sorted order. *)
Lemma output_rows_uids team_name (cp : gmap string PlayerData) :
  map_Forall (player_ok team_name) cp →
  (λ row : list string, default "" (row !! 5%nat)) <$> tail (output_rows cp)
  = sorted_uids cp.
Proof.
  intros Hcp. unfold output_rows. simpl.
  assert (∀ k, k ∈ sorted_uids cp → is_Some (cp !! k)) as Hall
    by (intros k; apply elem_of_sorted_uids).
  induction (sorted_uids cp) as [|k ks IH]; simpl; [done|].
  destruct (Hall k) as [d Hd]; [left|]. rewrite Hd. simpl.
  destruct (Hcp _ _ Hd) as (-> & _). f_equal.
  apply IH. intros k' Hk'. apply Hall. by right.
Qed.

Lemma output_rows_singleton uid (d : PlayerData) :
  output_rows {[uid := d]} = [header; output_row d].
Proof.
  unfold output_rows, sorted_uids. rewrite map_to_list_singleton. simpl.
  by rewrite lookup_singleton_eq.
Qed.

End Consolidator.

Section TwoSightings.
Import StartCombining.

Lemma process_row_unskipped team_name prio cp row :
  skipped row = false →
  process_row team_name prio cp row
  = <[row_PlayerUID row :=
        add_position prio
          (update_info (default (default_player team_name) (cp !! row_PlayerUID row)) row)
          row]> cp.
Proof. intros Hs. unfold process_row. by rewrite Hs. Qed.

Lemma process_row_skipped team_name prio cp row :
  skipped row = true → process_row team_name prio cp row = cp.
Proof. intros Hs. unfold process_row. by rewrite Hs. Qed.

(** Two sightings of one player with different positions leave one entry
    that lists both positions in the order of the sightings. *)
Lemma process_two_rows team_name prio1 prio2 r1 r2 :
  skipped r1 = false → skipped r2 = false →
  row_PlayerUID r2 = row_PlayerUID r1 →
  row_Position r1 ≠ "" → row_Depth r1 ≠ "" →
  row_Position r2 ≠ "" → row_Depth r2 ≠ "" →
  (prio2, row_Position r2, row_Depth r2) ≠ (prio1, row_Position r1, row_Depth r1) →
  ∃ d, process_row team_name prio2 (process_row team_name prio1 ∅ r1) r2
       = {[row_PlayerUID r1 := d]}
       ∧ all_positions d
         = [(prio1, row_Position r1, row_Depth r1); (prio2, row_Position r2, row_Depth r2)].
Proof.
  intros Hs1 Hs2 Hu Hp1 Hd1 Hp2 Hd2 Hne.
  rewrite (process_row_unskipped _ prio1 ∅ r1 Hs1).
  rewrite (process_row_unskipped _ prio2 _ r2 Hs2).
  rewrite Hu, lookup_insert_eq, insert_insert_eq, insert_empty, lookup_empty. simpl.
  eexists. split; [reflexivity|].
  assert (all_positions
            (add_position prio1 (update_info (default_player team_name) r1) r1)
          = [(prio1, row_Position r1, row_Depth r1)]) as H1.
  { rewrite add_position_absent; rewrite ?all_positions_update_info; simpl;
      auto using not_elem_of_nil. }
  rewrite add_position_absent; rewrite ?all_positions_update_info, ?H1; simpl;
    auto.
  by intros ?%list_elem_of_singleton.
Qed.

Lemma consolidate_offense_special team_name r1 r2 :
  consolidate team_name [(Offense, [r1]); (SpecialTeams, [r2])]
  = process_row team_name 3 (process_row team_name 1 ∅ r1) r2.
Proof. reflexivity. Qed.


End TwoSightings.

(** ** The deduplication of scrapeMLB.py *)

Section Deduplication.
Import ScrapeMLB.

Lemma dict_get_None d k : dict_get d k = None ↔ k ∉ d.*1.
Proof.
  induction d as [|[k' v] d IH]; csimpl.
  - split; [intros _; apply not_elem_of_nil|done].
  - case_bool_decide as Hk; rewrite not_elem_of_cons.
    + split; [done|]. intros [Hne _]. by subst.
    + rewrite IH. split; [by split|by intros [_ ?]].
Qed.

Lemma dict_set_keys_new d k v : k ∉ d.*1 → (dict_set d k v).*1 = d.*1 ++ [k].
Proof.
  induction d as [|[k' v'] d IH]; csimpl; [done|].
  rewrite not_elem_of_cons. intros [Hne Hk].
  rewrite bool_decide_eq_false_2 by done. csimpl. by rewrite IH.
Qed.

Lemma dict_set_keys_old d k v : k ∈ d.*1 → (dict_set d k v).*1 = d.*1.
Proof.
  induction d as [|[k' v'] d IH]; csimpl; [by intros ?%elem_of_nil|].
  case_bool_decide as Hk; [done|]. csimpl.
  rewrite elem_of_cons. intros [->|Hin]; [done|]. by rewrite IH.
Qed.

Lemma dict_set_values d k v item :
  item ∈ dict_set d k v → item ∈ d ∨ item = (k, v).
Proof.
  induction d as [|[k' v'] d IH]; simpl.
  - intros ->%list_elem_of_singleton. by right.
  - case_bool_decide as Hk; rewrite !elem_of_cons.
    + subst. intros [->|Hin]; [by right|by left; right].
    + intros [->|Hin]; [by left; left|]. destruct (IH Hin); auto.
Qed.

(** The keys of the dictionary after a step: the key of the sighting is
    present, the keys stay distinct, and each value is stored under its
    own key. *)
Local Abbreviation dict_ok :=
  (λ d : dict, NoDup d.*1 ∧ Forall (λ item, player_key item.2.2 = item.1) d).

Lemma dedup_step_ok d p :
  dict_ok d →
  dict_ok (dedup_step d p)
  ∧ player_key p ∈ (dedup_step d p).*1
  ∧ ∀ k, k ∈ d.*1 → k ∈ (dedup_step d p).*1.
Proof.
  intros [Hnd Hall]. unfold dedup_step.
  assert (∀ r, Forall (λ item, player_key item.2.2 = item.1)
                 (dict_set d (player_key p) (r, p))) as Hset.
  { intros r. rewrite Forall_forall in Hall |- *.
    intros item [Hin| ->]%dict_set_values; [by apply Hall|done]. }
  destruct (dict_get d (player_key p)) as [[stored_rank stored]|] eqn:Hget.
  - assert (player_key p ∈ d.*1) as Hin.
    { destruct (decide (player_key p ∈ d.*1)) as [|Hn]; [done|].
      apply dict_get_None in Hn. congruence. }
    destruct (_ <? _).
    + rewrite dict_set_keys_old by done. by split_and!.
    + by split_and!.
  - apply dict_get_None in Hget.
    rewrite dict_set_keys_new by done. split_and!.
    + apply NoDup_app. split_and!; [done| |apply NoDup_singleton].
      by intros k Hk ->%list_elem_of_singleton.
    + apply Hset.
    + apply elem_of_app. right. left.
    + intros k Hk. apply elem_of_app. by left.
Qed.

Lemma foldl_dedup_step_ok l d :
  dict_ok d →
  dict_ok (foldl dedup_step d l)
  ∧ (∀ p, p ∈ l → player_key p ∈ (foldl dedup_step d l).*1)
  ∧ (∀ k, k ∈ d.*1 → k ∈ (foldl dedup_step d l).*1).
Proof.
  revert d. induction l as [|q l IH]; intros d Hd; simpl.
  - split; [done|]. split; [|done]. intros p Hp. by apply elem_of_nil in Hp.
  - destruct (dedup_step_ok d q Hd) as (Hok & Hq & Hkeep).
    destruct (IH _ Hok) as (Hok' & Hl & Hkeep').
    split; [done|]. split; [|by auto].
    intros p Hp. apply elem_of_cons in Hp as [->|Hp]; auto.
Qed.

Lemma deduplicate_keys l :
  player_key <$> deduplicate l = (foldl dedup_step [] l).*1.
Proof.
  unfold deduplicate.
  destruct (foldl_dedup_step_ok l []) as ((_ & Hall) & _).
  { split; [apply NoDup_nil_2|constructor]. }
  rewrite <- list_fmap_compose. by apply Forall_fmap_ext_1.
Qed.

(** One record per key [(player_name, team_name)], and a record for the
    key of every sighting. *)
Lemma deduplicate_one_per_key l :
  NoDup (player_key <$> deduplicate l)
  ∧ ∀ p, p ∈ l → player_key p ∈ player_key <$> deduplicate l.
Proof.
  rewrite deduplicate_keys.
  destruct (foldl_dedup_step_ok l []) as ((Hnd & _) & Hin & _).
  { split; [apply NoDup_nil_2|constructor]. }
  done.
Qed.

End Deduplication.

(** ** The master file *)

Section Master.
Import MasterCombine.

(** The master file does not depend on the order in which the directory
    lists its entries. *)
Lemma create_master_permutation output_filename directory directory' :
  NoDup directory.*1 → directory ≡ₚ directory' →
  create_master_depth_chart_csv output_filename directory
  = create_master_depth_chart_csv output_filename directory'.
Proof.
  intros Hnd Hp. unfold create_master_depth_chart_csv.
  assert (filter (λ f, is_input output_filename f = true) directory
          ≡ₚ filter (λ f, is_input output_filename f = true) directory') as Hf
    by by rewrite Hp.
  assert (Py.sorted fst String.compare
            (filter (λ f, is_input output_filename f = true) directory)
          = Py.sorted fst String.compare
              (filter (λ f, is_input output_filename f = true) directory')) as Hs.
  { apply sorted_permutation_eq; [apply _| |done].
    intros x y [_ Hx]%list_elem_of_filter [_ Hy]%list_elem_of_filter Hxy.
    by apply (NoDup_fmap_eq fst directory). }
  destruct (filter _ directory) as [|f fs] eqn:E1;
    destruct (filter _ directory') as [|f' fs'] eqn:E2.
  - done.
  - by apply Permutation_nil_cons in Hf.
  - symmetry in Hf. by apply Permutation_nil_cons in Hf.
  - by rewrite Hs.
Qed.

End Master.

(** ** The order of the positions *)

Section Depths.
Import StartCombining PrioritySpec.

Lemma number_from_acc acc depth :
  number_from acc depth
  = acc * 10 ^ Z.of_nat (String.length depth) + number_from 0 depth.
Proof.
  revert acc. induction depth as [|c depth IH]; intros acc.
  - simpl. lia.
  - cbn [number_from String.length]. rewrite IH, (IH (10 * 0 + _)).
    rewrite Nat2Z.inj_succ, Z.pow_succ_r by lia. lia.
Qed.

Lemma number_from_bound depth :
  is_decimal depth = true →
  0 ≤ number_from 0 depth < 10 ^ Z.of_nat (String.length depth).
Proof.
  unfold is_decimal. induction depth as [|c depth IH]; [simpl; lia|].
  cbn [list_ascii_of_string forallb number_from String.length].
  intros [Hc Hd]%andb_true_iff. specialize (IH Hd).
  unfold is_decimal_digit in Hc. apply andb_true_iff in Hc as [H1 H2].
  rewrite number_from_acc, Nat2Z.inj_succ, Z.pow_succ_r by lia. nia.
Qed.

(** For depths of as many digits, the order of the texts is the order of
    the numbers. *)
Lemma decimal_compare a b :
  is_decimal a = true → is_decimal b = true →
  String.length a = String.length b →
  String.compare a b = numeric_compare a b.
Proof.
  unfold numeric_compare, depth_number.
  revert b. induction a as [|c a IH]; intros [|c' b]; try done.
  intros Ha Hb [= Hlen].
  pose proof (number_from_bound _ Ha) as Ba. pose proof (number_from_bound _ Hb) as Bb.
  unfold is_decimal in Ha, Hb. cbn [list_ascii_of_string forallb] in Ha, Hb.
  apply andb_true_iff in Ha as [Hc Ha], Hb as [Hc' Hb].
  specialize (IH b Ha Hb Hlen).
  pose proof (number_from_bound _ Ha) as Ba'.
  pose proof (number_from_bound _ Hb) as Bb'.
  cbn [number_from String.length] in *.
  rewrite (number_from_acc _ a), (number_from_acc _ b), <- Hlen in *.
  cbn [String.compare]. unfold Ascii.compare.
  clear Ba Bb. unfold is_decimal_digit in Hc, Hc'.
  apply andb_true_iff in Hc as [Hc1 Hc2], Hc' as [Hc1' Hc2'].
  generalize dependent (N_of_ascii c). generalize dependent (N_of_ascii c').
  generalize dependent (10 ^ Z.of_nat (String.length a)).
  generalize dependent (number_from 0 a). generalize dependent (number_from 0 b).
  clear. intros vb va IH m Hb Ha y Hy1 Hy2 x Hx1 Hx2.
  apply Z.leb_le in Hy1, Hy2, Hx1, Hx2.
  destruct (N.compare_spec x y) as [->|Hxy|Hxy].
  - rewrite IH. symmetry. apply Z.add_compare_mono_l.
  - symmetry. apply Z.compare_lt_iff. nia.
  - symmetry. apply Z.compare_gt_iff. nia.
Qed.

Lemma sort_key_is_composite p q :
  sort_key_compare (get_position_sort_key p) (get_position_sort_key q)
  = composite_compare String.compare p q.
Proof.
  destruct p as [[u n] d], q as [[u' n'] d'].
  unfold composite_compare, secondary_compare, get_position_sort_key. simpl.
  destruct (u ?= u') eqn:Hu.
  - apply Z.compare_eq in Hu as <-.
    destruct (u =? 3); simpl; by rewrite Z.compare_refl.
  - destruct (u =? 3), (u' =? 3); simpl; by rewrite Hu.
  - destruct (u =? 3), (u' =? 3); simpl; by rewrite Hu.
Qed.

Lemma composite_decimal p q :
  is_decimal p.2 = true → is_decimal q.2 = true →
  String.length p.2 = String.length q.2 →
  composite_compare String.compare p q = composite_compare numeric_compare p q.
Proof.
  intros Hp Hq Hl. unfold composite_compare.
  by rewrite (decimal_compare _ _ Hp Hq Hl).
Qed.

End Depths.

(** ** The claims about the consolidator *)

Section ConsolidatorClaims.
Import StartCombining.

(** C1 (the code departs from the claim).  A player first sighted on
    offense with an empty status and sighted again on special teams with
    status Q keeps the name and the address of the first sighting, but
    the status written out is still empty: the later status is not taken
    over. *)
Theorem C1_later_status_is_not_taken_over :
  combine_team "Team"
    [(Offense, [mkRow "u1" "Al Able" "/al-able" "" "WR" "1"]);
     (SpecialTeams, [mkRow "u1" "A. Able" "/a-able" "Q" "PR" "1"])]
  = [header;
     ["Team"; "WR"; "1"; "Al Able"; "/al-able"; "u1"; ""; "PR"; "1"; ""; ""]].
Proof. vm_compute. reflexivity. Qed.

(** C9.  After any run of the consolidator the position list of every
    player is free of duplicates, before and after sorting, and adding a
    tuple that the list already holds leaves the list as it is. *)
Theorem C9_no_duplicate_positions team_name files_info player_uid d :
  consolidate team_name files_info !! player_uid = Some d →
  NoDup (all_positions d)
  ∧ NoDup (sort_positions (all_positions d))
  ∧ ∀ prio row,
      (prio, row_Position row, row_Depth row) ∈ all_positions d →
      all_positions (add_position prio d row) = all_positions d.
Proof.
  intros Hd. destruct (consolidate_ok team_name files_info _ _ Hd) as (_ & _ & _ & Hnd).
  split_and!.
  - done.
  - unfold sort_positions. by rewrite sorted_perm.
  - intros prio row Hin. by rewrite add_position_present.
Qed.

Lemma C9_no_duplicate_positions_witness :
  NoDup [(1, "WR", "1"); (3, "PR", "1")].
Proof.
  apply (C9_no_duplicate_positions "Team"
           [(Offense, [mkRow "u1" "Al Able" "/al-able" "" "WR" "1";
                       mkRow "u1" "Al Able" "/al-able" "" "WR" "1"]);
            (SpecialTeams, [mkRow "u1" "Al Able" "/al-able" "" "PR" "1"])]
           "u1"
           (mkPlayerData "Team" "Al Able" "/al-able" "u1" ""
              [(1, "WR", "1"); (3, "PR", "1")])).
  vm_compute. reflexivity.
Defined.

Lemma sort_positions_first_min l p :
  sort_positions l !! 0%nat = Some p →
  ∃ s1 s2, l = s1 ++ p :: s2
           ∧ (∀ q, q ∈ s1 → PrioritySpec.composite_compare String.compare p q = Lt)
           ∧ (∀ q, q ∈ s2 → PrioritySpec.composite_compare String.compare q p ≠ Lt).
Proof.
  intros Hp. unfold sort_positions in Hp.
  destruct (Py.sorted get_position_sort_key sort_key_compare l) as [|p' r] eqn:Hs;
    [done|].
  simpl in Hp. injection Hp as ->.
  destruct (sorted_head_first_min _ _ _ _ _ Hs) as (s1 & s2 & Hl & H1 & H2).
  exists s1, s2. split_and!; [done|..]; intros q Hq; rewrite <- sort_key_is_composite.
  - specialize (H1 q Hq). unfold Py.lt in H1. by destruct (sort_key_compare _ _).
  - specialize (H2 q Hq). unfold Py.lt in H2. by destruct (sort_key_compare _ _).
Qed.

(** C4, as stated, fails where the depth is read as a number: a player
    listed as WR at depth 2 and at depth 10 on offense gets depth 10 as
    primary depth, since the depths are compared as texts. *)
Lemma C4_depth_is_compared_as_text :
  ¬ (∀ d p,
       consolidate "Team"
         [(Offense, [mkRow "u1" "Al Able" "/al-able" "" "WR" "2";
                     mkRow "u1" "Al Able" "/al-able" "" "WR" "10"])] !! "u1" = Some d →
       sort_positions (all_positions d) !! 0%nat = Some p →
       ∀ q, q ∈ all_positions d →
            PrioritySpec.composite_compare PrioritySpec.numeric_compare q p ≠ Lt).
Proof.
  intros H.
  apply (H (mkPlayerData "Team" "Al Able" "/al-able" "u1" ""
              [(1, "WR", "2"); (1, "WR", "10")])
           (1, "WR", "10") eq_refl eq_refl (1, "WR", "2")).
  - left.
  - reflexivity.
Qed.

(** C4 (amended).  The units rank 1, 2 and 3.  The key of the sort is the
    composite key of the specification with the depths compared as texts:
    unit rank, then the table of special teams or the position label, then
    the text of the depth, so depth 10 goes before depth 2.  The primary
    position is the first of the positions of the player that are least
    under this key: it goes before every position sighted before it, and
    none sighted after it goes before it; it is what the row shows as
    primary position and depth.  Where the depths of the player are
    decimal numerals of as many digits, the primary position is least
    under the key with the depths compared as numbers too.  A player seen
    as WR at depth 2 on offense and as PR at depth 1 on special teams gets
    the row with primary position WR and depth 2, in whichever order the
    two files stand in the dictionary. *)
Theorem C4_primary_position :
  (unit_priority_map Offense = 1 ∧ unit_priority_map Defense = 2
   ∧ unit_priority_map SpecialTeams = 3)
  ∧ (∀ p q,
       sort_key_compare (get_position_sort_key p) (get_position_sort_key q)
       = PrioritySpec.composite_compare String.compare p q)
  ∧ (∀ unit_rank position_name,
       PrioritySpec.composite_compare String.compare
         (unit_rank, position_name, "10") (unit_rank, position_name, "2") = Lt)
  ∧ (∀ (l : list pos_tuple) p,
       sort_positions l !! 0%nat = Some p →
       ∃ s1 s2,
         l = s1 ++ p :: s2
         ∧ (∀ q, q ∈ s1 → PrioritySpec.composite_compare String.compare p q = Lt)
         ∧ (∀ q, q ∈ s2 → PrioritySpec.composite_compare String.compare q p ≠ Lt))
  ∧ (∀ (l : list pos_tuple) p,
       (∀ q, q ∈ l → PrioritySpec.is_decimal q.2 = true
                     ∧ String.length q.2 = String.length p.2) →
       sort_positions l !! 0%nat = Some p →
       ∀ q, q ∈ l →
            PrioritySpec.composite_compare PrioritySpec.numeric_compare q p ≠ Lt)
  ∧ (∀ d, all_positions d ≠ [] →
          ∃ p, sort_positions (all_positions d) !! 0%nat = Some p
               ∧ output_row d !! 1%nat = Some p.1.2
               ∧ output_row d !! 2%nat = Some p.2)
  ∧ (∀ team_name uid n1 u1 s1 n2 u2 s2 files_info,
       uid ≠ "" → n1 ≠ "-" → n2 ≠ "-" →
       files_info ≡ₚ [(Offense, [mkRow uid n1 u1 s1 "WR" "2"]);
                      (SpecialTeams, [mkRow uid n2 u2 s2 "PR" "1"])] →
       ∃ row, combine_team team_name files_info = [header; row]
              ∧ row !! 1%nat = Some "WR" ∧ row !! 2%nat = Some "2").
Proof.
  split_and!; try done.
  - apply sort_key_is_composite.
  - intros u n. unfold PrioritySpec.composite_compare, PrioritySpec.secondary_compare.
    simpl. rewrite Z.compare_refl.
    destruct (u =? 3); by rewrite ?Z.compare_refl, ?string_compare_refl.
  - apply sort_positions_first_min.
  - intros l p Hdec Hp q Hq.
    destruct (sort_positions_first_min l p Hp) as (s1 & s2 & Hl & H1 & H2).
    assert (p ∈ l) as Hpl by (rewrite Hl; apply elem_of_app; right; left).
    rewrite <- composite_decimal;
      [|by apply Hdec|by apply Hdec|by apply Hdec].
    rewrite Hl in Hq. apply elem_of_app in Hq as [Hq|Hq].
    + specialize (H1 q Hq). rewrite <- sort_key_is_composite in *.
      rewrite (cmp_antisym (cmp:=sort_key_compare)), H1. done.
    + apply elem_of_cons in Hq as [->|Hq]; [|by apply H2].
      rewrite <- sort_key_is_composite. by rewrite cmp_refl.
  - intros d Hne.
    assert (sort_positions (all_positions d) ≠ []) as Hs.
    { intros Hnil. apply Hne. apply Permutation_nil_r.
      unfold sort_positions in Hnil.
      by rewrite <- (sorted_perm get_position_sort_key sort_key_compare), Hnil. }
    destruct (sort_positions (all_positions d)) as [|[[u n] depth] r] eqn:Hp; [done|].
    exists (u, n, depth). unfold output_row. rewrite Hp. done.
  - intros team_name uid n1 u1 s1 n2 u2 s2 files_info Hu Hn1 Hn2 Hp.
    unfold combine_team.
    rewrite (consolidate_permutation team_name files_info _
               ltac:(rewrite Hp; by apply NoDup_ListNoDup; repeat constructor;
                     simpl; intuition discriminate) Hp).
    rewrite consolidate_offense_special.
    destruct (process_two_rows team_name 1 3
                (mkRow uid n1 u1 s1 "WR" "2") (mkRow uid n2 u2 s2 "PR" "1"))
      as (d & -> & Hd); try done; try (by apply skipped_false).
    rewrite output_rows_singleton. eexists. split; [reflexivity|].
    unfold output_row. rewrite Hd. simpl. done.
Qed.

Lemma C4_primary_position_witness :
  ∃ row,
    combine_team "Team"
      [(SpecialTeams, [mkRow "u1" "Al Able" "/al-able" "" "PR" "1"]);
       (Offense, [mkRow "u1" "Al Able" "/al-able" "" "WR" "2"])]
    = [header; row]
    ∧ row !! 1%nat = Some "WR" ∧ row !! 2%nat = Some "2".
Proof.
  apply (proj2 (proj2 (proj2 (proj2 (proj2 (proj2 C4_primary_position)))))
           "Team" "u1" "Al Able" "/al-able" "" "Al Able" "/al-able" "");
    [done..|]. apply perm_swap.
Defined.



(** C6.  The rows of a team after the header stand in strictly increasing
    order of the player identifier; the rows do not depend on the order in
    which the dictionary holds the files of the team; and the master file
    does not depend on the order in which the directory lists the team
    files.  The files on disk are what the CSV writer makes of these rows,
    so two runs on the same input write the same bytes. *)
Theorem C6_deterministic_output :
  (∀ team_name files_info,
     StronglySorted (λ a b, String.compare a b = Lt)
       ((λ row : list string, default "" (row !! 5%nat))
          <$> tail (combine_team team_name files_info)))
  ∧ (∀ team_name files_info files_info',
       NoDup files_info.*1 → files_info ≡ₚ files_info' →
       combine_team team_name files_info = combine_team team_name files_info')
  ∧ (∀ output_filename directory directory',
       NoDup directory.*1 → directory ≡ₚ directory' →
       MasterCombine.create_master_depth_chart_csv output_filename directory
       = MasterCombine.create_master_depth_chart_csv output_filename directory').
Proof.
  split_and!.
  - intros team_name files_info. unfold combine_team.
    rewrite (output_rows_uids team_name) by apply consolidate_ok.
    apply sorted_uids_strict.
  - intros team_name files_info files_info' Hnd Hp. unfold combine_team.
    by rewrite (consolidate_permutation team_name files_info files_info').
  - apply create_master_permutation.
Qed.

Lemma C6_deterministic_output_witness :
  combine_team "Team"
    [(SpecialTeams, [mkRow "u1" "Al Able" "/al-able" "" "PR" "1"]);
     (Offense, [mkRow "u2" "Bo Baker" "/bo-baker" "" "QB" "1";
                mkRow "u1" "Al Able" "/al-able" "" "WR" "2"])]
  = combine_team "Team"
      [(Offense, [mkRow "u2" "Bo Baker" "/bo-baker" "" "QB" "1";
                  mkRow "u1" "Al Able" "/al-able" "" "WR" "2"]);
       (SpecialTeams, [mkRow "u1" "Al Able" "/al-able" "" "PR" "1"])].
Proof.
  apply (proj1 (proj2 C6_deterministic_output)).
  - apply NoDup_ListNoDup. repeat constructor; simpl; intuition discriminate.
  - apply perm_swap.
Defined.

End ConsolidatorClaims.

(** ** The parsers *)

Section Parsers.
Import Soup.

(** A loop whose body never raises returns the list of its results. *)
Lemma mapM_Return {X Y} (f : X → result Y) (g : X → Y) (l : list X) :
  (∀ x, x ∈ l → f x = Return (g x)) → mapM f l = Return (g <$> l).
Proof.
  induction l as [|x l IH]; intros Hf; simpl; [done|].
  rewrite (Hf x) by left. simpl.
  rewrite IH; [done|]. intros y Hy. apply Hf. by right.
Qed.

Lemma getitem_Some {X} (l : list X) i x : l !! i = Some x → getitem l i = Return x.
Proof. intros Hl. unfold getitem. by rewrite Hl. Qed.

(** The loop over [range(min(len(l), len(k)))] that reads [l[i]] and [k[i]]
    visits the pairs of [zip(l, k)]. *)
Lemma flat_map_range_zip {X Y W} (F : X → Y → list W) (l : list X) (k : list Y) :
  flat_map (λ i, match l !! i, k !! i with
                 | Some a, Some b => F a b
                 | _, _ => []
                 end)
           (seq 0 (min (List.length l) (List.length k)))
  = flat_map (λ ab, F ab.1 ab.2) (zip l k).
Proof.
  revert k. induction l as [|a l IH]; intros [|b k]; simpl; try done.
  f_equal. rewrite <- IH, <- seq_shift, flat_map_concat_map, map_map.
  by rewrite <- flat_map_concat_map.
Qed.







End Parsers.

(** ** The claims about the parsers *)

Section ParserClaims.
Import Soup.

(** C3.  The assembler never raises and pairs the position at each index
    with the player row at the same index: its rows are those of the two
    sequences zipped, as many as the shorter sequence has, and an index
    holds a row exactly when both sequences reach it.  The loop of
    scrapeMLB.py over the two tables visits the same pairs of rows. *)
Theorem C3_alignment_truncation :
  (∀ positions player_data_rows,
     ProcessDefenses.assemble positions player_data_rows
     = Return (zip_with ProcessDefenses.mkDepthRow positions player_data_rows)
     ∧ List.length (zip_with ProcessDefenses.mkDepthRow positions player_data_rows)
       = min (List.length positions) (List.length player_data_rows)
     ∧ ∀ i, zip_with ProcessDefenses.mkDepthRow positions player_data_rows !! i
            = match positions !! i, player_data_rows !! i with
              | Some position_name, Some depth_players =>
                  Some (ProcessDefenses.mkDepthRow position_name depth_players)
              | _, _ => None
              end)
  ∧ (∀ re_sub team_name team_abbrev section_title depth_levels
       position_rows player_rows,
       ScrapeMLB.parse_rows re_sub team_name team_abbrev section_title depth_levels
         position_rows player_rows
       = flat_map (λ rows, ScrapeMLB.parse_row_pair re_sub team_name team_abbrev
                             section_title depth_levels rows.1 rows.2)
                  (zip position_rows player_rows)).
Proof.
  split.
  - intros positions player_data_rows. split_and!.
    + unfold ProcessDefenses.assemble.
      rewrite (mapM_Return _
                 (λ i, ProcessDefenses.mkDepthRow (default "" (positions !! i))
                         (default [] (player_data_rows !! i)))).
      * f_equal. apply list_eq. intros i.
        rewrite list_lookup_fmap, lookup_zip_with.
        destruct (decide (i < min (List.length positions) (List.length player_data_rows))%nat)
          as [Hi|Hi].
        -- rewrite lookup_seq_lt by done. simpl.
           destruct (lookup_lt_is_Some_2 positions i) as [p ->]; [lia|].
           destruct (lookup_lt_is_Some_2 player_data_rows i) as [r ->]; [lia|].
           done.
        -- rewrite lookup_seq_ge by lia. simpl.
           destruct (positions !! i) eqn:Hp; simpl; [|done].
           destruct (player_data_rows !! i) eqn:Hr; simpl; [|done].
           apply lookup_lt_Some in Hp, Hr. lia.
      * intros i [_ Hi]%elem_of_seq.
        destruct (lookup_lt_is_Some_2 positions i) as [p Hp]; [lia|].
        destruct (lookup_lt_is_Some_2 player_data_rows i) as [r Hr]; [lia|].
        rewrite (getitem_Some _ _ _ Hp). simpl.
        rewrite (getitem_Some _ _ _ Hr). simpl.
        by rewrite Hp, Hr.
    + apply length_zip_with.
    + intros i. rewrite lookup_zip_with.
      destruct (positions !! i); simpl; [|done].
      by destruct (player_data_rows !! i).
  - intros. unfold ScrapeMLB.parse_rows. apply flat_map_range_zip.
Qed.

(** Three position labels against two player rows give two rows. *)
Example three_positions_two_rows (r1 r2 : list (option ProcessDefenses.Player)) :
  ProcessDefenses.assemble ["QB"; "RB"; "WR"] [r1; r2]
  = Return [ProcessDefenses.mkDepthRow "QB" r1; ProcessDefenses.mkDepthRow "RB" r2].
Proof. reflexivity. Qed.

(** C7 (the code departs from the claim).  [parse_depth_chart_html] raises
    on a fixed-left table without [tbody], on a scrollable table without
    [tbody], on a player link without [href] and on a position label
    without text; [parse_nba_roster_data] raises on a table without
    [thead]. *)
Theorem C7_parsers_raise_on_missing_elements :
  ProcessDefenses.parse_depth_chart_html
    (Tag "[document]" []
       [Tag "table" [("class", "Table Table--fixed-left")] []])
  = Raise AttributeError
  ∧ ProcessDefenses.parse_depth_chart_html
      (Tag "[document]" []
         [Tag "table" [("class", "Table Table--fixed-left")]
            [Tag "tbody" []
               [Tag "tr" [("class", "Table__TR")]
                  [Tag "span" [("data-testid", "statCell")] [NavigableString "QB"]]]];
          Tag "div" [("class", "Table__Scroller")] [Tag "table" [] []]])
    = Raise AttributeError
  ∧ ProcessDefenses.parse_depth_chart_html
      (Tag "[document]" []
         [Tag "table" [("class", "Table Table--fixed-left")]
            [Tag "tbody" []
               [Tag "tr" [("class", "Table__TR")]
                  [Tag "span" [("data-testid", "statCell")] [NavigableString "QB"]]]];
          Tag "div" [("class", "Table__Scroller")]
            [Tag "table" []
               [Tag "tbody" []
                  [Tag "tr" [("class", "Table__TR")]
                     [Tag "td" [("class", "Table__TD")]
                        [Tag "a" [("class", "AnchorLink")]
                           [NavigableString "Al Able"]]]]]]])
    = Raise KeyError
  ∧ ProcessDefenses.parse_depth_chart_html
      (Tag "[document]" []
         [Tag "table" [("class", "Table Table--fixed-left")]
            [Tag "tbody" []
               [Tag "tr" [("class", "Table__TR")]
                  [Tag "span" [("data-testid", "statCell")] []]]]])
    = Raise IndexError
  ∧ ScrapeNBA.parse_nba_roster_data
      [Tag "[document]" [] [Tag "table" [] [Tag "tbody" [] []]]] "Team" "tm"
    = Raise IndexError.
Proof. vm_compute. done. Qed.

(** The other parsers meet a table without [tbody] with an empty result. *)
Lemma sibling_parsers_guard_tbody re_sub :
  ScrapeMLB.parse_mlb_depth_chart_data re_sub
    (Some (Tag "[document]" [] [Tag "table" [] []; Tag "table" [] []])) "Team" "tm"
  = []
  ∧ ScrapeNBA.parse_nba_roster_data
      [Tag "[document]" [] [Tag "table" [] [Tag "thead" [] []]]] "Team" "tm"
    = Return []
  ∧ ScrapeNHL.parse_nhl_roster_data
      [Tag "[document]" [] [Tag "table" [] []]] "Team" "tm"
    = Return [].
Proof. by vm_compute. Qed.




(** C10.  When the markup has no fixed-left table, or has one whose rows
    yield no position label, [parse_depth_chart_html] returns [None], and
    the conversion of [None] writes no rows: the unit has no record. *)
Theorem C10_no_positions_no_record soup team_name :
  find "table" (has_class "Table--fixed-left") soup = None
  ∨ ProcessDefenses.extract_positions soup = Return [] →
  ProcessDefenses.parse_depth_chart_html soup = Return None
  ∧ (parsed_data ← ProcessDefenses.parse_depth_chart_html soup;
     mret (ProcessDefenses.convert_to_csv parsed_data team_name))
    = Return None.
Proof.
  intros H.
  assert (ProcessDefenses.extract_positions soup = Return []) as Hp.
  { destruct H as [H|H]; [|done].
    unfold ProcessDefenses.extract_positions. by rewrite H. }
  assert (ProcessDefenses.parse_depth_chart_html soup = Return None) as ->.
  { unfold ProcessDefenses.parse_depth_chart_html. by rewrite Hp. }
  done.
Qed.

Lemma C10_no_positions_no_record_witness :
  ProcessDefenses.parse_depth_chart_html
    (Tag "[document]" []
       [Tag "table" [("class", "Table Table--fixed-left")]
          [Tag "tbody" [] [Tag "tr" [("class", "Table__TR")] [Tag "td" [] []]]];
        Tag "div" [("class", "Table__Scroller")]
          [Tag "table" [] [Tag "tbody" [] []]]])
  = Return None.
Proof.
  apply (C10_no_positions_no_record _ "Team"). right. vm_compute. reflexivity.
Defined.

End ParserClaims.

(** * Further properties *)

(** ** Strings *)

Section Strings.

Lemma string_app_cons c a b : String c a +:+ b = String c (a +:+ b).
Proof. reflexivity. Qed.

Lemma string_app_nil_l b : "" +:+ b = b.
Proof. reflexivity. Qed.

Lemma string_app_nil_r a : a +:+ "" = a.
Proof. induction a as [|c a IH]; [done|]. rewrite string_app_cons. by rewrite IH. Qed.

Lemma string_length_app a b :
  String.length (a +:+ b) = (String.length a + String.length b)%nat.
Proof.
  induction a as [|c a IH]; [done|].
  rewrite string_app_cons. simpl. by rewrite IH.
Qed.

Lemma string_app_assoc a b c : (a +:+ b) +:+ c = a +:+ (b +:+ c).
Proof.
  induction a as [|x a IH]; [done|]. rewrite !string_app_cons. by rewrite IH.
Qed.

Lemma substring_app_skip a b n m :
  String.substring (String.length a + n) m (a +:+ b) = String.substring n m b.
Proof.
  induction a as [|c a IH]; [done|]. rewrite string_app_cons. exact IH.
Qed.

(** Whether a name ends with a suffix is decided by any tail of the name
    that is as long as the suffix. *)
Lemma endswith_app a b suffix :
  (String.length suffix ≤ String.length b)%nat →
  Py.endswith (a +:+ b) suffix = Py.endswith b suffix.
Proof.
  intros Hle. unfold Py.endswith. rewrite string_length_app.
  replace (String.length a + String.length b - String.length suffix)%nat
    with (String.length a + (String.length b - String.length suffix))%nat by lia.
  rewrite substring_app_skip.
  destruct (Nat.leb_spec (String.length suffix) (String.length b)); [|lia].
  destruct (Nat.leb_spec (String.length suffix) (String.length a + String.length b));
    [done|lia].
Qed.

Lemma prefix_app_drop p s :
  String.prefix p s = true → s = p +:+ PyMore.drop (String.length p) s.
Proof.
  revert s. induction p as [|c p IH]; intros [|c' s]; simpl; try done.
  destruct (ascii_dec c c') as [->|]; [|done].
  intros Hp. rewrite string_app_cons. by rewrite <- (IH s Hp).
Qed.

Lemma prefix_cons_neq c0 old c s :
  c ≠ c0 → String.prefix (String c0 old) (String c s) = false.
Proof. intros Hc. simpl. destruct (ascii_dec c0 c); [by subst|done]. Qed.

(** A string without the character [c0]. *)
Lemma contains_char_cons c0 c a :
  Py.contains (String c0 "") (String c a) = false →
  c ≠ c0 ∧ Py.contains (String c0 "") a = false.
Proof.
  simpl. destruct (ascii_dec c0 c) as [->|Hne].
  - by destruct a.
  - simpl. intros Ha. split; [congruence|]. by destruct a.
Qed.

(** No occurrence of a pattern starts in a text that lacks the first
    character of the pattern: a replacement copies such a text. *)
Lemma replace_app_free c0 old new a b :
  Py.contains (String c0 "") a = false →
  PyMore.replace (String c0 old) new (a +:+ b)
  = a +:+ PyMore.replace (String c0 old) new b.
Proof.
  unfold PyMore.replace. induction a as [|c a IH]; intros Ha; [done|].
  apply contains_char_cons in Ha as [Hc Ha].
  rewrite !string_app_cons. cbn [PyMore.replace_from].
  rewrite prefix_cons_neq by done. by rewrite IH.
Qed.

Lemma find_sep_app_free c0 sep a b :
  Py.contains (String c0 "") a = false →
  PyMore.find_sep (String c0 sep) (a +:+ b)
  = (λ parts, (a +:+ parts.1, parts.2)) <$> PyMore.find_sep (String c0 sep) b.
Proof.
  induction a as [|c a IH]; intros Ha.
  - rewrite string_app_nil_l. by destruct (PyMore.find_sep _ b) as [[x y]|].
  - apply contains_char_cons in Ha as [Hc Ha].
    rewrite string_app_cons. cbn [PyMore.find_sep].
    rewrite prefix_cons_neq by done. rewrite IH by done.
    by destruct (PyMore.find_sep _ b) as [[x y]|].
Qed.

Lemma find_sep_sound sep s part rest :
  PyMore.find_sep sep s = Some (part, rest) → s = part +:+ sep +:+ rest.
Proof.
  revert part. induction s as [|c s IH]; intros part.
  - destruct sep; simpl; [|done]. by intros [= <- <-].
  - cbn [PyMore.find_sep]. destruct (String.prefix sep (String c s)) eqn:Hp.
    + intros [= <- <-]. by apply prefix_app_drop.
    + destruct (PyMore.find_sep sep s) as [[x y]|] eqn:Hf; [|done].
      simpl. intros [= <- <-]. rewrite string_app_cons. f_equal. by apply IH.
Qed.

Lemma split_fuel_singleton fuel sep s x :
  PyMore.split_fuel fuel sep s = [x] → x = s.
Proof.
  destruct fuel as [|fuel]; simpl; [by intros [= <-]|].
  destruct (PyMore.find_sep sep s) as [[part rest]|]; [|by intros [= <-]].
  by destruct fuel; simpl; [|destruct (PyMore.find_sep sep rest) as [[? ?]|]].
Qed.

(** A name that splits in two is the two parts around the separator. *)
Lemma split_two_sound sep s part rest :
  PyMore.split sep s = [part; rest] → s = part +:+ sep +:+ rest.
Proof.
  unfold PyMore.split. destruct (String.length s) as [|fuel]; simpl; [done|].
  destruct (PyMore.find_sep sep s) as [[p r]|] eqn:Hf; [|done].
  intros [= <- Hr]. apply split_fuel_singleton in Hr as ->.
  by apply find_sep_sound.
Qed.

(** A text that lacks the first character of the separator goes to the
    first part. *)
Lemma split_two_app_free c0 sep a b part rest :
  Py.contains (String c0 "") a = false →
  PyMore.find_sep (String c0 sep) b = Some (part, rest) →
  PyMore.find_sep (String c0 sep) rest = None →
  PyMore.split (String c0 sep) (a +:+ b) = [a +:+ part; rest].
Proof.
  intros Ha Hb Hr. unfold PyMore.split. rewrite string_length_app.
  destruct b as [|c b]; [done|].
  replace (String.length a + String.length (String c b))%nat
    with (S (String.length a + String.length b)) by (simpl; lia).
  cbn [PyMore.split_fuel]. rewrite find_sep_app_free, Hb by done. simpl.
  f_equal. destruct (String.length a + String.length b)%nat; simpl; [done|].
  by rewrite Hr.
Qed.

End Strings.

(** ** The names of the files from script to script *)

Section FileNames.
Import StartCombining.

Lemma output_file_eq slug :
  Scraper.output_file slug 0 = slug +:+ "_depth_chart_table_1.html"
  ∧ Scraper.output_file slug 1 = slug +:+ "_depth_chart_table_2.html"
  ∧ Scraper.output_file slug 2 = slug +:+ "_depth_chart_table_3.html"
  ∧ Scraper.output_file slug 3 = slug +:+ "_depth_chart_table_4.html".
Proof. done. Qed.

(** The first three tables of a team page, saved by scraper.py, are renamed
    to the offense, defense and special-teams files of the team; a fourth
    table keeps its name.  The slug of the team is free of underscores. *)
Theorem rename_saved_tables slug :
  Py.contains "_" slug = false →
  RenameFiles.new_filename (Scraper.output_file slug 0)
  = Some (slug +:+ "_depth_chart_offense.html")
  ∧ RenameFiles.new_filename (Scraper.output_file slug 1)
    = Some (slug +:+ "_depth_chart_defense.html")
  ∧ RenameFiles.new_filename (Scraper.output_file slug 2)
    = Some (slug +:+ "_depth_chart_special_teams.html")
  ∧ RenameFiles.new_filename (Scraper.output_file slug 3) = None.
Proof.
  intros Hs. destruct (output_file_eq slug) as (-> & -> & -> & ->).
  unfold RenameFiles.new_filename, RenameFiles.rename_patterns,
    RenameFiles.new_filename_from.
  rewrite !endswith_app by (simpl; lia).
  rewrite !replace_app_free by done.
  done.
Qed.

Lemma rename_saved_tables_witness :
  RenameFiles.new_filename (Scraper.output_file "miami-dolphins" 1)
  = Some ("miami-dolphins" +:+ "_depth_chart_defense.html").
Proof. apply (rename_saved_tables "miami-dolphins"). reflexivity. Defined.

(** The defense file of a team is taken up by process_defenses.py, which
    reads the slug of the team off its name and writes the rows to a file
    that start_combining.py files under that slug as the defense of the
    team.  The slug is free of underscores and of full stops. *)
Theorem defense_file_chain slug :
  Py.contains "_" slug = false → Py.contains "." slug = false →
  let filename := slug +:+ "_depth_chart_defense.html" in
  ProcessDefensesMain.is_defense_file filename = true
  ∧ ProcessDefensesMain.team_slug filename = slug
  ∧ ProcessDefensesMain.output_csv_filename filename
    = slug +:+ "_depth_chart_defense.csv"
  ∧ StartCombiningFiles.classify (ProcessDefensesMain.output_csv_filename filename)
    = Some (slug, Defense).
Proof.
  intros Hu Hd filename. unfold filename.
  assert (ProcessDefensesMain.output_csv_filename (slug +:+ "_depth_chart_defense.html")
          = slug +:+ "_depth_chart_defense.csv") as Hcsv.
  { unfold ProcessDefensesMain.output_csv_filename.
    by rewrite replace_app_free. }
  split_and!.
  - unfold ProcessDefensesMain.is_defense_file.
    by rewrite endswith_app by (simpl; lia).
  - unfold ProcessDefensesMain.team_slug. rewrite replace_app_free by done.
    change (PyMore.replace _ _ _) with "". apply string_app_nil_r.
  - done.
  - rewrite Hcsv. unfold StartCombiningFiles.classify.
    rewrite endswith_app by (simpl; lia).
    rewrite (split_two_app_free "_" "depth_chart_" slug
               "_depth_chart_defense.csv" "" "defense.csv") by done.
    by rewrite string_app_nil_r.
Qed.

Lemma defense_file_chain_witness :
  StartCombiningFiles.classify
    (ProcessDefensesMain.output_csv_filename
       ("miami-dolphins" +:+ "_depth_chart_defense.html"))
  = Some ("miami-dolphins", Defense).
Proof. apply (defense_file_chain "miami-dolphins"); reflexivity. Defined.

(** A file that start_combining.py files under a team and a unit is a CSV
    file named by the slug of the team, the separator and the name of the
    unit; and the three files of a team whose slug is free of underscores
    are filed under that team, each as its unit. *)
Theorem classify_team_files :
  (∀ filename team_slug unit,
     StartCombiningFiles.classify filename = Some (team_slug, unit) →
     Py.endswith filename ".csv" = true
     ∧ ∃ rest, filename
               = team_slug +:+ "_depth_chart_"
                 +:+ PyMore.drop 1 (suffix_key unit) +:+ rest)
  ∧ (∀ slug,
       Py.contains "_" slug = false →
       StartCombiningFiles.classify (slug +:+ "_depth_chart_offense.csv")
       = Some (slug, Offense)
       ∧ StartCombiningFiles.classify (slug +:+ "_depth_chart_defense.csv")
         = Some (slug, Defense)
       ∧ StartCombiningFiles.classify (slug +:+ "_depth_chart_special_teams.csv")
         = Some (slug, SpecialTeams)).
Proof.
  split.
  - intros filename team_slug unit. unfold StartCombiningFiles.classify.
    destruct (Py.endswith filename ".csv"); [|done].
    destruct (PyMore.split "_depth_chart_" filename) as [|p [|r [|? ?]]] eqn:Hs;
      try done.
    apply split_two_sound in Hs.
    unfold StartCombiningFiles.find_type.
    destruct (String.prefix (suffix_key Offense) ("_" +:+ r)) eqn:H1;
      [|destruct (String.prefix (suffix_key Defense) ("_" +:+ r)) eqn:H2;
        [|destruct (String.prefix (suffix_key SpecialTeams) ("_" +:+ r)) eqn:H3;
          [|done]]];
      simpl; intros [= <- <-]; (split; [done|]);
      [apply prefix_app_drop in H1 as Hr
      |apply prefix_app_drop in H2 as Hr
      |apply prefix_app_drop in H3 as Hr];
      injection Hr as Hr; eexists; rewrite Hs; do 2 f_equal; exact Hr.
  - intros slug Hs. unfold StartCombiningFiles.classify.
    rewrite !endswith_app by (simpl; lia).
    rewrite (split_two_app_free "_" "depth_chart_" slug
               "_depth_chart_offense.csv" "" "offense.csv") by done.
    rewrite (split_two_app_free "_" "depth_chart_" slug
               "_depth_chart_defense.csv" "" "defense.csv") by done.
    rewrite (split_two_app_free "_" "depth_chart_" slug
               "_depth_chart_special_teams.csv" "" "special_teams.csv") by done.
    by rewrite string_app_nil_r.
Qed.

Lemma classify_team_files_witness :
  StartCombiningFiles.classify ("miami-dolphins" +:+ "_depth_chart_offense.csv")
  = Some ("miami-dolphins", Offense).
Proof.
  apply (proj2 classify_team_files "miami-dolphins"). reflexivity.
Defined.

End FileNames.

(** ** More about the consolidator *)

Section ConsolidatorFacts.
Import StartCombining.

Lemma elem_of_add_position prio d row t :
  t ∈ all_positions (add_position prio d row)
  ↔ t ∈ all_positions d
    ∨ (row_Position row ≠ "" ∧ row_Depth row ≠ ""
       ∧ t = (prio, row_Position row, row_Depth row)).
Proof.
  unfold add_position.
  destruct (Py.truthy (row_Position row)) eqn:Hp;
    destruct (Py.truthy (row_Depth row)) eqn:Hd; simpl;
    try (split; [by left|intros [H|(Hp'%truthy_true & Hd'%truthy_true & _)];
                  [done|congruence]]).
  apply truthy_true in Hp, Hd.
  case_bool_decide as Hin; simpl.
  - split; [by left|]. intros [H|(_ & _ & ->)]; done.
  - rewrite elem_of_app, list_elem_of_singleton. split.
    + intros [H| ->]; [by left|by right].
    + intros [H|(_ & _ & ->)]; [by left|by right].
Qed.

(** A position is on record for a player after a row exactly when it was
    before, or the row is a sighting of the player with that position. *)
Lemma process_row_positions team_name prio (cp : gmap string PlayerData) row uid t :
  (∃ d, process_row team_name prio cp row !! uid = Some d ∧ t ∈ all_positions d)
  ↔ (∃ d, cp !! uid = Some d ∧ t ∈ all_positions d)
    ∨ (skipped row = false ∧ row_PlayerUID row = uid
       ∧ row_Position row ≠ "" ∧ row_Depth row ≠ ""
       ∧ t = (prio, row_Position row, row_Depth row)).
Proof.
  destruct (skipped row) eqn:Hs.
  - rewrite process_row_skipped by done. split; [by left|].
    intros [H|(? & _)]; done.
  - rewrite process_row_unskipped by done.
    destruct (decide (row_PlayerUID row = uid)) as [<-|Hne].
    + rewrite lookup_insert_eq. split.
      * intros (d & [= <-] & Ht).
        apply elem_of_add_position in Ht as [Ht|Ht]; [|by right].
        rewrite all_positions_update_info in Ht.
        destruct (cp !! row_PlayerUID row) as [d0|]; simpl in Ht.
        -- left. eauto.
        -- by apply elem_of_nil in Ht.
      * intros H. eexists. split; [done|]. apply elem_of_add_position.
        rewrite all_positions_update_info.
        destruct H as [(d & Hd & Ht)|(_ & _ & H)]; [|by right].
        left. by rewrite Hd.
    + rewrite lookup_insert_ne by done. split; [by left|].
      intros [H|(_ & ? & _)]; done.
Qed.

Lemma process_row_is_Some team_name prio (cp : gmap string PlayerData) row uid :
  is_Some (process_row team_name prio cp row !! uid)
  ↔ is_Some (cp !! uid) ∨ (skipped row = false ∧ row_PlayerUID row = uid).
Proof.
  destruct (skipped row) eqn:Hs.
  - rewrite process_row_skipped by done. split; [by left|]. by intros [H|[? _]].
  - rewrite process_row_unskipped by done. rewrite lookup_insert_is_Some. split.
    + intros [H|[_ H]]; [by right|by left].
    + intros [H|[_ H]]; [|by left].
      destruct (decide (row_PlayerUID row = uid)); [by left|by right].
Qed.

Lemma process_file_positions team_name (cp : gmap string PlayerData) file uid t :
  (∃ d, process_file team_name cp file !! uid = Some d ∧ t ∈ all_positions d)
  ↔ (∃ d, cp !! uid = Some d ∧ t ∈ all_positions d)
    ∨ ∃ row, row ∈ file.2 ∧ skipped row = false ∧ row_PlayerUID row = uid
             ∧ row_Position row ≠ "" ∧ row_Depth row ≠ ""
             ∧ t = (unit_priority_map file.1, row_Position row, row_Depth row).
Proof.
  unfold process_file. generalize (unit_priority_map file.1) as prio. intros prio.
  revert cp. induction (file.2) as [|row rows IH]; intros cp; simpl.
  - split; [by left|]. intros [H|(row & Hr%elem_of_nil & _)]; done.
  - rewrite IH, process_row_positions. split.
    + intros [[H|H]|(r & Hr & H)]; [by left| |].
      * right. exists row. split; [left|done].
      * right. exists r. split; [by right|done].
    + intros [H|(r & Hr & H)]; [by left; left|].
      apply elem_of_cons in Hr as [->|Hr]; [by left; right|].
      right. eauto.
Qed.

Lemma process_file_is_Some team_name (cp : gmap string PlayerData) file uid :
  is_Some (process_file team_name cp file !! uid)
  ↔ is_Some (cp !! uid)
    ∨ ∃ row, row ∈ file.2 ∧ skipped row = false ∧ row_PlayerUID row = uid.
Proof.
  unfold process_file. generalize (unit_priority_map file.1) as prio. intros prio.
  revert cp. induction (file.2) as [|row rows IH]; intros cp; simpl.
  - split; [by left|]. intros [H|(row & Hr%elem_of_nil & _)]; done.
  - rewrite IH, process_row_is_Some. split.
    + intros [[H|H]|(r & Hr & H)]; [by left| |].
      * right. exists row. split; [left|done].
      * right. exists r. split; [by right|done].
    + intros [H|(r & Hr & H)]; [by left; left|].
      apply elem_of_cons in Hr as [->|Hr]; [by left; right|].
      right. eauto.
Qed.

(** The players of a team are the identifiers of the rows that are not
    skipped, and the combined file has one row for each of them after the
    header. *)
Theorem one_row_per_sighted_player team_name files_info :
  (∀ uid,
     is_Some (consolidate team_name files_info !! uid)
     ↔ ∃ file row, file ∈ files_info ∧ row ∈ file.2
                   ∧ skipped row = false ∧ row_PlayerUID row = uid)
  ∧ List.length (combine_team team_name files_info)
    = S (size (consolidate team_name files_info)).
Proof.
  split.
  - intros uid. unfold consolidate.
    assert (∀ fs (cp : gmap string PlayerData),
              is_Some (foldl (process_file team_name) cp fs !! uid)
              ↔ is_Some (cp !! uid)
                ∨ ∃ file row, file ∈ fs ∧ row ∈ file.2
                              ∧ skipped row = false ∧ row_PlayerUID row = uid) as Hfold.
    { induction fs as [|f fs IH]; intros cp; simpl.
      - split; [by left|]. intros [H|(f & r & Hf%elem_of_nil & _)]; done.
      - rewrite IH, process_file_is_Some. split.
        + intros [[H|(r & Hr & H)]|(f' & r & Hf & H)]; [by left| |].
          * right. exists f, r. split; [left|done].
          * right. exists f', r. split; [by right|done].
        + intros [H|(f' & r & Hf & H)]; [by left; left|].
          apply elem_of_cons in Hf as [->|Hf]; [left; right; eauto|].
          right. eauto. }
    rewrite Hfold, lookup_empty. unfold sorted_file_types. split.
    + intros [[? H]|(f & r & Hf & H)]; [done|].
      rewrite sorted_perm in Hf. eauto.
    + intros (f & r & Hf & H). right. exists f, r.
      by rewrite sorted_perm.
  - unfold combine_team, output_rows. simpl. f_equal.
    set (cp := consolidate team_name files_info).
    assert (∀ l : list string,
              (∀ k, k ∈ l → is_Some (cp !! k)) →
              List.length (omap (λ player_uid, output_row <$> cp !! player_uid) l)
              = List.length l) as Hlen.
    { induction l as [|k l IH]; intros Hl; simpl; [done|].
      destruct (Hl k) as [d Hd]; [left|]. rewrite Hd. simpl. f_equal.
      apply IH. intros k' Hk'. apply Hl. by right. }
    rewrite Hlen by (intros k; apply elem_of_sorted_uids).
    unfold sorted_uids. rewrite sorted_perm, length_fmap.
    apply length_map_to_list.
Qed.

Lemma one_row_per_sighted_player_witness :
  is_Some (consolidate "Team"
             [(Offense, [mkRow "" "Nobody" "" "Empty Slot" "QB" "2";
                         mkRow "u1" "Al Able" "/al-able" "" "WR" "1"])] !! "u1").
Proof.
  apply (proj1 (one_row_per_sighted_player "Team" _) "u1").
  exists (Offense, [mkRow "" "Nobody" "" "Empty Slot" "QB" "2";
                    mkRow "u1" "Al Able" "/al-able" "" "WR" "1"]),
         (mkRow "u1" "Al Able" "/al-able" "" "WR" "1").
  split_and!; [left|right; left|done|done].
Defined.

(** The positions on record for a player are those of the sightings of the
    player: each comes from a row of one of the files that is not skipped,
    bears the identifier of the player and has a position and a depth, and
    every such row leaves its position, with the rank of its unit. *)
Theorem positions_are_the_sightings team_name files_info uid t :
  (∃ d, consolidate team_name files_info !! uid = Some d ∧ t ∈ all_positions d)
  ↔ ∃ file row,
      file ∈ files_info ∧ row ∈ file.2 ∧ skipped row = false
      ∧ row_PlayerUID row = uid ∧ row_Position row ≠ "" ∧ row_Depth row ≠ ""
      ∧ t = (unit_priority_map file.1, row_Position row, row_Depth row).
Proof.
  unfold consolidate.
  assert (∀ fs (cp : gmap string PlayerData),
            (∃ d, foldl (process_file team_name) cp fs !! uid = Some d
                  ∧ t ∈ all_positions d)
            ↔ (∃ d, cp !! uid = Some d ∧ t ∈ all_positions d)
              ∨ ∃ file row,
                  file ∈ fs ∧ row ∈ file.2 ∧ skipped row = false
                  ∧ row_PlayerUID row = uid ∧ row_Position row ≠ ""
                  ∧ row_Depth row ≠ ""
                  ∧ t = (unit_priority_map file.1, row_Position row, row_Depth row))
    as Hfold.
  { induction fs as [|f fs IH]; intros cp; simpl.
    - split; [by left|]. intros [H|(f & r & Hf%elem_of_nil & _)]; done.
    - rewrite IH, process_file_positions. split.
      + intros [[H|(r & Hr & H)]|(f' & r & Hf & H)]; [by left| |].
        * right. exists f, r. split; [left|done].
        * right. exists f', r. split; [by right|done].
      + intros [H|(f' & r & Hf & H)]; [by left; left|].
        apply elem_of_cons in Hf as [->|Hf]; [left; right; eauto|].
        right. eauto. }
  rewrite Hfold. unfold sorted_file_types. split.
  - intros [(d & Hd & _)|(f & r & Hf & H)]; [by rewrite lookup_empty in Hd|].
    rewrite sorted_perm in Hf. eauto.
  - intros (f & r & Hf & H). right. exists f, r. by rewrite sorted_perm.
Qed.

Lemma positions_are_the_sightings_witness :
  ∃ d, consolidate "Team"
         [(SpecialTeams, [mkRow "u1" "Al Able" "/al-able" "" "PR" "1"]);
          (Offense, [mkRow "u1" "Al Able" "/al-able" "" "WR" "2"])] !! "u1"
       = Some d
       ∧ (3, "PR", "1") ∈ all_positions d.
Proof.
  apply (positions_are_the_sightings "Team" _ "u1" (3, "PR", "1")).
  exists (SpecialTeams, [mkRow "u1" "Al Able" "/al-able" "" "PR" "1"]),
         (mkRow "u1" "Al Able" "/al-able" "" "PR" "1").
  split_and!; [left|left|done..].
Defined.

Lemma update_info_first team_name row :
  row_PlayerName row ≠ "" → row_PlayerName row ≠ "Empty Slot" →
  let d := update_info (default_player team_name) row in
  PlayerName d = row_PlayerName row ∧ PlayerURL d = row_PlayerURL row
  ∧ PlayerUID d = row_PlayerUID row
  ∧ InjuryStatus d
    = (if String.eqb (row_InjuryStatus row) "Empty Slot" then ""
       else row_InjuryStatus row)
  ∧ InjuryStatus d ≠ "Empty Slot".
Proof.
  intros Hn He. unfold update_info. simpl.
  destruct (String.eqb (row_InjuryStatus row) "Empty Slot") eqn:Hs; simpl;
    split_and!; try done.
  by apply String.eqb_neq.
Qed.

Lemma process_row_keeps_info team_name prio (cp : gmap string PlayerData) row uid d :
  cp !! uid = Some d →
  PlayerName d ≠ "" → PlayerName d ≠ "Empty Slot" → InjuryStatus d ≠ "Empty Slot" →
  ∃ d', process_row team_name prio cp row !! uid = Some d'
        ∧ PlayerName d' = PlayerName d ∧ PlayerURL d' = PlayerURL d
        ∧ PlayerUID d' = PlayerUID d ∧ InjuryStatus d' = InjuryStatus d.
Proof.
  intros Hd Hn He Hs. destruct (skipped row) eqn:Hsk.
  - rewrite process_row_skipped by done. by exists d.
  - rewrite process_row_unskipped by done.
    destruct (decide (row_PlayerUID row = uid)) as [Hu|Hu].
    + rewrite Hu, Hd, lookup_insert_eq. simpl. eexists. split; [done|].
      rewrite update_info_named by done.
      destruct (add_position_fields prio d row) as (_ & -> & -> & -> & ->). done.
    + rewrite lookup_insert_ne by done. by exists d.
Qed.

(** The first sighting of a player fixes name, address, identifier and
    status: when a row that is not skipped names a player who is not yet
    on record, these four fields are those of the row (an empty-slot
    marker in the status becomes the empty status) after any rows and any
    files that follow. *)
Theorem first_sighting_fixes_the_fields team_name prio cp row rows files :
  skipped row = false → cp !! row_PlayerUID row = None →
  row_PlayerName row ≠ "" → row_PlayerName row ≠ "Empty Slot" →
  ∃ d, foldl (process_file team_name)
         (foldl (process_row team_name prio) (process_row team_name prio cp row) rows)
         files !! row_PlayerUID row = Some d
       ∧ PlayerName d = row_PlayerName row ∧ PlayerURL d = row_PlayerURL row
       ∧ PlayerUID d = row_PlayerUID row
       ∧ InjuryStatus d
         = (if String.eqb (row_InjuryStatus row) "Empty Slot" then ""
            else row_InjuryStatus row).
Proof.
  intros Hsk Hnone Hn He.
  destruct (update_info_first team_name row Hn He) as (H1 & H2 & H3 & H4 & H5).
  assert (∃ d, process_row team_name prio cp row !! row_PlayerUID row = Some d
               ∧ PlayerName d = row_PlayerName row ∧ PlayerURL d = row_PlayerURL row
               ∧ PlayerUID d = row_PlayerUID row
               ∧ InjuryStatus d
                 = (if String.eqb (row_InjuryStatus row) "Empty Slot" then ""
                    else row_InjuryStatus row)) as Hstart.
  { rewrite process_row_unskipped by done. rewrite Hnone, lookup_insert_eq. simpl.
    eexists. split; [done|].
    destruct (add_position_fields prio (update_info (default_player team_name) row) row)
      as (_ & -> & -> & -> & ->). done. }
  assert (∀ rs p (cp0 : gmap string PlayerData),
            (∃ d, cp0 !! row_PlayerUID row = Some d
                  ∧ PlayerName d = row_PlayerName row ∧ PlayerURL d = row_PlayerURL row
                  ∧ PlayerUID d = row_PlayerUID row
                  ∧ InjuryStatus d
                    = (if String.eqb (row_InjuryStatus row) "Empty Slot" then ""
                       else row_InjuryStatus row)) →
            ∃ d, foldl (process_row team_name p) cp0 rs !! row_PlayerUID row = Some d
                 ∧ PlayerName d = row_PlayerName row ∧ PlayerURL d = row_PlayerURL row
                 ∧ PlayerUID d = row_PlayerUID row
                 ∧ InjuryStatus d
                   = (if String.eqb (row_InjuryStatus row) "Empty Slot" then ""
                      else row_InjuryStatus row)) as Hrows.
  { induction rs as [|r rs IH]; intros p cp0 Hcp0; simpl; [done|].
    apply IH. destruct Hcp0 as (d & Hd & E1 & E2 & E3 & E4).
    destruct (process_row_keeps_info team_name p cp0 r _ d Hd)
      as (d' & Hd' & F1 & F2 & F3 & F4); try congruence.
    exists d'. split; [done|]. split_and!; congruence. }
  apply (Hrows rows prio) in Hstart. revert Hstart.
  generalize (foldl (process_row team_name prio) (process_row team_name prio cp row) rows).
  induction files as [|f fs IH]; intros cp0 Hcp0; simpl; [done|].
  apply IH. unfold process_file. by apply Hrows.
Qed.

Lemma first_sighting_fixes_the_fields_witness :
  ∃ d, foldl (process_file "Team")
         (foldl (process_row "Team" 1)
            (process_row "Team" 1 ∅ (mkRow "u1" "Al Able" "/al-able" "" "WR" "1"))
            [mkRow "u1" "A. Able" "/a-able" "O" "RB" "2"])
         [(SpecialTeams, [mkRow "u1" "Able" "/able" "Q" "PR" "1"])] !! "u1" = Some d
       ∧ PlayerName d = "Al Able" ∧ PlayerURL d = "/al-able"
       ∧ PlayerUID d = "u1" ∧ InjuryStatus d = "".
Proof.
  apply (first_sighting_fixes_the_fields "Team" 1 ∅
           (mkRow "u1" "Al Able" "/al-able" "" "WR" "1")); done.
Defined.

End ConsolidatorFacts.

(** ** From the parsed chart to the consolidator *)

Section UnitToConsolidator.
Import ProcessDefenses StartCombining UnitRows.

Lemma mapM_option_fmap {X Y W} (f : Y → option W) (g : X → Y) (h : X → W) (l : list X) :
  (∀ x, f (g x) = Some (h x)) → mapM f (g <$> l) = Some (h <$> l).
Proof.
  intros Hf. apply mapM_Some_2. apply Forall2_fmap.
  induction l as [|x l IH]; constructor; [apply Hf|done].
Qed.

Lemma read_written_slot team_name position_name slot :
  StartCombiningFiles.read_row
    (PyMore.dict_of (zip csv_header (csv_row team_name position_name slot)))
  = Some (slot_row position_name slot).
Proof.
  unfold csv_row, slot_row. destruct slot as [depth [player|]]; reflexivity.
Qed.

Lemma csv_row_not_nil team_name position_name slot :
  csv_row team_name position_name slot ≠ [].
Proof. unfold csv_row. by destruct (slot.2). Qed.

Lemma flat_map_fmap_pairs {E S X} (pos : E → string) (slots : E → list S)
    (F : string → S → X) (l : list E) :
  flat_map (λ e, F (pos e) <$> slots e) l
  = (λ item : string * S, F item.1 item.2)
      <$> flat_map (λ e, (λ s, (pos e, s)) <$> slots e) l.
Proof.
  induction l as [|e es IH]; [done|].
  cbn [flat_map]. rewrite fmap_app, IH. f_equal.
  rewrite <- list_fmap_compose. reflexivity.
Qed.

Lemma filter_all {X} (P : X → Prop) `{!∀ x, Decision (P x)} (l : list X) :
  Forall P l → filter P l = l.
Proof.
  induction 1 as [|x l Hx Hl IH]; [done|].
  rewrite filter_cons_True by done. by rewrite IH.
Qed.

Lemma convert_then_read data team_name :
  ∃ rows, convert_to_csv (Some data) team_name = Some rows
          ∧ List.length rows = S (List.length (unit_rows data))
          ∧ Forall (λ row, List.length row = 7%nat) rows
          ∧ StartCombiningFiles.read_rows rows = Some (unit_rows data).
Proof.
  eexists. split; [reflexivity|].
  unfold unit_rows.
  rewrite (flat_map_fmap_pairs position (λ e, enumerate1 (players e)) (csv_row team_name)).
  rewrite (flat_map_fmap_pairs position (λ e, enumerate1 (players e)) slot_row).
  split_and!.
  - simpl. by rewrite !length_fmap.
  - constructor; [done|]. apply Forall_fmap, Forall_forall.
    intros [pos [depth [p|]]] _; done.
  - unfold StartCombiningFiles.read_rows, StartCombiningFiles.DictReader.
    rewrite filter_all.
    + rewrite <- list_fmap_compose. apply mapM_option_fmap.
      intros [pos slot]. apply read_written_slot.
    + apply Forall_fmap, Forall_forall. intros [pos slot] _.
      apply csv_row_not_nil.
Qed.

(** The rows that [convert_to_csv] writes are read back by the
    consolidator as one row per slot of the chart: a player with position
    and depth, or an empty slot marked as such. *)
Theorem written_rows_are_read_back data team_name :
  ∃ rows, convert_to_csv (Some data) team_name = Some rows
          ∧ List.length rows = S (List.length (unit_rows data))
          ∧ Forall (λ row, List.length row = 7%nat) rows
          ∧ StartCombiningFiles.read_rows rows = Some (unit_rows data).
Proof. apply convert_then_read. Qed.

Lemma skipped_slot_row position_name slot :
  match slot.2 with
  | Some player => Py.truthy_opt (uid player) = false
  | None => True
  end →
  skipped (slot_row position_name slot) = true.
Proof.
  unfold slot_row. destruct (slot.2) as [player|]; [|done].
  intros Hu. unfold skipped. simpl. by rewrite Hu.
Qed.

(** A unit whose slots hold no player with an identifier, be they empty or
    filled with players that the markup gives no identifier, leaves the
    consolidated players as they are. *)
Theorem unit_without_identifiers_adds_nothing data team_name rows csv prio cp :
  convert_to_csv (Some data) team_name = Some csv →
  StartCombiningFiles.read_rows csv = Some rows →
  (∀ pos_entry slot,
     pos_entry ∈ positions_and_players data → slot ∈ players pos_entry →
     match slot with
     | Some player => Py.truthy_opt (uid player) = false
     | None => True
     end) →
  foldl (process_row team_name prio) cp rows = cp.
Proof.
  intros Hcsv Hread Hslots.
  destruct (convert_then_read data team_name) as (csv' & Hcsv' & _ & _ & Hread').
  rewrite Hcsv in Hcsv'. injection Hcsv' as <-.
  rewrite Hread in Hread'. injection Hread' as ->.
  assert (Forall (λ row, skipped row = true) (unit_rows data)) as Hall.
  { unfold unit_rows. apply Forall_flat_map, Forall_forall. intros e He.
    apply Forall_fmap, Forall_forall. intros [depth slot] Hs.
    apply skipped_slot_row. simpl. apply (Hslots e slot He).
    unfold enumerate1 in Hs. apply list_elem_of_lookup in Hs as [i Hi].
    apply lookup_zip_with_Some in Hi as (x & y & [= <- <-] & _ & Hy).
    by eapply list_elem_of_lookup_2. }
  clear Hread Hcsv Hslots.
  induction Hall as [|row rs Hrow _ IH]; simpl; [done|].
  by rewrite process_row_skipped.
Qed.

Lemma unit_without_identifiers_adds_nothing_witness :
  foldl (process_row "Team" 2) ∅
    [mkRow "" "" "" "Empty Slot" "LDE" "1"; mkRow "" "Al Able" "/al-able" "" "LDE" "2"]
  = ∅.
Proof.
  apply (unit_without_identifiers_adds_nothing
           (mkStructuredData "Base"
              [mkDepthRow "LDE" [None; Some (mkPlayer "Al Able" "/al-able" None None)]])
           "Team" _
           [csv_header;
            ["Team"; "LDE"; "1"; ""; ""; ""; "Empty Slot"];
            ["Team"; "LDE"; "2"; "Al Able"; "/al-able"; ""; ""]]).
  - reflexivity.
  - reflexivity.
  - intros e slot ->%list_elem_of_singleton Hs. simpl in Hs.
    apply elem_of_cons in Hs as [->|Hs]; [done|].
    by apply list_elem_of_singleton in Hs as ->.
Defined.

Lemma pretty_N_go_nonempty x s : s ≠ "" → pretty_N_go x s ≠ "".
Proof.
  revert s. induction (N.lt_wf_0 x) as [x _ IH]; intros s Hs.
  destruct (decide (x = 0)%N) as [->|Hx].
  - by rewrite pretty_N_go_0.
  - rewrite pretty_N_go_step by lia. apply IH; [|done].
    apply N.div_lt; lia.
Qed.

(** [str(n)] is never empty. *)
Lemma str_nonempty n : Py.str n ≠ "".
Proof.
  unfold Py.str, pretty, pretty_nat, pretty, pretty_N.
  case_decide as Hn; [done|].
  rewrite pretty_N_go_step by lia. by apply pretty_N_go_nonempty.
Qed.

(** A player of the chart whose link bears an identifier is on record
    after the file of the unit is read, under that identifier, with the
    position of the row and the depth of the slot counted from one.  The
    name of the player is not the dash, and the position is neither empty
    nor the empty-slot marker. *)
Theorem charted_player_is_on_record data team_name unit cp pos_entry i player player_uid :
  pos_entry ∈ positions_and_players data →
  players pos_entry !! i = Some (Some player) →
  uid player = Some player_uid → player_uid ≠ "" → name player ≠ "-" →
  position pos_entry ≠ "" → position pos_entry ≠ "Empty Slot" →
  ∃ d, process_file team_name cp (unit, unit_rows data) !! player_uid = Some d
       ∧ (unit_priority_map unit, position pos_entry, Py.str (S i)) ∈ all_positions d.
Proof.
  intros He Hi Hu Hne Hn Hp Hpe.
  apply process_file_positions. right.
  exists (slot_row (position pos_entry) (S i, Some player)).
  assert (Py.truthy_opt (uid player) = true) as Ht
    by (rewrite Hu; simpl; by apply truthy_true).
  split_and!.
  - simpl. unfold unit_rows. apply list_elem_of_In, in_flat_map.
    exists pos_entry. split; [by apply list_elem_of_In|]. apply list_elem_of_In.
    apply list_elem_of_fmap_2. unfold enumerate1.
    apply list_elem_of_lookup. exists i. apply lookup_zip_with_Some.
    exists (S i), (Some player). split_and!; [done| |done].
    apply lookup_lt_Some in Hi as Hlt. by rewrite lookup_seq_lt.
  - apply skipped_false; unfold slot_row; simpl; rewrite ?Ht, ?Hu; done.
  - unfold slot_row. simpl. by rewrite Ht, Hu.
  - done.
  - apply str_nonempty.
  - done.
Qed.

Lemma charted_player_is_on_record_witness :
  ∃ d, process_file "Team" ∅
         (Defense,
          unit_rows
            (mkStructuredData "Base"
               [mkDepthRow "LDE"
                  [None; Some (mkPlayer "Al Able" "/al-able" (Some "u1") None)]]))
       !! "u1" = Some d
       ∧ (unit_priority_map Defense, "LDE", Py.str 2) ∈ all_positions d.
Proof.
  apply (charted_player_is_on_record
           (mkStructuredData "Base"
              [mkDepthRow "LDE"
                 [None; Some (mkPlayer "Al Able" "/al-able" (Some "u1") None)]])
           "Team" Defense ∅
           (mkDepthRow "LDE"
              [None; Some (mkPlayer "Al Able" "/al-able" (Some "u1") None)])
           1 (mkPlayer "Al Able" "/al-able" (Some "u1") None) "u1");
    try done.
  left.
Defined.

End UnitToConsolidator.

(** ** More about the parsers *)

Section ParserFacts.
Import Soup.

(** A loop that returns has run its body on every element without a
    raise. *)
Lemma mapM_Return_inv {X Y} (f : X → result Y) (l : list X) (ys : list Y) :
  mapM f l = Return ys → Forall2 (λ x y, f x = Return y) l ys.
Proof.
  revert ys. induction l as [|x l IH]; intros ys; simpl.
  - intros [= <-]. constructor.
  - destruct (f x) as [y|e] eqn:Hx; simpl; [|done].
    destruct (mapM f l) as [ys'|e] eqn:Hl; simpl; [|done].
    intros [= <-]. constructor; [done|]. by apply IH.
Qed.

Lemma split_words_no_space s :
  Forall (λ c, Py.isspace c = false) (list_ascii_of_string (Py.split_words s).1)
  ∧ Forall (λ w, w ≠ "" ∧ Forall (λ c, Py.isspace c = false) (list_ascii_of_string w))
      (Py.split_words s).2.
Proof.
  induction s as [|c s [IHw IHws]]; simpl; [by split; constructor|].
  destruct (Py.split_words s) as [w ws]. simpl in *.
  destruct (Py.isspace c) eqn:Hc; simpl.
  - split; [constructor|].
    destruct (Py.truthy w) eqn:Hw; [|done].
    constructor; [|done]. split; [by apply truthy_true|done].
  - split; [by constructor|done].
Qed.

(** The words of [s.split()] are not empty and hold no white space. *)
Lemma split_words_tokens s :
  Forall (λ w, w ≠ "" ∧ Forall (λ c, Py.isspace c = false) (list_ascii_of_string w))
    (Py.split s).
Proof.
  unfold Py.split. pose proof (split_words_no_space s) as [Hw Hws].
  destruct (Py.split_words s) as [w ws]. simpl in *.
  destruct (Py.truthy w) eqn:Ht; [|done].
  constructor; [|done]. split; [by apply truthy_true|done].
Qed.

(** Stripping leaves a text without white space as it is. *)
Lemma strip_no_space w :
  Forall (λ c, Py.isspace c = false) (list_ascii_of_string w) → Py.strip w = w.
Proof.
  intros Hw. unfold Py.strip.
  assert (Py.lstrip w = w) as ->.
  { destruct w as [|c w]; [done|]. simpl in *.
    apply Forall_cons in Hw as [-> _]. done. }
  induction w as [|c w IH]; [done|]. simpl in *.
  apply Forall_cons in Hw as [Hc Hw]. rewrite Hc, andb_false_r. by rewrite IH.
Qed.

Lemma no_space_not_empty_slot w :
  Forall (λ c, Py.isspace c = false) (list_ascii_of_string w) → w ≠ "Empty Slot".
Proof.
  intros Hw ->. simpl in Hw. rewrite !Forall_cons in Hw.
  destruct Hw as (_ & _ & _ & _ & _ & Hsp & _). done.
Qed.

Lemma position_of_row_token row label :
  ProcessDefenses.position_of_row row = Return (Some label) →
  label ≠ "" ∧ Forall (λ c, Py.isspace c = false) (list_ascii_of_string label).
Proof.
  unfold ProcessDefenses.position_of_row.
  destruct (find "span" _ row) as [span|]; [|done].
  unfold getitem.
  destruct (Py.split (text span) !! 0%nat) as [first|] eqn:Hf; simpl; [|done].
  intros [= <-].
  apply list_elem_of_lookup_2 in Hf.
  pose proof (split_words_tokens (text span)) as Hall.
  rewrite Forall_forall in Hall. destruct (Hall _ Hf) as [Hne Hns].
  by rewrite strip_no_space.
Qed.

Lemma extract_positions_tokens soup labels :
  ProcessDefenses.extract_positions soup = Return labels →
  Forall (λ label, label ≠ ""
                   ∧ Forall (λ c, Py.isspace c = false) (list_ascii_of_string label))
    labels.
Proof.
  unfold ProcessDefenses.extract_positions.
  destruct (find "table" _ soup) as [left_table|]; [|intros [= <-]; constructor].
  destruct (find "tbody" _ left_table) as [tbody|]; [|done].
  destruct (mapM _ _) as [ls|e] eqn:Hm; simpl; [|done].
  intros [= <-]. apply mapM_Return_inv in Hm.
  apply Forall_forall. intros label Hl.
  apply list_elem_of_omap in Hl as (o & Ho & Hid). simpl in Hid. subst o.
  apply list_elem_of_lookup in Ho as [i Hi].
  destruct (Forall2_lookup_r _ _ _ _ _ Hm Hi) as (row & _ & Hrow).
  by apply position_of_row_token in Hrow.
Qed.

Lemma assemble_positions positions player_data_rows entries :
  ProcessDefenses.assemble positions player_data_rows = Return entries →
  Forall (λ e, ProcessDefenses.position e ∈ positions) entries.
Proof.
  unfold ProcessDefenses.assemble. intros Hm%mapM_Return_inv.
  apply Forall_forall. intros e He.
  apply list_elem_of_lookup in He as [i Hi].
  destruct (Forall2_lookup_r _ _ _ _ _ Hm Hi) as (j & _ & Hj).
  unfold getitem in Hj.
  destruct (positions !! j) as [p|] eqn:Hp; simpl in Hj; [|done].
  destruct (player_data_rows !! j) as [r|]; simpl in Hj; [|done].
  injection Hj as <-. simpl. by eapply list_elem_of_lookup_2.
Qed.

(** Every position of a parsed chart is a single word: it is not empty,
    holds no white space, and so is not the marker of an empty slot; the
    formation is the title of the table. *)
Theorem parsed_positions_are_words soup data :
  ProcessDefenses.parse_depth_chart_html soup = Return (Some data) →
  ProcessDefenses.formation data = ProcessDefenses.formation_title soup
  ∧ Forall (λ e, ProcessDefenses.position e ≠ ""
                 ∧ ProcessDefenses.position e ≠ "Empty Slot"
                 ∧ Forall (λ c, Py.isspace c = false)
                     (list_ascii_of_string (ProcessDefenses.position e)))
      (ProcessDefenses.positions_and_players data).
Proof.
  unfold ProcessDefenses.parse_depth_chart_html.
  destruct (ProcessDefenses.extract_positions soup) as [positions|e] eqn:Hpos;
    simpl; [|done].
  destruct positions as [|p ps]; [done|].
  destruct (ProcessDefenses.extract_player_rows soup) as [[rows|]|e]; simpl; try done.
  destruct (ProcessDefenses.assemble (p :: ps) rows) as [entries|e] eqn:Ha;
    simpl; [|done].
  intros [= <-]. simpl. split; [done|].
  pose proof (extract_positions_tokens _ _ Hpos) as Htok.
  pose proof (assemble_positions _ _ _ Ha) as Hin.
  apply Forall_forall. intros e He.
  pose proof (proj1 (Forall_forall _ _) Hin e He) as Hp.
  destruct (proj1 (Forall_forall _ _) Htok _ Hp) as [Hne Hns].
  split_and!; [done| |done]. by apply no_space_not_empty_slot.
Qed.

Lemma parsed_positions_are_words_witness :
  ProcessDefenses.formation
    (ProcessDefenses.mkStructuredData "Base 4-3 D"
       [ProcessDefenses.mkDepthRow "LDE" [None]])
  = ProcessDefenses.formation_title
      (Tag "[document]" []
         [Tag "div" [("class", "Table__Title")] [NavigableString " Base 4-3 D "];
          Tag "table" [("class", "Table Table--fixed-left")]
            [Tag "tbody" []
               [Tag "tr" [("class", "Table__TR")]
                  [Tag "span" [("data-testid", "statCell")]
                     [NavigableString " LDE  "]]]];
          Tag "div" [("class", "Table__Scroller")]
            [Tag "table" []
               [Tag "tbody" []
                  [Tag "tr" [("class", "Table__TR")]
                     [Tag "td" [("class", "Table__TD")]
                        [Tag "span" [("data-testid", "statCell")]
                           [NavigableString "-"]]]]]]]).
Proof.
  apply parsed_positions_are_words. vm_compute. reflexivity.
Defined.

End ParserFacts.

(** ** The roster parsers *)

Section RosterFacts.
Import Soup.

Lemma zip_seq_snoc {X} (l : list X) (x : X) :
  zip (seq 0 (List.length (l ++ [x]))) (l ++ [x])
  = zip (seq 0 (List.length l)) l ++ [(List.length l, x)].
Proof.
  rewrite length_app. simpl. rewrite seq_app. simpl.
  by rewrite zip_with_app by by rewrite length_seq.
Qed.

Lemma header_index_spec headers h :
  ((h ∉ headers) ∧ ScrapeNBA.header_index headers h = -1)
  ∨ ∃ i, ScrapeNBA.header_index headers h = Z.of_nat i
         ∧ headers !! i = Some h
         ∧ ∀ j, (i < j)%nat → headers !! j ≠ Some h.
Proof.
  unfold ScrapeNBA.header_index.
  induction headers as [|x l IH] using rev_ind.
  - left. split; [apply not_elem_of_nil|done].
  - rewrite zip_seq_snoc, foldl_snoc. simpl.
    destruct (String.eqb x h) eqn:Hx.
    + apply String.eqb_eq in Hx as ->. right. exists (List.length l). split_and!.
      * done.
      * by rewrite lookup_app_r, Nat.sub_diag.
      * intros j Hj. rewrite lookup_ge_None_2; [done|].
        rewrite length_app. simpl. lia.
    + apply String.eqb_neq in Hx.
      destruct IH as [[Hnotin ->]|(i & -> & Hi & Hlast)].
      * left. split; [|done]. rewrite elem_of_app, list_elem_of_singleton.
        intros [?|?]; congruence.
      * right. exists i. split_and!; [done|by apply lookup_app_l_Some|].
        intros j Hj Hl. apply lookup_app_Some in Hl as [Hl|[_ Hl]].
        -- by apply (Hlast j).
        -- apply list_lookup_singleton_Some in Hl as [_ ?]. congruence.
Qed.

(** The index that scrapeNBA.py keeps for a header is [-1] when no column
    bears the header, and otherwise the index of the last column that
    does: it lies within the headers. *)
Theorem header_index_last headers h :
  ((h ∉ headers) ∧ ScrapeNBA.header_index headers h = -1)
  ∨ ∃ i, ScrapeNBA.header_index headers h = Z.of_nat i
         ∧ headers !! i = Some h
         ∧ ∀ j, (i < j)%nat → headers !! j ≠ Some h.
Proof. apply header_index_spec. Qed.

Lemma omap_id_none {X Y} (l : list X) : omap id ((λ _, @None Y) <$> l) = [].
Proof. by induction l. Qed.

(** A roster table of scrapeNBA.py whose header has no column [Name]
    yields no player, whatever its rows hold. *)
Theorem nba_table_without_name_column the_team_name the_team_abbrev soup
    inner_table headers :
  find "table" any soup = Some inner_table →
  ScrapeNBA.extract_headers inner_table = Return headers →
  "Name" ∉ headers →
  ScrapeNBA.parse_table the_team_name the_team_abbrev soup = Return [].
Proof.
  intros Ht Hh Hn. unfold ScrapeNBA.parse_table. rewrite Ht, Hh. simpl.
  destruct (find "tbody" any inner_table) as [table_body|]; [|done].
  rewrite (mapM_Return _ (λ _, None)).
  - simpl. by rewrite omap_id_none.
  - intros row _. unfold ScrapeNBA.parse_row, ScrapeNBA.name_url_status.
    destruct (header_index_spec headers "Name") as [[_ ->]|(i & _ & Hi & _)]; [done|].
    apply list_elem_of_lookup_2 in Hi. done.
Qed.

Lemma nba_table_without_name_column_witness :
  ScrapeNBA.parse_table "Team" "tm"
    (Tag "[document]" []
       [Tag "table" []
          [Tag "thead" [] [Tag "th" [] [Tag "span" [] [NavigableString "POS"]]];
           Tag "tbody" []
             [Tag "tr" []
                [Tag "td" []
                   [Tag "div" []
                      [Tag "a" [("class", "AnchorLink"); ("href", "/al-able")]
                         [NavigableString "Al Able"]]]]]]])
  = Return [].
Proof.
  eapply nba_table_without_name_column.
  - reflexivity.
  - reflexivity.
  - vm_compute. by intros ?%list_elem_of_singleton.
Defined.

Lemma nba_parse_row_record the_team_name the_team_abbrev title group headers row p :
  ScrapeNBA.parse_row the_team_name the_team_abbrev title group headers row
  = Return (Some p) →
  ScrapeNBA.player_name p ≠ "" ∧ ScrapeNBA.team_name p = the_team_name
  ∧ ScrapeNBA.team_abbrev p = the_team_abbrev
  ∧ ScrapeNBA.depth_label p = "Roster" ∧ is_Some (ScrapeNBA.player_url p).
Proof.
  unfold ScrapeNBA.parse_row.
  destruct (ScrapeNBA.name_url_status _ _) as [[[n u] s]|e] eqn:Hn; simpl; [|done].
  destruct (Py.truthy_opt n) eqn:Htn; [|done].
  intros [= <-]. simpl.
  destruct n as [n|]; [|done]. simpl in Htn. apply truthy_true in Htn.
  split_and!; try done.
  unfold ScrapeNBA.name_url_status in Hn.
  destruct (negb _ && _); [|discriminate Hn].
  destruct (find_all "td" any row !! _) as [col|]; [|discriminate Hn].
  destruct (find "div" any col) as [content|]; [|discriminate Hn].
  destruct (find "a" _ content) as [tag|]; [|discriminate Hn].
  destruct (getattr tag "href") as [the_url|e]; [|discriminate Hn].
  injection Hn as _ <- _. by eexists.
Qed.

Lemma nhl_parse_row_record the_team_name the_team_abbrev title pos row p :
  ScrapeNHL.parse_row the_team_name the_team_abbrev title pos row = Return (Some p) →
  ScrapeNHL.player_name p ≠ "" ∧ ScrapeNHL.team_name p = the_team_name
  ∧ ScrapeNHL.team_abbrev p = the_team_abbrev
  ∧ ScrapeNHL.depth_label p = "Roster" ∧ is_Some (ScrapeNHL.player_url p).
Proof.
  unfold ScrapeNHL.parse_row.
  destruct (_ !! 1%nat) as [cell|]; [|done].
  destruct (find "a" _ cell) as [tag|]; simpl; [|done].
  destruct (getattr tag "href") as [u|e]; simpl; [|done].
  destruct (Py.truthy (Py.strip (text tag))) eqn:Ht; [|done].
  intros [= <-]. simpl. apply truthy_true in Ht. split_and!; eauto.
Qed.

Lemma omap_id_Forall {X Y} (f : X → result (option Y)) (P : Y → Prop)
    (l : list X) (ys : list (option Y)) :
  mapM f l = Return ys → (∀ x p, f x = Return (Some p) → P p) →
  Forall P (omap id ys).
Proof.
  intros Hm%mapM_Return_inv HP. apply Forall_forall. intros p Hp.
  apply list_elem_of_omap in Hp as (o & Ho & Hid). simpl in Hid. subst o.
  apply list_elem_of_lookup in Ho as [i Hi].
  destruct (Forall2_lookup_r _ _ _ _ _ Hm Hi) as (x & _ & Hx). by eapply HP.
Qed.

Lemma concat_Forall {X Y} (f : X → result (list Y)) (P : Y → Prop)
    (l : list X) (yss : list (list Y)) :
  mapM f l = Return yss → (∀ x ys, f x = Return ys → Forall P ys) →
  Forall P (List.concat yss).
Proof.
  intros Hm%mapM_Return_inv HP. apply Forall_concat, Forall_forall. intros ys Hys.
  apply list_elem_of_lookup in Hys as [i Hi].
  destruct (Forall2_lookup_r _ _ _ _ _ Hm Hi) as (x & _ & Hx). by eapply HP.
Qed.

Lemma mlb_parse_cell_record the_team_name the_team_abbrev title levels pos cell p :
  ScrapeMLB.parse_cell the_team_name the_team_abbrev title levels pos cell = Some p →
  ScrapeMLB.player_name p ≠ "" ∧ ScrapeMLB.team_name p = the_team_name
  ∧ ScrapeMLB.team_abbrev p = the_team_abbrev
  ∧ ScrapeMLB.position_name p = pos.
Proof.
  unfold ScrapeMLB.parse_cell. destruct cell as [j player_cell].
  destruct (_ || _); [done|].
  destruct (find "a" _ player_cell) as [tag|]; simpl; [|done].
  destruct (Py.truthy (Py.strip (text tag))) eqn:Ht; [|done].
  intros [= <-]. simpl. by apply truthy_true in Ht.
Qed.

(** Every record that the parsers of scrapeMLB.py, scrapeNBA.py and
    scrapeNHL.py return names a player and bears the team it was parsed
    for; the roster records have the address of the player and the depth
    label Roster. *)
Theorem parsed_records_are_named :
  (∀ re_sub raw_html_container the_team_name the_team_abbrev,
     Forall (λ p, ScrapeMLB.player_name p ≠ ""
                  ∧ ScrapeMLB.team_name p = the_team_name
                  ∧ ScrapeMLB.team_abbrev p = the_team_abbrev)
       (ScrapeMLB.parse_mlb_depth_chart_data re_sub raw_html_container
          the_team_name the_team_abbrev))
  ∧ (∀ raw_html_tables the_team_name the_team_abbrev players,
       ScrapeNBA.parse_nba_roster_data raw_html_tables the_team_name the_team_abbrev
       = Return players →
       Forall (λ p, ScrapeNBA.player_name p ≠ ""
                    ∧ ScrapeNBA.team_name p = the_team_name
                    ∧ ScrapeNBA.team_abbrev p = the_team_abbrev
                    ∧ ScrapeNBA.depth_label p = "Roster"
                    ∧ is_Some (ScrapeNBA.player_url p))
         players)
  ∧ (∀ raw_html_tables the_team_name the_team_abbrev players,
       ScrapeNHL.parse_nhl_roster_data raw_html_tables the_team_name the_team_abbrev
       = Return players →
       Forall (λ p, ScrapeNHL.player_name p ≠ ""
                    ∧ ScrapeNHL.team_name p = the_team_name
                    ∧ ScrapeNHL.team_abbrev p = the_team_abbrev
                    ∧ ScrapeNHL.depth_label p = "Roster"
                    ∧ is_Some (ScrapeNHL.player_url p))
         players).
Proof.
  split_and!.
  - intros re_sub raw t a. unfold ScrapeMLB.parse_mlb_depth_chart_data.
    destruct raw as [soup|]; [|constructor].
    destruct (find_all "table" any soup) as [|t1 [|t2 ts]]; try constructor.
    destruct (find "tbody" any t1) as [b1|]; [|constructor].
    destruct (find "tbody" any t2) as [b2|]; [|constructor].
    unfold ScrapeMLB.parse_rows. apply Forall_flat_map, Forall_forall. intros i _.
    destruct (_ !! i) as [r1|]; [|constructor].
    destruct (_ !! i) as [r2|]; [|constructor].
    unfold ScrapeMLB.parse_row_pair. apply Forall_forall. intros p Hp.
    apply list_elem_of_omap in Hp as (cell & _ & Hc).
    apply mlb_parse_cell_record in Hc as (? & ? & ? & _). done.
  - intros tables t a players. unfold ScrapeNBA.parse_nba_roster_data.
    destruct (mapM _ tables) as [tl|e] eqn:Hm; simpl; [|done].
    intros [= <-]. eapply concat_Forall; [exact Hm|].
    intros soup ps. unfold ScrapeNBA.parse_table.
    destruct (find "table" any soup) as [inner|]; [|intros [= <-]; constructor].
    destruct (ScrapeNBA.extract_headers inner) as [hs|e]; simpl; [|done].
    destruct (find "tbody" any inner) as [body|]; [|intros [= <-]; constructor].
    destruct (mapM _ (find_all "tr" any body)) as [os|e] eqn:Hr; simpl; [|done].
    intros [= <-]. eapply omap_id_Forall; [exact Hr|].
    intros row p. apply nba_parse_row_record.
  - intros tables t a players. unfold ScrapeNHL.parse_nhl_roster_data.
    destruct (mapM _ tables) as [tl|e] eqn:Hm; simpl; [|done].
    intros [= <-]. eapply concat_Forall; [exact Hm|].
    intros soup ps. unfold ScrapeNHL.parse_table.
    destruct (find "table" any soup) as [inner|]; [|intros [= <-]; constructor].
    destruct (find "tbody" any inner) as [body|]; [|intros [= <-]; constructor].
    destruct (mapM _ (find_all "tr" any body)) as [os|e] eqn:Hr; simpl; [|done].
    intros [= <-]. eapply omap_id_Forall; [exact Hr|].
    intros row p. apply nhl_parse_row_record.
Qed.

Lemma parsed_records_are_named_witness :
  Forall (λ p, ScrapeNHL.player_name p ≠ "" ∧ ScrapeNHL.team_name p = "Team"
               ∧ ScrapeNHL.team_abbrev p = "tm"
               ∧ ScrapeNHL.depth_label p = "Roster"
               ∧ is_Some (ScrapeNHL.player_url p))
    [ScrapeNHL.mkPlayerRecord "Team" "tm" "Centers" "C" "Al Able" "Roster"
       (Some "/al-able") None None None None None None None].
Proof.
  apply (proj2 (proj2 parsed_records_are_named)
           [Tag "[document]" []
              [Tag "div" [("class", "Table__Title")] [NavigableString "Centers"];
               Tag "table" []
                 [Tag "tbody" []
                    [Tag "tr" []
                       [Tag "td" [] [];
                        Tag "td" []
                          [Tag "a" [("class", "AnchorLink"); ("href", "/al-able")]
                             [NavigableString "Al Able"]]]]]]]).
  vm_compute. reflexivity.
Defined.

End RosterFacts.

(** ** Dictionaries in insertion order *)

Section DictFacts.
Context {K V : Type} `{!EqDecision K}.
Implicit Types (d : list (K * V)) (k : K) (v : V).

Lemma pm_dict_get_None d k : PyMore.dict_get d k = None ↔ k ∉ d.*1.
Proof.
  induction d as [|[k' v] d IH]; csimpl.
  - split; [intros _; apply not_elem_of_nil|done].
  - case_bool_decide as Hk; rewrite not_elem_of_cons.
    + split; [done|]. intros [Hne _]. by subst.
    + rewrite IH. split; [by split|by intros [_ ?]].
Qed.

Lemma pm_dict_get_Some d k v : PyMore.dict_get d k = Some v → (k, v) ∈ d.
Proof.
  induction d as [|[k' v'] d IH]; csimpl; [done|].
  case_bool_decide as Hk.
  - intros [= <-]. subst. left.
  - intros Hd. right. by apply IH.
Qed.

Lemma pm_dict_set_keys_new d k v :
  k ∉ d.*1 → (PyMore.dict_set d k v).*1 = d.*1 ++ [k].
Proof.
  induction d as [|[k' v'] d IH]; csimpl; [done|].
  rewrite not_elem_of_cons. intros [Hne Hk].
  rewrite bool_decide_eq_false_2 by done. csimpl. by rewrite IH.
Qed.

Lemma pm_dict_set_keys_old d k v : k ∈ d.*1 → (PyMore.dict_set d k v).*1 = d.*1.
Proof.
  induction d as [|[k' v'] d IH]; csimpl; [by intros ?%elem_of_nil|].
  case_bool_decide as Hk; [done|]. csimpl.
  rewrite elem_of_cons. intros [->|Hin]; [done|]. by rewrite IH.
Qed.

Lemma pm_dict_set_elem d k v item :
  NoDup d.*1 → item ∈ PyMore.dict_set d k v →
  item = (k, v) ∨ (item ∈ d ∧ item.1 ≠ k).
Proof.
  induction d as [|[k' v'] d IH]; csimpl.
  - intros _ ->%list_elem_of_singleton. by left.
  - intros [Hk' Hnd]%NoDup_cons. case_bool_decide as Hk.
    + subst k'. intros [->|Hin]%elem_of_cons; [by left|].
      right. split; [by right|]. intros <-. apply Hk'.
      by apply (list_elem_of_fmap_2 fst) in Hin.
    + intros [->|Hin]%elem_of_cons; [right; split; [left|done]|].
      destruct (IH Hnd Hin) as [->|[Hd Hne]]; [by left|].
      right. split; [by right|done].
Qed.

Lemma dict_unique d k v v' : NoDup d.*1 → (k, v) ∈ d → (k, v') ∈ d → v = v'.
Proof.
  induction d as [|[k0 v0] d IH]; csimpl; [by intros _ ?%elem_of_nil|].
  intros [Hk0 Hnd]%NoDup_cons [[= -> ->]|H1]%elem_of_cons [[= ->]|H2]%elem_of_cons.
  - done.
  - exfalso. apply Hk0. by apply (list_elem_of_fmap_2 fst) in H2.
  - exfalso. apply Hk0. by apply (list_elem_of_fmap_2 fst) in H1.
  - by apply IH.
Qed.

End DictFacts.

(** The keys of a list in the order in which they first occur. *)
Lemma first_keys_snoc {K} `{!EqDecision K} (ks : list K) (k : K) :
  reverse (remove_dups (reverse (ks ++ [k])))
  = if decide (k ∈ reverse (remove_dups (reverse ks)))
    then reverse (remove_dups (reverse ks))
    else reverse (remove_dups (reverse ks)) ++ [k].
Proof.
  rewrite reverse_app. simpl.
  destruct (decide_rel elem_of k (reverse ks)) as [Hin|Hin];
    destruct (decide (k ∈ reverse (remove_dups (reverse ks)))) as [Hin'|Hin'].
  - done.
  - exfalso. apply Hin'. by rewrite elem_of_reverse, elem_of_remove_dups.
  - exfalso. apply Hin. by rewrite elem_of_reverse, elem_of_remove_dups in Hin'.
  - by rewrite reverse_cons.
Qed.

(** ** Deduplication by rank *)

Section RankDedup.
Context {P V : Type}.
Variables (key : P → string * string) (rank : P → Z).
Variables (val : P → V) (payload : V → P) (rankV : V → Z).
Variable step : list ((string * string) * V) → P → list ((string * string) * V).
Hypothesis payload_val : ∀ p, payload (val p) = p.
Hypothesis rankV_val : ∀ p, rankV (val p) = rank p.
Hypothesis step_spec : ∀ d p,
  step d p
  = match PyMore.dict_get d (key p) with
    | None => PyMore.dict_set d (key p) (val p)
    | Some v => if rank p <? rankV v then PyMore.dict_set d (key p) (val p) else d
    end.

Local Abbreviation best seen k p :=
  (key p = k
   ∧ ∃ s1 s2, seen = s1 ++ p :: s2
              ∧ (∀ q, q ∈ s1 → key q = k → rank p < rank q)
              ∧ (∀ q, q ∈ s2 → key q = k → rank p ≤ rank q)).

Lemma best_other seen k p q : best seen k p → key q ≠ k → best (seen ++ [q]) k p.
Proof.
  intros (Hk & s1 & s2 & -> & H1 & H2) Hq. split; [done|].
  exists s1, (s2 ++ [q]). split_and!; [by rewrite <- app_assoc|done|].
  intros q' [Hq'| ->%list_elem_of_singleton]%elem_of_app Hk'; [by apply H2|done].
Qed.

Lemma best_kept seen k p q : best seen k p → rank p ≤ rank q → best (seen ++ [q]) k p.
Proof.
  intros (Hk & s1 & s2 & -> & H1 & H2) Hq. split; [done|].
  exists s1, (s2 ++ [q]). split_and!; [by rewrite <- app_assoc|done|].
  intros q' [Hq'| ->%list_elem_of_singleton]%elem_of_app Hk'; [by apply H2|done].
Qed.

Lemma best_replaced seen k p q :
  best seen k p → key q = k → rank q < rank p → best (seen ++ [q]) k q.
Proof.
  intros (Hk & s1 & s2 & -> & H1 & H2) Hq Hlt. split; [done|].
  exists (s1 ++ p :: s2), []. split_and!; [done| |by intros ? ?%elem_of_nil].
  intros q' [Hq'|[->|Hq']%elem_of_cons]%elem_of_app Hk'.
  - specialize (H1 _ Hq' Hk'). lia.
  - done.
  - specialize (H2 _ Hq' Hk'). lia.
Qed.

Lemma foldl_step_inv l :
  NoDup (foldl step [] l).*1
  ∧ (foldl step [] l).*1 = reverse (remove_dups (reverse (key <$> l)))
  ∧ ∀ k v, (k, v) ∈ foldl step [] l → ∃ p, v = val p ∧ best l k p.
Proof.
  induction l as [|q l (Hnd & Hkeys & Hbest)] using rev_ind.
  - simpl. split_and!; [apply NoDup_nil_2|done|by intros ? ? ?%elem_of_nil].
  - rewrite foldl_snoc, step_spec, fmap_app. simpl. rewrite first_keys_snoc.
    rewrite <- Hkeys.
    destruct (PyMore.dict_get (foldl step [] l) (key q)) as [v|] eqn:Hget.
    + pose proof (pm_dict_get_Some _ _ _ Hget) as Hin.
      assert (key q ∈ (foldl step [] l).*1) as Hk
        by by apply (list_elem_of_fmap_2 fst) in Hin.
      rewrite decide_True by done.
      destruct (Hbest _ _ Hin) as (p0 & -> & Hp0).
      rewrite rankV_val.
      destruct (Z.ltb_spec (rank q) (rank p0)) as [Hlt|Hge].
      * rewrite pm_dict_set_keys_old by done. split_and!; [done..|].
        intros k v Hv. apply (pm_dict_set_elem _ _ _ _ Hnd) in Hv as [[= -> ->]|[Hv Hne]].
        -- exists q. split; [done|]. by apply (best_replaced l (key q) p0).
        -- destruct (Hbest _ _ Hv) as (p & -> & Hp). exists p. split; [done|].
           apply best_other; [done|]. simpl in Hne. congruence.
      * split_and!; [done..|]. intros k v Hv.
        destruct (Hbest _ _ Hv) as (p & -> & Hp). exists p. split; [done|].
        destruct (decide (key q = k)) as [<-|Hne]; [|by apply best_other].
        apply best_kept; [done|].
        assert (val p = val p0) as Heq by by eapply dict_unique.
        rewrite <- (rankV_val p), Heq, rankV_val. lia.
    + apply pm_dict_get_None in Hget as Hk.
      rewrite decide_False by done.
      rewrite pm_dict_set_keys_new by done. split_and!.
      * apply NoDup_app. split_and!; [done| |apply NoDup_singleton].
        by intros k Hin ->%list_elem_of_singleton.
      * done.
      * intros k v Hv. apply (pm_dict_set_elem _ _ _ _ Hnd) in Hv as [[= -> ->]|[Hv Hne]].
        -- exists q. split; [done|]. split; [done|].
           exists l, []. split_and!; [done| |by intros ? ?%elem_of_nil].
           intros q' Hq' Hk'. exfalso. apply Hk. rewrite Hkeys.
           rewrite elem_of_reverse, elem_of_remove_dups, elem_of_reverse.
           rewrite <- Hk'. by apply list_elem_of_fmap_2.
        -- destruct (Hbest _ _ Hv) as (p & -> & Hp). exists p. split; [done|].
           apply best_other; [done|]. simpl in Hne. congruence.
Qed.

(** The records kept, in the order of their keys: for each key the first
    of the sightings with the least rank. *)
Lemma rank_dedup_spec l :
  key <$> (payload <$> (foldl step [] l).*2)
  = reverse (remove_dups (reverse (key <$> l)))
  ∧ ∀ p, p ∈ payload <$> (foldl step [] l).*2 →
         ∃ s1 s2, l = s1 ++ p :: s2
                  ∧ (∀ q, q ∈ s1 → key q = key p → rank p < rank q)
                  ∧ (∀ q, q ∈ s2 → key q = key p → rank p ≤ rank q).
Proof.
  destruct (foldl_step_inv l) as (Hnd & Hkeys & Hbest). split.
  - rewrite <- Hkeys, <- !list_fmap_compose. apply Forall_fmap_ext_1, Forall_forall.
    intros [k v] Hv. simpl. destruct (Hbest _ _ Hv) as (p & -> & Hk & _).
    by rewrite payload_val.
  - intros p Hp. rewrite <- list_fmap_compose in Hp.
    apply list_elem_of_fmap in Hp as ([k v] & -> & Hv). simpl.
    destruct (Hbest _ _ Hv) as (p & -> & Hk & s1 & s2 & Hl & H1 & H2).
    rewrite payload_val. exists s1, s2. rewrite Hk. done.
Qed.

End RankDedup.

(** ** The deduplication of the three scripts *)

Section DedupTheorems.

Lemma mlb_dict_get d k : ScrapeMLB.dict_get d k = PyMore.dict_get d k.
Proof. induction d as [|[k' v] d IH]; simpl; [done|]. by rewrite IH. Qed.

Lemma mlb_dict_set d k v : ScrapeMLB.dict_set d k v = PyMore.dict_set d k v.
Proof. induction d as [|[k' v'] d IH]; simpl; [done|]. by rewrite IH. Qed.

Local Abbreviation mlb_rank :=
  (λ p, default ScrapeMLB.DEFAULT_DEPTH_RANK
          (ScrapeMLB.depth_rank_map (ScrapeMLB.depth_label p))).

Local Abbreviation nhl_rank :=
  (λ p, default ScrapeNHLMain.DEFAULT_DEPTH_RANK
          (ScrapeNHLMain.depth_rank_map (ScrapeNHL.depth_label p))).

Lemma mlb_step_spec d p :
  ScrapeMLB.dedup_step d p
  = match PyMore.dict_get d (ScrapeMLB.player_key p) with
    | None => PyMore.dict_set d (ScrapeMLB.player_key p) (mlb_rank p, p)
    | Some v =>
        if mlb_rank p <? v.1
        then PyMore.dict_set d (ScrapeMLB.player_key p) (mlb_rank p, p) else d
    end.
Proof.
  unfold ScrapeMLB.dedup_step. rewrite mlb_dict_get, !mlb_dict_set.
  by destruct (PyMore.dict_get d _) as [[r q]|].
Qed.

Lemma nhl_step_spec d p :
  ScrapeNHLMain.dedup_step d p
  = match PyMore.dict_get d (ScrapeNHLMain.player_key p) with
    | None => PyMore.dict_set d (ScrapeNHLMain.player_key p) (nhl_rank p, p)
    | Some v =>
        if nhl_rank p <? v.1
        then PyMore.dict_set d (ScrapeNHLMain.player_key p) (nhl_rank p, p) else d
    end.
Proof.
  unfold ScrapeNHLMain.dedup_step. by destruct (PyMore.dict_get d _) as [[r q]|].
Qed.

Lemma nba_step_spec d p :
  ScrapeNBAMain.dedup_step d p
  = match PyMore.dict_get d (ScrapeNBAMain.player_key p) with
    | None => PyMore.dict_set d (ScrapeNBAMain.player_key p) p
    | Some v =>
        if 0 <? 0 then PyMore.dict_set d (ScrapeNBAMain.player_key p) p else d
    end.
Proof. unfold ScrapeNBAMain.dedup_step. by destruct (PyMore.dict_get d _). Qed.

Lemma mlb_deduplicate_values l :
  ScrapeMLB.deduplicate l = snd <$> (foldl ScrapeMLB.dedup_step [] l).*2.
Proof. unfold ScrapeMLB.deduplicate. by rewrite <- list_fmap_compose. Qed.

Lemma nhl_deduplicate_values l :
  ScrapeNHLMain.deduplicate l = snd <$> (foldl ScrapeNHLMain.dedup_step [] l).*2.
Proof. unfold ScrapeNHLMain.deduplicate. by rewrite <- list_fmap_compose. Qed.

Lemma nba_deduplicate_values l :
  ScrapeNBAMain.deduplicate l = id <$> (foldl ScrapeNBAMain.dedup_step [] l).*2.
Proof. unfold ScrapeNBAMain.deduplicate. by rewrite list_fmap_id. Qed.

(** Of the sightings of a player on a team, the deduplication of
    scrapeMLB.py keeps one with the least depth rank, and among those the
    first: every earlier sighting of the player has a greater rank, and
    no later one has a smaller rank. *)
Theorem mlb_keeps_the_best_sighting l p :
  p ∈ ScrapeMLB.deduplicate l →
  ∃ s1 s2,
    l = s1 ++ p :: s2
    ∧ (∀ q, q ∈ s1 → ScrapeMLB.player_key q = ScrapeMLB.player_key p →
            default ScrapeMLB.DEFAULT_DEPTH_RANK
              (ScrapeMLB.depth_rank_map (ScrapeMLB.depth_label p))
            < default ScrapeMLB.DEFAULT_DEPTH_RANK
                (ScrapeMLB.depth_rank_map (ScrapeMLB.depth_label q)))
    ∧ (∀ q, q ∈ s2 → ScrapeMLB.player_key q = ScrapeMLB.player_key p →
            default ScrapeMLB.DEFAULT_DEPTH_RANK
              (ScrapeMLB.depth_rank_map (ScrapeMLB.depth_label p))
            ≤ default ScrapeMLB.DEFAULT_DEPTH_RANK
                (ScrapeMLB.depth_rank_map (ScrapeMLB.depth_label q))).
Proof.
  rewrite mlb_deduplicate_values.
  apply (rank_dedup_spec ScrapeMLB.player_key mlb_rank (λ p, (mlb_rank p, p)) snd fst
           ScrapeMLB.dedup_step); [done|done|apply mlb_step_spec].
Qed.

Lemma mlb_keeps_the_best_sighting_witness :
  ∃ s1 s2,
    [ScrapeMLB.mkPlayerRecord "Team" "tm" "Depth" "RF" "Al Able" "2nd" None None;
     ScrapeMLB.mkPlayerRecord "Team" "tm" "Depth" "DH" "Al Able" "Starter" None None;
     ScrapeMLB.mkPlayerRecord "Team" "tm" "Depth" "LF" "Al Able" "Starter" None None]
    = s1 ++ ScrapeMLB.mkPlayerRecord "Team" "tm" "Depth" "DH" "Al Able" "Starter"
              None None :: s2
    ∧ (∀ q, q ∈ s1 →
            ScrapeMLB.player_key q
            = ScrapeMLB.player_key
                (ScrapeMLB.mkPlayerRecord "Team" "tm" "Depth" "DH" "Al Able" "Starter"
                   None None) →
            default ScrapeMLB.DEFAULT_DEPTH_RANK
              (ScrapeMLB.depth_rank_map
                 (ScrapeMLB.depth_label
                    (ScrapeMLB.mkPlayerRecord "Team" "tm" "Depth" "DH" "Al Able"
                       "Starter" None None)))
            < default ScrapeMLB.DEFAULT_DEPTH_RANK
                (ScrapeMLB.depth_rank_map (ScrapeMLB.depth_label q)))
    ∧ (∀ q, q ∈ s2 →
            ScrapeMLB.player_key q
            = ScrapeMLB.player_key
                (ScrapeMLB.mkPlayerRecord "Team" "tm" "Depth" "DH" "Al Able" "Starter"
                   None None) →
            default ScrapeMLB.DEFAULT_DEPTH_RANK
              (ScrapeMLB.depth_rank_map
                 (ScrapeMLB.depth_label
                    (ScrapeMLB.mkPlayerRecord "Team" "tm" "Depth" "DH" "Al Able"
                       "Starter" None None)))
            ≤ default ScrapeMLB.DEFAULT_DEPTH_RANK
                (ScrapeMLB.depth_rank_map (ScrapeMLB.depth_label q))).
Proof.
  apply mlb_keeps_the_best_sighting. vm_compute. left.
Defined.

(** The deduplication of scrapeNBA.py keeps the first sighting of a player
    on a team: no earlier sighting has the same name and team. *)
Theorem nba_keeps_the_first_sighting l p :
  p ∈ ScrapeNBAMain.deduplicate l →
  ∃ s1 s2,
    l = s1 ++ p :: s2
    ∧ ∀ q, q ∈ s1 → ScrapeNBAMain.player_key q ≠ ScrapeNBAMain.player_key p.
Proof.
  rewrite nba_deduplicate_values. intros Hp.
  destruct (proj2 (rank_dedup_spec ScrapeNBAMain.player_key (λ _, 0) id id (λ _, 0)
                     ScrapeNBAMain.dedup_step (λ _, eq_refl) (λ _, eq_refl)
                     nba_step_spec l) p Hp)
    as (s1 & s2 & Hl & H1 & _).
  exists s1, s2. split; [done|]. intros q Hq Hk. specialize (H1 q Hq Hk). lia.
Qed.

Lemma nba_keeps_the_first_sighting_witness :
  ∃ s1 s2,
    [ScrapeNBA.mkPlayerRecord "Team" "tm" "Roster" "G" "Al Able" "Roster"
       (Some "/al-able") None None None None None None None None None;
     ScrapeNBA.mkPlayerRecord "Team" "tm" "Roster" "F" "Al Able" "Roster"
       (Some "/al-able") None None None None None None None None None]
    = s1 ++ ScrapeNBA.mkPlayerRecord "Team" "tm" "Roster" "G" "Al Able" "Roster"
              (Some "/al-able") None None None None None None None None None :: s2
    ∧ ∀ q, q ∈ s1 →
           ScrapeNBAMain.player_key q
           ≠ ScrapeNBAMain.player_key
               (ScrapeNBA.mkPlayerRecord "Team" "tm" "Roster" "G" "Al Able" "Roster"
                  (Some "/al-able") None None None None None None None None None).
Proof.
  apply nba_keeps_the_first_sighting. vm_compute. left.
Defined.

(** When all sightings bear the same depth label, as the records of
    [parse_nhl_roster_data] do with the label Roster, the deduplication of
    scrapeNHL.py keeps the first sighting of a player on a team. *)
Theorem nhl_keeps_the_first_sighting l p label :
  Forall (λ q, ScrapeNHL.depth_label q = label) l →
  p ∈ ScrapeNHLMain.deduplicate l →
  ∃ s1 s2,
    l = s1 ++ p :: s2
    ∧ ∀ q, q ∈ s1 → ScrapeNHLMain.player_key q ≠ ScrapeNHLMain.player_key p.
Proof.
  intros Hall. rewrite nhl_deduplicate_values. intros Hp.
  destruct (proj2 (rank_dedup_spec ScrapeNHLMain.player_key nhl_rank
                     (λ p, (nhl_rank p, p)) snd fst
                     ScrapeNHLMain.dedup_step (λ _, eq_refl) (λ _, eq_refl)
                     nhl_step_spec l) p Hp)
    as (s1 & s2 & Hl & H1 & _).
  exists s1, s2. split; [done|]. intros q Hq Hk. specialize (H1 q Hq Hk).
  rewrite Forall_forall in Hall.
  rewrite (Hall p), (Hall q) in H1; [lia| |]; rewrite Hl.
  - apply elem_of_app. by left.
  - apply elem_of_app. right. left.
Qed.

Lemma nhl_keeps_the_first_sighting_witness :
  ∃ s1 s2,
    [ScrapeNHL.mkPlayerRecord "Team" "tm" "Centers" "C" "Al Able" "Roster"
       (Some "/al-able") None None None None None None None;
     ScrapeNHL.mkPlayerRecord "Team" "tm" "Left Wings" "LW" "Al Able" "Roster"
       (Some "/al-able") None None None None None None None]
    = s1 ++ ScrapeNHL.mkPlayerRecord "Team" "tm" "Centers" "C" "Al Able" "Roster"
              (Some "/al-able") None None None None None None None :: s2
    ∧ ∀ q, q ∈ s1 →
           ScrapeNHLMain.player_key q
           ≠ ScrapeNHLMain.player_key
               (ScrapeNHL.mkPlayerRecord "Team" "tm" "Centers" "C" "Al Able" "Roster"
                  (Some "/al-able") None None None None None None None).
Proof.
  apply (nhl_keeps_the_first_sighting _ _ "Roster").
  - repeat constructor.
  - vm_compute. left.
Defined.

(** The three deduplications return one record for each pair of name and
    team, in the order in which the pairs are first sighted. *)
Theorem deduplicated_in_order_of_first_sighting :
  (∀ l, ScrapeMLB.player_key <$> ScrapeMLB.deduplicate l
        = reverse (remove_dups (reverse (ScrapeMLB.player_key <$> l))))
  ∧ (∀ l, ScrapeNBAMain.player_key <$> ScrapeNBAMain.deduplicate l
          = reverse (remove_dups (reverse (ScrapeNBAMain.player_key <$> l))))
  ∧ (∀ l, ScrapeNHLMain.player_key <$> ScrapeNHLMain.deduplicate l
          = reverse (remove_dups (reverse (ScrapeNHLMain.player_key <$> l)))).
Proof.
  split_and!; intros l.
  - rewrite mlb_deduplicate_values.
    apply (rank_dedup_spec ScrapeMLB.player_key mlb_rank (λ p, (mlb_rank p, p)) snd fst
             ScrapeMLB.dedup_step); [done|done|apply mlb_step_spec].
  - rewrite nba_deduplicate_values.
    apply (rank_dedup_spec ScrapeNBAMain.player_key (λ _, 0) id id (λ _, 0)
             ScrapeNBAMain.dedup_step); [done|done|apply nba_step_spec].
  - rewrite nhl_deduplicate_values.
    apply (rank_dedup_spec ScrapeNHLMain.player_key nhl_rank (λ p, (nhl_rank p, p))
             snd fst ScrapeNHLMain.dedup_step); [done|done|apply nhl_step_spec].
Qed.

End DedupTheorems.

(** ** The columns of the roster files *)

Section Columns.
Import WritePlayers.

Lemma headers_permutation preferred all :
  NoDup preferred → NoDup all → headers preferred all ≡ₚ all.
Proof.
  intros Hp Ha. unfold headers.
  etransitivity; [|apply (filter_app_complement (λ h, h ∈ preferred) all)].
  apply Permutation_app; [|apply (sorted_perm id String.compare)].
  apply NoDup_Permutation; [by apply NoDup_filter|by apply NoDup_filter|].
  intros h. rewrite !list_elem_of_filter. tauto.
Qed.

Lemma headers_order_independent preferred all all' :
  all ≡ₚ all' → headers preferred all = headers preferred all'.
Proof.
  intros Hperm. unfold headers. f_equal.
  - apply list_filter_iff. intros h. by rewrite Hperm.
  - apply sorted_permutation_eq; [apply _|by intros x y _ _|by rewrite Hperm].
Qed.

(** The columns of a roster file are the fields of the records, each one
    once, and they do not depend on the order in which the set of fields
    yields them. *)
Theorem columns_are_the_fields preferred all all' :
  NoDup preferred → NoDup all → all ≡ₚ all' →
  headers preferred all ≡ₚ all
  ∧ NoDup (headers preferred all)
  ∧ headers preferred all' = headers preferred all.
Proof.
  intros Hp Ha Hperm. split_and!.
  - by apply headers_permutation.
  - by rewrite headers_permutation.
  - symmetry. by apply headers_order_independent.
Qed.

Lemma columns_are_the_fields_witness :
  headers ["name"; "team"; "age"] ["zip"; "team"; "city"; "name"]
    ≡ₚ ["zip"; "team"; "city"; "name"]
  ∧ NoDup (headers ["name"; "team"; "age"] ["zip"; "team"; "city"; "name"])
  ∧ headers ["name"; "team"; "age"] ["name"; "city"; "zip"; "team"]
    = headers ["name"; "team"; "age"] ["zip"; "team"; "city"; "name"].
Proof.
  apply columns_are_the_fields.
  - apply NoDup_ListNoDup. repeat constructor; simpl; intuition discriminate.
  - apply NoDup_ListNoDup. repeat constructor; simpl; intuition discriminate.
  - apply (Permutation_cons_app ["name"; "city"] ["team"] "zip").
    apply (Permutation_cons_app ["name"; "city"] [] "team").
    apply perm_swap.
Defined.

(** The files of scrapeMLB.py and scrapeNHL.py have the columns of the
    preferred order; the file of scrapeNBA.py has them followed by the depth
    label, which its preferred order leaves out. *)
Theorem columns_of_the_roster_files :
  (∀ all, all ≡ₚ mlb_keys → headers mlb_preferred_headers_order all
                            = mlb_preferred_headers_order)
  ∧ (∀ all, all ≡ₚ nba_keys → headers nba_preferred_headers_order all
                              = nba_preferred_headers_order ++ ["depth_label"])
  ∧ (∀ all, all ≡ₚ nhl_keys → headers nhl_preferred_headers_order all
                              = nhl_preferred_headers_order).
Proof.
  split_and!; intros all Hperm;
    rewrite (headers_order_independent _ _ _ Hperm); reflexivity.
Qed.

Lemma columns_of_the_roster_files_witness :
  headers nba_preferred_headers_order (reverse nba_keys)
  = nba_preferred_headers_order ++ ["depth_label"].
Proof.
  apply (proj1 (proj2 columns_of_the_roster_files)).
  apply reverse_Permutation.
Defined.

End Columns.

(** ** The master file *)

Section MasterFacts.
Import MasterCombine.

Lemma write_files_headed files :
  Forall (λ f : string * list (list string), f.2 ≠ []) files →
  write_files true files = flat_map (λ f, tail f.2) files.
Proof.
  induction 1 as [|[name [|h rows]] fs Hf _ IH]; simpl; [done|done|].
  by rewrite IH.
Qed.

Lemma write_files_cut header_written fs1 name fs2 :
  write_files header_written (fs1 ++ (name, []) :: fs2)
  = write_files header_written fs1.
Proof.
  revert header_written.
  induction fs1 as [|[n [|h rows]] fs1 IH]; intros hw; simpl; [done|done|].
  by rewrite IH.
Qed.

Lemma create_master_sorted output_filename directory f files :
  Py.sorted fst String.compare
    (filter (λ f, is_input output_filename f = true) directory) = f :: files →
  create_master_depth_chart_csv output_filename directory
  = Some (write_files false (f :: files)).
Proof.
  intros Hs. unfold create_master_depth_chart_csv.
  destruct (filter _ directory) as [|g gs] eqn:E; [done|].
  by rewrite Hs.
Qed.

(** When every team file has a header row, the master file is the header
    of the first file in the order of the file names, followed by the rows
    of every file in that order; the header rows of the later files are
    dropped, whatever they hold. *)
Theorem master_is_first_header_and_all_rows output_filename directory
    name header rows files :
  Py.sorted fst String.compare
    (filter (λ f, is_input output_filename f = true) directory)
  = (name, header :: rows) :: files →
  Forall (λ f, f.2 ≠ []) files →
  create_master_depth_chart_csv output_filename directory
  = Some (header :: rows ++ flat_map (λ f, tail f.2) files).
Proof.
  intros Hs Hall. rewrite (create_master_sorted _ _ _ _ Hs).
  simpl. by rewrite write_files_headed.
Qed.

Lemma master_is_first_header_and_all_rows_witness :
  create_master_depth_chart_csv "master.csv"
    [("b.csv", [["Team"; "Name"]; ["B"; "Bo Baker"]]);
     ("master.csv", [["old"]]);
     ("notes.txt", [["text"]]);
     ("a.csv", [["Team"; "PlayerName"]; ["A"; "Al Able"]])]
  = Some (["Team"; "PlayerName"] :: [["A"; "Al Able"]]
          ++ flat_map (λ f : string * list (list string), tail f.2)
               [("b.csv", [["Team"; "Name"]; ["B"; "Bo Baker"]])]).
Proof.
  apply (master_is_first_header_and_all_rows _ _ "a.csv").
  - reflexivity.
  - repeat constructor. done.
Defined.

(** A team file without any row ends the combination: the master file
    holds what the files before it give, and the files after it are not
    read. *)
Theorem empty_team_file_ends_the_master output_filename directory fs1 name fs2 :
  Py.sorted fst String.compare
    (filter (λ f, is_input output_filename f = true) directory)
  = fs1 ++ (name, []) :: fs2 →
  create_master_depth_chart_csv output_filename directory
  = Some (write_files false fs1).
Proof.
  intros Hs.
  destruct (fs1 ++ (name, []) :: fs2) as [|f files] eqn:E.
  - by destruct fs1.
  - rewrite (create_master_sorted _ _ _ _ Hs), <- E. by rewrite write_files_cut.
Qed.

Lemma empty_team_file_ends_the_master_witness :
  create_master_depth_chart_csv "master.csv"
    [("c.csv", [["Team"; "PlayerName"]; ["C"; "Cy Cole"]]);
     ("b.csv", []);
     ("a.csv", [["Team"; "PlayerName"]; ["A"; "Al Able"]])]
  = Some (write_files false [("a.csv", [["Team"; "PlayerName"]; ["A"; "Al Able"]])]).
Proof.
  apply (empty_team_file_ends_the_master _ _ _ "b.csv"
           [("c.csv", [["Team"; "PlayerName"]; ["C"; "Cy Cole"]])]).
  reflexivity.
Defined.

End MasterFacts.

(** ** The identity keys *)

Section IdentityKeys.
Import StartCombining.

Lemma first_occurrences_cover {K} `{!EqDecision K} (ks : list K) :
  NoDup (reverse (remove_dups (reverse ks)))
  ∧ ∀ k, k ∈ ks → k ∈ reverse (remove_dups (reverse ks)).
Proof.
  split.
  - rewrite reverse_Permutation. apply NoDup_remove_dups.
  - intros k Hk. by rewrite elem_of_reverse, elem_of_remove_dups, elem_of_reverse.
Qed.

Lemma nba_deduplicate_keys l :
  ScrapeNBAMain.player_key <$> ScrapeNBAMain.deduplicate l
  = reverse (remove_dups (reverse (ScrapeNBAMain.player_key <$> l))).
Proof.
  rewrite nba_deduplicate_values.
  apply (rank_dedup_spec ScrapeNBAMain.player_key (λ _, 0) id id (λ _, 0)
           ScrapeNBAMain.dedup_step); [done|done|apply nba_step_spec].
Qed.

Lemma nhl_deduplicate_keys l :
  ScrapeNHLMain.player_key <$> ScrapeNHLMain.deduplicate l
  = reverse (remove_dups (reverse (ScrapeNHLMain.player_key <$> l))).
Proof.
  rewrite nhl_deduplicate_values.
  apply (rank_dedup_spec ScrapeNHLMain.player_key
           (λ p, default ScrapeNHLMain.DEFAULT_DEPTH_RANK
                   (ScrapeNHLMain.depth_rank_map (ScrapeNHL.depth_label p)))
           (λ p, (default ScrapeNHLMain.DEFAULT_DEPTH_RANK
                    (ScrapeNHLMain.depth_rank_map (ScrapeNHL.depth_label p)), p))
           snd fst ScrapeNHLMain.dedup_step); [done|done|apply nhl_step_spec].
Qed.

(** C2, as stated, fails: two sightings with the same name on the same
    team and no identifier in either do not make one consolidated player;
    both are skipped. *)
Lemma C2_sightings_without_uid_are_dropped :
  ¬ (size (consolidate "Team"
             [(Offense, [mkRow "" "Al Able" "/al-able" "" "QB" "1"]);
              (SpecialTeams, [mkRow "" "Al Able" "/al-able" "" "H" "1"])])
     = 1%nat).
Proof. vm_compute. discriminate. Qed.

(** C2 (amended).  In the consolidator the identity key is the identifier
    alone: a sighting without identifier leaves the consolidated players
    unchanged, so it makes no record and merges with nothing; a sighting
    that is not skipped files its player under its identifier and touches
    no other entry.  The pair of name and team is the key of the
    deduplications of scrapeMLB.py, scrapeNBA.py and scrapeNHL.py: in each
    of the three the records have distinct keys, every sighting has its
    key among them, and two sightings with the same key make one
    record. *)
Theorem C2_identity_key :
  (∀ team_name prio cp row,
     row_PlayerUID row = "" → process_row team_name prio cp row = cp)
  ∧ (∀ team_name prio (cp : gmap string PlayerData) row,
       skipped row = false →
       dom (process_row team_name prio cp row) = {[row_PlayerUID row]} ∪ dom cp
       ∧ ∀ k, k ≠ row_PlayerUID row →
              process_row team_name prio cp row !! k = cp !! k)
  ∧ ((∀ p, ScrapeMLB.player_key p = (ScrapeMLB.player_name p, ScrapeMLB.team_name p))
     ∧ (∀ p, ScrapeNBAMain.player_key p
             = (ScrapeNBA.player_name p, ScrapeNBA.team_name p))
     ∧ (∀ p, ScrapeNHLMain.player_key p
             = (ScrapeNHL.player_name p, ScrapeNHL.team_name p)))
  ∧ (∀ sightings,
       NoDup (ScrapeMLB.player_key <$> ScrapeMLB.deduplicate sightings)
       ∧ ∀ p, p ∈ sightings →
              ScrapeMLB.player_key p
              ∈ ScrapeMLB.player_key <$> ScrapeMLB.deduplicate sightings)
  ∧ (∀ p q, ScrapeMLB.player_key p = ScrapeMLB.player_key q →
            List.length (ScrapeMLB.deduplicate [p; q]) = 1%nat)
  ∧ (∀ sightings,
       NoDup (ScrapeNBAMain.player_key <$> ScrapeNBAMain.deduplicate sightings)
       ∧ ∀ p, p ∈ sightings →
              ScrapeNBAMain.player_key p
              ∈ ScrapeNBAMain.player_key <$> ScrapeNBAMain.deduplicate sightings)
  ∧ (∀ p q, ScrapeNBAMain.player_key p = ScrapeNBAMain.player_key q →
            List.length (ScrapeNBAMain.deduplicate [p; q]) = 1%nat)
  ∧ (∀ sightings,
       NoDup (ScrapeNHLMain.player_key <$> ScrapeNHLMain.deduplicate sightings)
       ∧ ∀ p, p ∈ sightings →
              ScrapeNHLMain.player_key p
              ∈ ScrapeNHLMain.player_key <$> ScrapeNHLMain.deduplicate sightings)
  ∧ (∀ p q, ScrapeNHLMain.player_key p = ScrapeNHLMain.player_key q →
            List.length (ScrapeNHLMain.deduplicate [p; q]) = 1%nat).
Proof.
  split_and!; try done.
  - intros team_name prio cp row Hu.
    apply process_row_skipped. by apply skipped_no_uid.
  - intros team_name prio cp row Hs.
    rewrite process_row_unskipped by done. split.
    + apply dom_insert_L.
    + intros k Hk. by rewrite lookup_insert_ne.
  - apply deduplicate_one_per_key.
  - intros p q Hpq. unfold ScrapeMLB.deduplicate, ScrapeMLB.dedup_step. simpl.
    rewrite <- Hpq. rewrite bool_decide_eq_true_2 by done.
    destruct (_ <? _); simpl; by rewrite ?bool_decide_eq_true_2.
  - intros sightings. rewrite nba_deduplicate_keys.
    destruct (first_occurrences_cover (ScrapeNBAMain.player_key <$> sightings))
      as [Hnd Hin].
    split; [done|]. intros p Hp. apply Hin. by apply list_elem_of_fmap_2.
  - intros p q Hpq. unfold ScrapeNBAMain.deduplicate, ScrapeNBAMain.dedup_step. simpl.
    rewrite <- Hpq. by rewrite bool_decide_eq_true_2.
  - intros sightings. rewrite nhl_deduplicate_keys.
    destruct (first_occurrences_cover (ScrapeNHLMain.player_key <$> sightings))
      as [Hnd Hin].
    split; [done|]. intros p Hp. apply Hin. by apply list_elem_of_fmap_2.
  - intros p q Hpq. unfold ScrapeNHLMain.deduplicate, ScrapeNHLMain.dedup_step. simpl.
    rewrite <- Hpq. rewrite bool_decide_eq_true_2 by done.
    destruct (_ <? _); simpl; by rewrite ?bool_decide_eq_true_2.
Qed.

Lemma C2_identity_key_witness :
  process_row "Team" 1 ∅ (mkRow "" "Al Able" "/al-able" "" "QB" "1") = ∅.
Proof. apply (proj1 C2_identity_key). reflexivity. Defined.

End IdentityKeys.
